(** * Dormant-customer analysis engine: a shallow embedding

    The development follows [backend/src/data_processor.py] and
    [backend/src/models.py].  Data frames are lists of rows, the pydantic
    models are records, Python exceptions are an error monad, and the
    wall clock read by [process_files] is an explicit argument.  The two
    loaders are left out: a run starts from the loaded frames.

    Numbers.  Python floats and [Decimal]s are embedded as exact rationals
    ([Q]); rounding error is not modelled.  The IEEE special values are
    modelled ([f64]) because the code reaches them: NumPy's float division
    by zero yields an infinity or NaN instead of raising.

    The lifetime value of a customer rounds a product of binary floats to
    cents, which exact rationals do not reproduce: the processor is
    modelled for any function in its place.

    Libraries.  What pandas, NumPy, pydantic and [datetime] do is modelled
    to the extent the code relies on it: a datetime64 column is ordered
    against a [Timestamp] but not against a [datetime.date], for which the
    comparison raises [TypeError]; a date out of the years 1 to 9999
    raises [OverflowError]; the sum of an int64 column wraps around;
    [groupby] orders its groups by key and leaves out missing keys;
    [np.polyfit(x, y, 1)] is the least-squares line; a [str] field
    converts a float with [str], a constrained float field rejects what
    fails its bounds. *)

From Stdlib Require Import ZArith QArith Qminmax Lqa Lia List Bool String Ascii.
From Stdlib Require Import Permutation Sorted Qround DecimalString.
Import ListNotations.

Local Open Scope Z_scope.

(* ===================================================================== *)
(** * Exceptions *)
(* ===================================================================== *)

Inductive exn : Type :=
| ZeroDivisionError   (* Python int / int with a zero divisor *)
| ValidationError     (* pydantic rejects a field value *)
| TypeError           (* pandas refuses a comparison *)
| OverflowError.      (* a date or a timedelta out of range *)

Inductive result (A : Type) : Type :=
| Ok (a : A)
| Raise (e : exn).
Arguments Ok {A} a.
Arguments Raise {A} e.

Definition bind {A B} (m : result A) (k : A -> result B) : result B :=
  match m with
  | Ok a => k a
  | Raise e => Raise e
  end.

Notation "x <- m ;; k" := (bind m (fun x => k))
  (at level 61, m at next level, right associativity).

(** A [for] loop whose body may raise: the first exception aborts it. *)
Fixpoint mapM {A B} (f : A -> result B) (l : list A) : result (list B) :=
  match l with
  | [] => Ok []
  | a :: l' => b <- f a ;; bs <- mapM f l' ;; Ok (b :: bs)
  end.

(* ===================================================================== *)
(** * Dates and timestamps *)
(* ===================================================================== *)

Module Calendar.

(** A [datetime.date] is its proleptic Gregorian ordinal
    ([date.toordinal()]); a pandas [Timestamp] is its count of nanoseconds
    since 1970-01-01T00:00. *)
Definition date := Z.
Definition Timestamp := Z.

Definition NS_PER_DAY : Z := 86400 * 1000000000.
Definition EPOCH_ORDINAL : Z := 719163.   (* date(1970, 1, 1).toordinal() *)

(** [Timestamp.date()]: the calendar day the instant falls in. *)
Definition Timestamp_date (ts : Timestamp) : date :=
  ts / NS_PER_DAY + EPOCH_ORDINAL.

(** The first instant of an ordinal day. *)
Definition Timestamp_of_date (d : date) : Timestamp :=
  (d - EPOCH_ORDINAL) * NS_PER_DAY.

(** [(d1 - d2).days] *)
Definition days_between (d1 d2 : date) : Z := d1 - d2.

(** [date.min.toordinal()] and [date.max.toordinal()]: the first day of
    year 1 and the last day of year 9999. *)
Definition _MINORDINAL : Z := 1.
Definition _MAXORDINAL : Z := 3652059.

(** [timedelta(days=n)], as its count of days: the magnitude of [n] is at
    most 999999999. *)
Definition timedelta (days : Z) : result Z :=
  if Z.abs days <=? 999999999 then Ok days else Raise OverflowError.

(** [d - delta] for a date and a timedelta: the day reached is a date. *)
Definition date_sub (d : date) (delta : Z) : result date :=
  let ordinal := d - delta in
  if (_MINORDINAL <=? ordinal) && (ordinal <=? _MAXORDINAL) then Ok ordinal
  else Raise OverflowError.

(** [d - timedelta(days=n)] *)
Definition minus_days (d : date) (n : Z) : result date :=
  delta <- timedelta n ;; date_sub d delta.

Definition _DI400Y : Z := 146097.
Definition _DI100Y : Z := 36524.
Definition _DI4Y : Z := 1461.

Definition _DAYS_IN_MONTH (m : Z) : Z :=
  match m with
  | 1 => 31 | 2 => 28 | 3 => 31 | 4 => 30 | 5 => 31 | 6 => 30
  | 7 => 31 | 8 => 31 | 9 => 30 | 10 => 31 | 11 => 30 | 12 => 31
  | _ => -1
  end.

Definition _DAYS_BEFORE_MONTH (m : Z) : Z :=
  match m with
  | 1 => 0 | 2 => 31 | 3 => 59 | 4 => 90 | 5 => 120 | 6 => 151
  | 7 => 181 | 8 => 212 | 9 => 243 | 10 => 273 | 11 => 304 | 12 => 334
  | _ => -1
  end.

(** Ordinal to (year, month, day), the standard library's [_ord2ymd]. *)
Definition _ord2ymd (n0 : Z) : Z * Z * Z :=
  let n := n0 - 1 in
  let n400 := n / _DI400Y in
  let n := n mod _DI400Y in
  let year := n400 * 400 + 1 in
  let n100 := n / _DI100Y in
  let n := n mod _DI100Y in
  let n4 := n / _DI4Y in
  let n := n mod _DI4Y in
  let n1 := n / 365 in
  let n := n mod 365 in
  let year := year + n100 * 100 + n4 * 4 + n1 in
  if (n1 =? 4) || (n100 =? 4) then (year - 1, 12, 31)
  else
    let leapyear := (n1 =? 3) && (negb (n4 =? 24) || (n100 =? 3)) in
    let month := Z.shiftr (n + 50) 5 in
    let preceding :=
      _DAYS_BEFORE_MONTH month + (if (2 <? month) && leapyear then 1 else 0) in
    if n <? preceding then
      let month := month - 1 in
      let preceding :=
        preceding
        - (_DAYS_IN_MONTH month + (if (month =? 2) && leapyear then 1 else 0)) in
      (year, month, n - preceding + 1)
    else (year, month, n - preceding + 1).

Definition date_year (d : date) : Z := fst (fst (_ord2ymd d)).
Definition date_month (d : date) : Z := snd (fst (_ord2ymd d)).

(** [Series.dt.month] *)
Definition Timestamp_month (ts : Timestamp) : Z :=
  date_month (Timestamp_date ts).

(** [Series.dt.to_period('M')]: a monthly period, ordered as its index
    [12 * year + (month - 1)]. *)
Definition to_period_M (ts : Timestamp) : Z :=
  let d := Timestamp_date ts in 12 * date_year d + (date_month d - 1).

(** Midnight of an ordinal day, for writing inputs. *)
Definition at_midnight (d : date) : Timestamp := Timestamp_of_date d.

End Calendar.
Import Calendar.

(* ===================================================================== *)
(** * Numbers *)
(* ===================================================================== *)

Local Open Scope Q_scope.

(** A float64 value: an exact rational, an infinity or NaN. *)
Inductive f64 : Type :=
| Fin (q : Q)
| PInf
| NInf
| NaN.

Definition Qltb (a b : Q) : bool := negb (Qle_bool b a).

(** [a < b] on floats; every comparison with NaN is false. *)
Definition f_lt (a b : f64) : bool :=
  match a, b with
  | NaN, _ | _, NaN => false
  | Fin x, Fin y => Qltb x y
  | NInf, NInf => false
  | NInf, _ => true
  | _, NInf => false
  | PInf, _ => false
  | Fin _, PInf => true
  end.

(** The builtins [min(a, b)] and [max(a, b)]: the first argument is kept
    unless the second compares strictly smaller (larger). *)
Definition py_min (a b : f64) : f64 := if f_lt b a then b else a.
Definition py_max (a b : f64) : f64 := if f_lt a b then b else a.

Definition f_neg (a : f64) : f64 :=
  match a with Fin x => Fin (- x) | PInf => NInf | NInf => PInf | NaN => NaN end.

Definition f_add (a b : f64) : f64 :=
  match a, b with
  | NaN, _ | _, NaN => NaN
  | Fin x, Fin y => Fin (x + y)
  | PInf, NInf | NInf, PInf => NaN
  | PInf, _ | _, PInf => PInf
  | NInf, _ | _, NInf => NInf
  end.

Definition f_sub (a b : f64) : f64 := f_add a (f_neg b).

Definition f_mul (a b : f64) : f64 :=
  match a, b with
  | NaN, _ | _, NaN => NaN
  | Fin x, Fin y => Fin (x * y)
  | Fin x, PInf | PInf, Fin x =>
      if Qeq_bool x 0 then NaN else if Qltb 0 x then PInf else NInf
  | Fin x, NInf | NInf, Fin x =>
      if Qeq_bool x 0 then NaN else if Qltb 0 x then NInf else PInf
  | PInf, PInf | NInf, NInf => PInf
  | PInf, NInf | NInf, PInf => NInf
  end.

(** NumPy float division: a zero divisor gives NaN for [0/0] and a signed
    infinity otherwise (a warning, not an exception). *)
Definition f_div (a b : f64) : f64 :=
  match a, b with
  | NaN, _ | _, NaN => NaN
  | Fin x, Fin y =>
      if Qeq_bool y 0 then
        if Qeq_bool x 0 then NaN else if Qltb 0 x then PInf else NInf
      else Fin (x / y)
  | Fin _, _ => Fin 0
  | _, Fin y => if Qltb y 0 then f_neg a else a
  | _, _ => NaN
  end.

(** Equality of floats up to the representation of the rational. *)
Definition f64_eq (a b : f64) : Prop :=
  match a, b with
  | Fin x, Fin y => x == y
  | PInf, PInf | NInf, NInf | NaN, NaN => True
  | _, _ => False
  end.

(** [min] and [max] on finite numbers, with Python's choice on ties. *)
Definition min_ (a b : Q) : Q := if Qltb b a then b else a.
Definition max_ (a b : Q) : Q := if Qltb a b then b else a.

(** [sum(xs)] *)
Definition sum (xs : list Q) : Q := fold_left Qplus xs 0.

(** [np.mean(xs)] / [Series.mean()] of a non-empty sequence. *)
Definition mean (xs : list Q) : Q := sum xs / inject_Z (Z.of_nat (List.length xs)).

Definition len {A} (l : list A) : Z := Z.of_nat (List.length l).

(* ===================================================================== *)
(** * Insertion-ordered dictionaries *)
(* ===================================================================== *)

(** A Python [dict] with string keys: an association list without
    duplicate keys, in insertion order.  Assigning to a key that is
    present replaces its value where it stands. *)
Module Dict.

Definition t (V : Type) := list (string * V).

Fixpoint get {V} (d : t V) (k : string) : option V :=
  match d with
  | [] => None
  | (k', v) :: d' => if String.eqb k k' then Some v else get d' k
  end.

Fixpoint set {V} (d : t V) (k : string) (v : V) : t V :=
  match d with
  | [] => [(k, v)]
  | (k', v') :: d' =>
      if String.eqb k k' then (k', v) :: d' else (k', v') :: set d' k v
  end.

Definition keys {V} (d : t V) : list string := map fst d.
Definition items {V} (d : t V) : list (string * V) := d.

End Dict.

(* ===================================================================== *)
(** * Data model ([models.py] and the frames of [data_processor.py]) *)
(* ===================================================================== *)

Local Open Scope string_scope.

(** A cell of a raw column: a value the coercion accepts, text it
    rejects, or an empty cell. *)
Inductive cell (A : Type) : Type :=
| Parsed (a : A)
| Unparseable (raw : string)
| Missing.
Arguments Parsed {A} a.
Arguments Unparseable {A} raw.
Arguments Missing {A}.

(** [pd.to_datetime(col, errors='coerce')], [pd.to_numeric(col,
    errors='coerce')]: what cannot be parsed becomes missing. *)
Definition coerce {A} (c : cell A) : option A :=
  match c with Parsed a => Some a | _ => None end.
Definition to_datetime : cell Timestamp -> option Timestamp := coerce.
Definition to_numeric : cell Q -> option Q := coerce.

Definition isna {A} (o : option A) : bool :=
  match o with None => true | Some _ => false end.
Definition fillna {A} (o : option A) (v : option A) : option A :=
  match o with None => v | Some _ => o end.

(** [col.isna().sum()] *)
Definition isna_sum {A} (col : list (option A)) : Z :=
  len (filter isna col).

(** A row of the sales frame as loaded.  The frame has every column the
    code reads, so the tests [col in df.columns] hold. *)
Record RawRow : Type := mkRawRow {
  raw_Invoice_date : cell Timestamp;
  raw_Posted_date : cell Timestamp;
  raw_Customer : option string;
  raw_Salesperson : option string;
  raw_Item : option string;
  raw_Qty : Z;
  raw_Net_price : cell Q
}.

(** A row of the frame [df] inside [validate_sales_data], once the
    columns have been coerced. *)
Record CoercedRow : Type := mkCoercedRow {
  c_Invoice_date : option Timestamp;
  c_Posted_date : option Timestamp;
  c_Customer : option string;
  c_Salesperson : option string;
  c_Item : option string;
  c_Qty : Z;
  c_Net_price : option Q
}.

(** A row of a clean frame ([df_clean] and what the later stages read):
    posted date and customer are present, the price is a number.
    [Salesperson_Original] is the column added by
    [_apply_customer_mappings]; it is missing before that stage. *)
Record Row : Type := mkRow {
  Invoice_date : option Timestamp;
  Posted_date : Timestamp;
  Customer : string;
  Salesperson : option string;
  Salesperson_Original : option string;
  Item : option string;
  Qty : Z;
  Net_price : Q
}.

Record DataQualityReport : Type := mkDataQualityReport {
  total_records : Z;
  valid_records : Z;
  duplicate_records : Z;
  missing_customer_mappings : Z;
  invalid_dates : Z;
  invalid_prices : Z;
  data_completeness_score : Q;
  recommendations : list string
}.

Record AnalyticsConfig : Type := mkAnalyticsConfig {
  today_date : date;
  dormant_days_threshold : Z;
  analysis_period_months : Z;
  high_value_threshold : Q;
  quick_win_threshold : Q;
  min_orders_for_pattern : Z
}.

(** The defaults of [AnalyticsConfig], for a given current date. *)
Definition default_config (today : date) : AnalyticsConfig :=
  {| today_date := today;
     dormant_days_threshold := 45;
     analysis_period_months := 6;
     high_value_threshold := 1000;
     quick_win_threshold := 500;
     min_orders_for_pattern := 3 |}.

Record DormantCustomer : Type := mkDormantCustomer {
  customer : string;
  salesperson : string;
  last_order_date : date;
  days_since_order : Z;
  total_6_month_value : Q;
  order_count_6_months : Z;
  average_order_value : Q;
  churn_risk_score : Q;
  customer_lifetime_value : Q;
  preferred_products : list string;
  seasonal_pattern : option string
}.

(** [salesperson] is [ss_salesperson] here, the name being taken by
    [DormantCustomer]. *)
Record SalespersonSummary : Type := mkSalespersonSummary {
  ss_salesperson : string;
  dormant_customer_count : Z;
  total_value_at_risk : Q;
  high_value_dormant_count : Z;
  quick_win_count : Z;
  average_churn_risk : Q
}.

(* ===================================================================== *)
(** * Frame operations *)
(* ===================================================================== *)

Definition option_eqb {A} (eqb : A -> A -> bool) (x y : option A) : bool :=
  match x, y with
  | Some a, Some b => eqb a b
  | None, None => true
  | _, _ => false
  end.

(** [str(n)] for an integer. *)
Definition str_of_int (n : Z) : string := NilZero.string_of_int (Z.to_int n).

(** [Series.max()] *)
Definition Series_max (l : list Z) : option Z :=
  match l with
  | [] => None
  | x :: l' => Some (fold_left Z.max l' x)
  end.

(** What a datetime64 column is compared with. *)
Inductive comparand : Type :=
| a_Timestamp (t : Timestamp)     (* a pandas Timestamp, a datetime *)
| a_date (d : date).              (* a datetime.date *)

(** [column >= other] and [column < other] for a datetime64 column, a
    missing instant comparing false.  pandas orders the column against a
    [Timestamp]; against a [datetime.date] the comparison is invalid and
    raises [TypeError], whatever the rows, also when there is none. *)
Definition Series_ge (column : list (option Timestamp)) (other : comparand)
  : result (list bool) :=
  match other with
  | a_Timestamp t =>
      Ok (map (fun x => match x with Some x => (t <=? x)%Z | None => false end)
              column)
  | a_date _ => Raise TypeError
  end.

Definition Series_lt (column : list (option Timestamp)) (other : comparand)
  : result (list bool) :=
  match other with
  | a_Timestamp t =>
      Ok (map (fun x => match x with Some x => (x <? t)%Z | None => false end)
              column)
  | a_date _ => Raise TypeError
  end.

(** [mask1 & mask2] *)
Definition mask_and (mask1 mask2 : list bool) : list bool :=
  map (fun p => fst p && snd p) (combine mask1 mask2).

(** [df[mask]] *)
Definition boolean_index {R} (df : list R) (mask : list bool) : list R :=
  map fst (filter snd (combine df mask)).

(** The value an int64 holds after arithmetic on 64 bits: the integer
    taken modulo 2^64 into the signed range. *)
Definition int64 (z : Z) : Z :=
  ((z + 2 ^ 63) mod 2 ^ 64 - 2 ^ 63)%Z.

(** [Series.sum()] of an int64 column: the sum wraps around. *)
Definition Series_sum_int64 (l : list Z) : Z :=
  fold_left (fun acc x => int64 (acc + x)%Z) l 0%Z.

Section GroupBy.
Context {K : Type} (eqb leb : K -> K -> bool).

Fixpoint insert_key (k : K) (l : list K) : list K :=
  match l with
  | [] => [k]
  | k' :: l' =>
      if eqb k k' then l
      else if leb k k' then k :: l
      else k' :: insert_key k l'
  end.

(** The group keys: each value once, in ascending order. *)
Definition unique_sorted (l : list K) : list K := fold_right insert_key [] l.

(** [rows.groupby(key)]: the groups by ascending key, each with its rows
    in frame order; rows whose key is missing belong to no group. *)
Definition groupby {R} (key : R -> option K) (rows : list R)
  : list (K * list R) :=
  let present := flat_map (fun r => match key r with
                                    | Some k => [k] | None => [] end) rows in
  map (fun k => (k, filter (fun r => option_eqb eqb (key r) (Some k)) rows))
      (unique_sorted present).
End GroupBy.

Section StableSort.
Context {A : Type} (gt : A -> A -> bool).

Fixpoint insert_desc (x : A) (l : list A) : list A :=
  match l with
  | [] => [x]
  | y :: l' => if gt y x then y :: insert_desc x l' else x :: l
  end.

(** [sorted(l, key=..., reverse=True)]: descending, and elements that
    compare equal keep their order. *)
Definition sorted_desc (l : list A) : list A := fold_right insert_desc [] l.
End StableSort.

(* ===================================================================== *)
(** * DataValidator *)
(* ===================================================================== *)

Definition coerce_row (r : RawRow) : CoercedRow :=
  {| c_Invoice_date := to_datetime (raw_Invoice_date r);
     c_Posted_date := to_datetime (raw_Posted_date r);
     c_Customer := raw_Customer r;
     c_Salesperson := raw_Salesperson r;
     c_Item := raw_Item r;
     c_Qty := raw_Qty r;
     c_Net_price := to_numeric (raw_Net_price r) |}.

(** [df['Net price'] = df['Net price'].fillna(0)] *)
Definition fillna_Net_price (r : CoercedRow) : CoercedRow :=
  {| c_Invoice_date := c_Invoice_date r;
     c_Posted_date := c_Posted_date r;
     c_Customer := c_Customer r;
     c_Salesperson := c_Salesperson r;
     c_Item := c_Item r;
     c_Qty := c_Qty r;
     c_Net_price := fillna (c_Net_price r) (Some 0%Q) |}.

(** [df.dropna(subset=['Posted date', 'Customer'])], row by row.  The
    price column holds no missing value once filled; a missing price
    reads as 0 here. *)
Definition dropna_row (r : CoercedRow) : option Row :=
  match c_Posted_date r, c_Customer r with
  | Some p, Some c =>
      Some {| Invoice_date := c_Invoice_date r;
              Posted_date := p;
              Customer := c;
              Salesperson := c_Salesperson r;
              Salesperson_Original := None;
              Item := c_Item r;
              Qty := c_Qty r;
              Net_price := match c_Net_price r with
                           | Some q => q | None => 0%Q end |}
  | _, _ => None
  end.

Definition dropna (df : list CoercedRow) : list Row :=
  flat_map (fun r => match dropna_row r with Some r' => [r'] | None => [] end) df.

Definition Row_eqb (a b : Row) : bool :=
  option_eqb Z.eqb (Invoice_date a) (Invoice_date b)
  && Z.eqb (Posted_date a) (Posted_date b)
  && String.eqb (Customer a) (Customer b)
  && option_eqb String.eqb (Salesperson a) (Salesperson b)
  && option_eqb String.eqb (Salesperson_Original a) (Salesperson_Original b)
  && option_eqb String.eqb (Item a) (Item b)
  && Z.eqb (Qty a) (Qty b)
  && Qeq_bool (Net_price a) (Net_price b).

(** [df.duplicated().sum()]: the rows equal to an earlier row. *)
Fixpoint duplicated_sum (seen rows : list Row) : Z :=
  match rows with
  | [] => 0
  | r :: rows' =>
      ((if existsb (Row_eqb r) seen then 1 else 0)
       + duplicated_sum (r :: seen) rows')%Z
  end.

Module DataValidator.

Definition validate_sales_data (df0 : list RawRow)
  : list Row * DataQualityReport :=
  let initial_count := len df0 in
  let issues : list string := [] in
  (* Convert dates *)
  let df := map coerce_row df0 in
  let invalid_dates := isna_sum (map c_Invoice_date df) in
  let issues :=
    if (0 <? invalid_dates)%Z
    then (issues ++ [(str_of_int invalid_dates ++ " invalid dates in Invoice date")%string])%list
    else issues in
  let invalid_dates := isna_sum (map c_Posted_date df) in
  let issues :=
    if (0 <? invalid_dates)%Z
    then (issues ++ [(str_of_int invalid_dates ++ " invalid dates in Posted date")%string])%list
    else issues in
  (* Clean and validate prices *)
  let invalid_prices := isna_sum (map c_Net_price df) in
  let issues :=
    if (0 <? invalid_prices)%Z
    then (issues ++ [(str_of_int invalid_prices ++ " invalid prices")%string])%list
    else issues in
  let df := map fillna_Net_price df in
  (* Remove completely invalid rows *)
  let df_clean := dropna df in
  let removed_count := (initial_count - len df_clean)%Z in
  (* Detect duplicates *)
  let duplicates := duplicated_sum [] df_clean in
  let quality_report :=
    {| total_records := initial_count;
       valid_records := len df_clean;
       duplicate_records := duplicates;
       missing_customer_mappings := 0;
       invalid_dates := isna_sum (map c_Posted_date df);
       invalid_prices := isna_sum (map c_Net_price df);
       data_completeness_score :=
         if (0 <? initial_count)%Z
         then inject_Z (len df_clean) / inject_Z initial_count
         else 0;
       recommendations := issues |} in
  (df_clean, quality_report).

End DataValidator.

(* ===================================================================== *)
(** * AdvancedAnalytics *)
(* ===================================================================== *)

(** [np.arange(n)] *)
Definition arange (n : nat) : list Q :=
  map (fun i => inject_Z (Z.of_nat i)) (seq 0 n).

Definition dot (xs ys : list Q) : Q :=
  sum (map (fun p => fst p * snd p) (combine xs ys)).

(** [np.polyfit(x, y, 1)[0]]: the slope of the least-squares line. *)
Definition polyfit1_slope (x y : list Q) : Q :=
  let n := inject_Z (len x) in
  (n * dot x y - sum x * sum y) / (n * dot x x - sum x * sum x).

(** Python's [a / b] on two ints. *)
Definition int_truediv (a b : Z) : result Q :=
  if (b =? 0)%Z then Raise ZeroDivisionError
  else Ok (inject_Z a / inject_Z b).

(** [Series.idxmax()]: the label of the first largest value. *)
Fixpoint idxmax_from (best : Z * Z) (l : list (Z * Z)) : Z :=
  match l with
  | [] => fst best
  | kv :: l' =>
      if (snd best <? snd kv)%Z then idxmax_from kv l' else idxmax_from best l'
  end.

Definition idxmax (l : list (Z * Z)) : option Z :=
  match l with
  | [] => None
  | kv :: l' => Some (idxmax_from kv l')
  end.

Module AdvancedAnalytics.

(** [customer_data.groupby(customer_data['Posted date'].dt.to_period('M'))
    ['Net price'].sum().sort_index()] *)
Definition monthly_spending (customer_data : list Row) : list (Z * Q) :=
  map (fun g => (fst g, sum (map Net_price (snd g))))
      (groupby Z.eqb Z.leb (fun r => Some (to_period_M (Posted_date r)))
               customer_data).

Definition _calculate_value_trend (customer_data : list Row) : f64 :=
  if (len customer_data <? 3)%Z then Fin 0.5
  else
    let monthly_spending := monthly_spending customer_data in
    if (len monthly_spending <? 2)%Z then Fin 0.5
    else
      (* Simple trend calculation *)
      let x := arange (List.length monthly_spending) in
      let y := map snd monthly_spending in
      if (2 <=? len x)%Z then
        let slope := polyfit1_slope x y in
        py_max (py_min (f_add (f_div (Fin slope) (Fin (mean y))) (Fin 0.5))
                       (Fin 1))
               (Fin 0)
      else Fin 0.5.

Definition calculate_churn_risk_score
    (customer_data : list Row) (config : AnalyticsConfig) : result f64 :=
  match Series_max (map Posted_date customer_data) with
  | None => Ok (Fin 0.5)                      (* customer_data.empty *)
  | Some last =>
      (* Factors contributing to churn risk *)
      let days_since_last_order :=
        days_between (today_date config) (Timestamp_date last) in
      order_frequency <-
        int_truediv (len customer_data) (analysis_period_months config * 30) ;;
      let avg_order_value := mean (map Net_price customer_data) in
      let value_trend := _calculate_value_trend customer_data in
      (* Normalize factors (0-1 scale) *)
      let recency_score :=
        py_min (Fin (inject_Z days_since_last_order / 90)) (Fin 1) in
      let frequency_score := py_max (Fin (1 - order_frequency)) (Fin 0) in
      let value_score := py_max (Fin (1 - avg_order_value / 1000)) (Fin 0) in
      let trend_score := py_max (f_sub (Fin 1) value_trend) (Fin 0) in
      (* Weighted average *)
      let risk_score :=
        f_add (f_add (f_add (f_mul recency_score (Fin 0.4))
                            (f_mul frequency_score (Fin 0.3)))
                     (f_mul value_score (Fin 0.2)))
              (f_mul trend_score (Fin 0.1)) in
      Ok (py_min (py_max risk_score (Fin 0)) (Fin 1))
  end.

(** The dict [seasonal_map], in the order it is written. *)
Definition seasonal_map : list (list Z * string) :=
  [ ([12; 1; 2]%Z, "Winter");
    ([3; 4; 5]%Z, "Spring");
    ([6; 7; 8]%Z, "Summer");
    ([9; 10; 11]%Z, "Fall") ].

Fixpoint season_of (peak_month : Z) (m : list (list Z * string)) : string :=
  match m with
  | [] => "No clear pattern"
  | (months, season) :: m' =>
      if existsb (Z.eqb peak_month) months then season ++ " buyer"
      else season_of peak_month m'
  end.

Definition identify_seasonal_patterns (customer_data : list Row)
  : option string :=
  if (len customer_data <? 6)%Z then None
  else
    let monthly_orders :=
      map (fun g => (fst g, len (snd g)))
          (groupby Z.eqb Z.leb (fun r => Some (Timestamp_month (Posted_date r)))
                   customer_data) in
    match idxmax monthly_orders with
    | None => None                             (* monthly_orders.empty *)
    | Some peak_month => Some (season_of peak_month seasonal_map)
    end.

End AdvancedAnalytics.

(* ===================================================================== *)
(** * DormantCustomerProcessor *)
(* ===================================================================== *)

(** The planning frame, column by column: a header and its cells. *)
Definition PlanningFrame := list (string * list (option string)).

(** [df[col]] *)
Fixpoint column (df : PlanningFrame) (col : string) : list (option string) :=
  match df with
  | [] => []
  | (name, cells) :: df' =>
      if String.eqb name col then cells else column df' col
  end.

Definition lower_ascii (c : ascii) : ascii :=
  let n := nat_of_ascii c in
  if (65 <=? n)%nat && (n <=? 90)%nat then ascii_of_nat (n + 32) else c.

(** [str.lower()], on ASCII letters. *)
Fixpoint lower (s : string) : string :=
  match s with
  | EmptyString => EmptyString
  | String c s' => String (lower_ascii c) (lower s')
  end.

(** [pat in s] *)
Definition contains (pat s : string) : bool :=
  match index 0 pat s with Some _ => true | None => false end.

(** An entry of [rep_data]; its key ['quick_win_count'] is
    [quick_win_count_] here. *)
Record RepData : Type := mkRepData {
  customers : list DormantCustomer;
  total_value : Q;
  high_value_count : Z;
  quick_win_count_ : Z;
  risk_scores : list Q
}.

(** The text of an insight, kept as the template chosen and the values
    substituted into it; the rendering of the numbers is not modelled. *)
Inductive insight : Type :=
| NoDormantCustomers
    (* "No dormant customers found for analysis" *)
| TopPriorityRep (rep : string) (value_at_risk : Q) (count : Z) (risk : Q)
| TopPriorityCustomer (name : string) (value : Q) (rep : string) (risk : Q)
| QuickWins (rep : string) (count : Z)
| SeasonalInsight (count : Z) (pattern : string).

(** The [summary] dict of a result; its four keys are fixed. *)
Record Summary : Type := mkSummary {
  total_dormant_customers : Z;
  summary_total_value_at_risk : Q;
  summary_average_churn_risk : Q;
  data_quality_score : Q
}.

Record ProcessingResult : Type := mkProcessingResult {
  summary : Summary;
  salesperson_summaries : list SalespersonSummary;
  dormant_customers : list DormantCustomer;
  insights : Dict.t insight;
  data_quality_report : DataQualityReport;
  processing_timestamp : Timestamp;
  total_customers_analyzed : Z;
  data_accuracy_score : Q
}.

(** [max(l, key=...)]: the first of the largest elements. *)
Definition max_by {A} (gt : A -> A -> bool) (x : A) (l : list A) : A :=
  fold_left (fun best y => if gt y best then y else best) l x.

(** pydantic's validation of the fields of [DormantCustomer] that can
    reject or convert what the processor passes. *)
Module Pydantic.

(** [salesperson: str]; a missing cell is the float NaN, which the
    string validator converts with [str]. *)
Definition str_field (v : option string) : string :=
  match v with Some s => s | None => "nan" end.

(** [churn_risk_score: float = Field(ge=0, le=1)] *)
Definition unit_interval_field (v : f64) : result Q :=
  match v with
  | Fin q => if Qle_bool 0 q && Qle_bool q 1 then Ok q else Raise ValidationError
  | _ => Raise ValidationError
  end.

End Pydantic.

Module DormantCustomerProcessor.

Section WithConfig.
Variable config : AnalyticsConfig.

(** [self.analytics.calculate_customer_lifetime_value]: the average order
    value times the estimated orders of a year, a product of binary
    floats rounded to cents.  It is left open: the processor is
    modelled for any such function. *)
Variable calculate_customer_lifetime_value : list Row -> Q.

Definition scan_columns (cols : list string) : option string * option string :=
  fold_left
    (fun (found : option string * option string) col =>
       let (customer_col, rep_col) := found in
       if contains "customer" (lower col) then (Some col, rep_col)
       else if contains "rep" (lower col)
               || contains "salesperson" (lower col)
               || contains "assigned" (lower col)
            then (customer_col, Some col)
       else (customer_col, rep_col))
    cols (None, None).

(** [dict(zip(keys, values))]; a row without a customer name adds a key
    no sale can carry and is left out. *)
Definition dict_zip (ks vs : list (option string))
  : Dict.t (option string) :=
  fold_left
    (fun d kv => match fst kv with
                 | Some k => Dict.set d k (snd kv)
                 | None => d
                 end)
    (combine ks vs) [].

Definition customer_mapping_of (planning_df : PlanningFrame)
  : Dict.t (option string) :=
  match scan_columns (map fst planning_df) with
  | (Some customer_col, Some rep_col) =>
      dict_zip (column planning_df customer_col) (column planning_df rep_col)
  | _ => []
  end.

(** [Series.map(customer_mapping)]: missing where the key is absent,
    and where the value found is itself missing. *)
Definition Series_map (d : Dict.t (option string)) (k : string)
  : option string :=
  match Dict.get d k with
  | Some v => v
  | None => None
  end.

Definition _apply_customer_mappings
    (sales_df : list Row) (planning_df : PlanningFrame) : list Row :=
  let customer_mapping := customer_mapping_of planning_df in
  (* Apply mappings *)
  map (fun r =>
         {| Invoice_date := Invoice_date r;
            Posted_date := Posted_date r;
            Customer := Customer r;
            Salesperson :=
              fillna (Series_map customer_mapping (Customer r)) (Salesperson r);
            Salesperson_Original := Salesperson r;
            Item := Item r;
            Qty := Qty r;
            Net_price := Net_price r |})
      sales_df.

Definition cutoff_date : result date :=
  minus_days (today_date config) (dormant_days_threshold config).
Definition analysis_start : result date :=
  minus_days (today_date config) (analysis_period_months config * 30).

(** [customer_data.groupby('Item')['Qty'].sum().nlargest(3).index.tolist()] *)
Definition product_prefs (customer_data : list Row) : list string :=
  let totals :=
    map (fun g => (fst g, Series_sum_int64 (map Qty (snd g))))
        (groupby String.eqb String.leb Item customer_data) in
  map fst
      (firstn 3 (sorted_desc (fun a b : string * Z => (snd b <? snd a)%Z)
                             totals)).

(** The body of the loop over the dormant names: nothing for a customer
    without rows ([continue]), else the customer's record. *)
Definition analyse_customer (period_sales : list Row) (name : string)
  : result (list DormantCustomer) :=
  let customer_data :=
    filter (fun r => String.eqb (Customer r) name) period_sales in
  match customer_data, Series_max (map Posted_date customer_data) with
  | first :: _, Some last =>
      (* Calculate analytics *)
      churn_risk <-
        AdvancedAnalytics.calculate_churn_risk_score customer_data config ;;
      let clv := calculate_customer_lifetime_value customer_data in
      let seasonal_pattern :=
        AdvancedAnalytics.identify_seasonal_patterns customer_data in
      churn_risk <- Pydantic.unit_interval_field churn_risk ;;
      Ok [ {| customer := name;
              salesperson := Pydantic.str_field (Salesperson first);
              last_order_date := Timestamp_date last;
              days_since_order :=
                days_between (today_date config) (Timestamp_date last);
              total_6_month_value := sum (map Net_price customer_data);
              order_count_6_months := len customer_data;
              average_order_value := mean (map Net_price customer_data);
              churn_risk_score := churn_risk;
              customer_lifetime_value := clv;
              preferred_products := product_prefs customer_data;
              seasonal_pattern := seasonal_pattern |} ]
  | _, _ => Ok []
  end.

Definition _identify_dormant_customers (sales_df : list Row)
  : result (list DormantCustomer) :=
  cutoff_date <- cutoff_date ;;
  analysis_start <- analysis_start ;;
  (* Filter for analysis period *)
  in_period <-
    Series_ge (map (fun r => Some (Posted_date r)) sales_df)
              (a_date analysis_start) ;;
  let period_sales := boolean_index sales_df in_period in
  (* Find last order date for each customer; the column
     'last_order_date' added to them is not read *)
  let customer_last_orders :=
    map (fun g => (fst g, Series_max (map Posted_date (snd g))))
        (groupby String.eqb String.leb (fun r => Some (Customer r))
                 period_sales) in
  (* Identify dormant customers (ordered in period but not recently) *)
  since_start <-
    Series_ge (map snd customer_last_orders) (a_date analysis_start) ;;
  before_cutoff <-
    Series_lt (map snd customer_last_orders) (a_date cutoff_date) ;;
  let dormant_mask := mask_and since_start before_cutoff in
  let dormant_customer_names :=
    map fst (boolean_index customer_last_orders dormant_mask) in
  found <- mapM (analyse_customer period_sales) dormant_customer_names ;;
  Ok (List.concat found).

Definition new_rep_data : RepData :=
  {| customers := []; total_value := 0; high_value_count := 0;
     quick_win_count_ := 0; risk_scores := [] |}.

(** One pass of the aggregation loop; a representative met for the
    first time starts from the empty entry. *)
Definition add_customer (rep_data : Dict.t RepData) (c : DormantCustomer)
  : Dict.t RepData :=
  let rep := salesperson c in
  let data := match Dict.get rep_data rep with
              | Some data => data
              | None => new_rep_data
              end in
  let high := Qle_bool (high_value_threshold config) (total_6_month_value c) in
  let quick := Qle_bool (total_6_month_value c) (quick_win_threshold config) in
  Dict.set rep_data rep
    {| customers := customers data ++ [c];
       total_value := total_value data + total_6_month_value c;
       high_value_count :=
         if high then (high_value_count data + 1)%Z else high_value_count data;
       quick_win_count_ :=
         if high then quick_win_count_ data
         else if quick then (quick_win_count_ data + 1)%Z
         else quick_win_count_ data;
       risk_scores := risk_scores data ++ [churn_risk_score c] |}.

Definition summary_of (item : string * RepData) : SalespersonSummary :=
  let (rep, data) := item in
  {| ss_salesperson := rep;
     dormant_customer_count := len (customers data);
     total_value_at_risk := total_value data;
     high_value_dormant_count := high_value_count data;
     quick_win_count := quick_win_count_ data;
     average_churn_risk :=
       match risk_scores data with
       | [] => 0
       | _ => mean (risk_scores data)
       end |}.

Definition _generate_salesperson_summaries
    (dormant_customers : list DormantCustomer) : list SalespersonSummary :=
  let rep_data := fold_left add_customer dormant_customers [] in
  let summaries := map summary_of (Dict.items rep_data) in
  sorted_desc
    (fun a b => Qltb (total_value_at_risk b) (total_value_at_risk a))
    summaries.

(** The truth value of an optional string: set and not empty. *)
Definition truthy (o : option string) : bool :=
  match o with
  | Some s => negb (String.eqb s "")
  | None => false
  end.

Definition count_patterns (seasonal_customers : list DormantCustomer)
  : Dict.t Z :=
  fold_left
    (fun patterns c =>
       match seasonal_pattern c with
       | Some pattern =>
           Dict.set patterns pattern
             (match Dict.get patterns pattern with
              | Some n => n | None => 0 end + 1)%Z
       | None => patterns
       end)
    seasonal_customers [].

Definition _generate_insights
    (dormant_customers : list DormantCustomer)
    (summaries : list SalespersonSummary) : Dict.t insight :=
  match dormant_customers, summaries with
  | [], _ | _, [] => [("error", NoDormantCustomers)]
  | c0 :: cs, top_rep :: _ =>
      let insights : Dict.t insight := [] in
      (* Top priority rep *)
      let insights :=
        Dict.set insights "top_priority_rep"
          (TopPriorityRep (ss_salesperson top_rep)
             (total_value_at_risk top_rep) (dormant_customer_count top_rep)
             (average_churn_risk top_rep)) in
      (* Top priority customer *)
      let top_customer :=
        max_by (fun y best =>
                  Qltb (total_6_month_value best) (total_6_month_value y))
               c0 cs in
      let insights :=
        Dict.set insights "top_priority_customer"
          (TopPriorityCustomer (customer top_customer)
             (total_6_month_value top_customer) (salesperson top_customer)
             (churn_risk_score top_customer)) in
      (* Quick wins *)
      let quick_wins :=
        filter (fun s => (0 <? quick_win_count s)%Z) summaries in
      let insights :=
        match quick_wins with
        | [] => insights
        | q0 :: qs =>
            let best_quick_win :=
              max_by (fun y best =>
                        (quick_win_count best <? quick_win_count y)%Z) q0 qs in
            Dict.set insights "quick_wins"
              (QuickWins (ss_salesperson best_quick_win)
                         (quick_win_count best_quick_win))
        end in
      (* Seasonal insights *)
      let seasonal_customers :=
        filter (fun c => truthy (seasonal_pattern c)) dormant_customers in
      match Dict.items (count_patterns seasonal_customers) with
      | [] => insights
      | p0 :: ps =>
          let top_pattern :=
            max_by (fun y best : string * Z => (snd best <? snd y)%Z) p0 ps in
          Dict.set insights "seasonal_insight"
            (SeasonalInsight (snd top_pattern) (fst top_pattern))
      end
  end.

Definition _calculate_accuracy_score (quality_report : DataQualityReport) : Q :=
  if (total_records quality_report =? 0)%Z then 0
  else
    (* Weighted scoring *)
    let completeness_weight := 0.4 in
    let validity_weight := 0.3 in
    let mapping_weight := 0.3 in
    let total := inject_Z (total_records quality_report) in
    let completeness_score := data_completeness_score quality_report in
    let validity_score :=
      1 - inject_Z (invalid_dates quality_report
                    + invalid_prices quality_report) / total in
    let mapping_score :=
      1 - inject_Z (missing_customer_mappings quality_report) / total in
    let accuracy_score :=
      completeness_score * completeness_weight
      + validity_score * validity_weight
      + mapping_score * mapping_weight in
    min_ (max_ accuracy_score 0) 1.

(** [quality_report.missing_customer_mappings = n] *)
Definition set_missing_customer_mappings
    (r : DataQualityReport) (n : Z) : DataQualityReport :=
  {| total_records := total_records r;
     valid_records := valid_records r;
     duplicate_records := duplicate_records r;
     missing_customer_mappings := n;
     invalid_dates := invalid_dates r;
     invalid_prices := invalid_prices r;
     data_completeness_score := data_completeness_score r;
     recommendations := recommendations r |}.

(** [process_files], from the two loaded frames.  [now] is the value
    [datetime.now()] returns when the result is built.  An exception is
    logged and raised again. *)
Definition process_files
    (now : Timestamp) (sales_df : list RawRow) (planning_df : PlanningFrame)
  : result ProcessingResult :=
  (* Validate and clean sales data *)
  let (sales_df_clean, quality_report) :=
    DataValidator.validate_sales_data sales_df in
  (* Apply customer-rep mappings *)
  let sales_df_mapped := _apply_customer_mappings sales_df_clean planning_df in
  (* Update quality report with mapping info *)
  let unmapped_customers := isna_sum (map Salesperson sales_df_mapped) in
  let quality_report :=
    set_missing_customer_mappings quality_report unmapped_customers in
  (* Identify dormant customers *)
  dormant_customers <- _identify_dormant_customers sales_df_mapped ;;
  (* Generate analytics and insights *)
  let salesperson_summaries :=
    _generate_salesperson_summaries dormant_customers in
  let insights := _generate_insights dormant_customers salesperson_summaries in
  (* Calculate data accuracy score *)
  let accuracy_score := _calculate_accuracy_score quality_report in
  Ok {| summary :=
          {| total_dormant_customers := len dormant_customers;
             summary_total_value_at_risk :=
               sum (map total_6_month_value dormant_customers);
             summary_average_churn_risk :=
               match dormant_customers with
               | [] => 0
               | _ => mean (map churn_risk_score dormant_customers)
               end;
             data_quality_score := accuracy_score |};
        salesperson_summaries := salesperson_summaries;
        dormant_customers := dormant_customers;
        insights := insights;
        data_quality_report := quality_report;
        processing_timestamp := now;
        total_customers_analyzed :=
          len (unique_sorted String.eqb String.leb
                             (map Customer sales_df_mapped));
        data_accuracy_score := accuracy_score |}.

End WithConfig.

End DormantCustomerProcessor.
Import DormantCustomerProcessor.

(* ===================================================================== *)
(** * Consumers of a result ([main.py], [excel_generator.py]) *)
(* ===================================================================== *)

(** The answer of an endpoint: a payload, or the 404 it raises. *)
Inductive response (A : Type) : Type :=
| Payload (a : A)
| NotFound (detail : string).
Arguments Payload {A} a.
Arguments NotFound {A} detail.

(** The dict returned by [_generate_rep_performance_insights] when there
    are summaries; its [total_value_at_risk] is [rp_total_value_at_risk]
    here. *)
Record RepPerformance : Type := mkRepPerformance {
  rp_total_value_at_risk : Q;
  average_dormant_customers_per_rep : Q;
  top_performer : string;
  needs_attention : list string
}.

Module Api.

Definition _generate_customer_recommendations (c : DormantCustomer)
  : list string :=
  let recommendations : list string := [] in
  let recommendations :=
    if Qltb 0.7 (churn_risk_score c)
    then (recommendations
          ++ ["HIGH PRIORITY: Immediate outreach recommended due to high churn risk"])%list
    else recommendations in
  let recommendations :=
    match preferred_products c with
    | [] => recommendations
    | _ =>
        (recommendations
         ++ [("Mention these products they previously enjoyed: "
              ++ String.concat ", " (firstn 3 (preferred_products c)))%string])%list
    end in
  let recommendations :=
    match seasonal_pattern c with
    | Some pattern =>
        if truthy (Some pattern) && negb (String.eqb pattern "No clear pattern")
        then (recommendations
              ++ [("Consider timing based on their " ++ pattern
                   ++ " pattern")%string])%list
        else recommendations
    | None => recommendations
    end in
  if Qltb 1000 (total_6_month_value c)
  then (recommendations
        ++ ["High-value customer - consider special offers or personal visit"])%list
  else recommendations.

(** [None] stands for the empty dict returned when there is no summary. *)
Definition _generate_rep_performance_insights
    (summaries : list SalespersonSummary) : option RepPerformance :=
  match summaries with
  | [] => None
  | first :: _ =>
      let total_at_risk := sum (map total_value_at_risk summaries) in
      let avg_customers :=
        inject_Z (fold_left Z.add (map dormant_customer_count summaries) 0%Z)
        / inject_Z (len summaries) in
      Some {| rp_total_value_at_risk := total_at_risk;
              average_dormant_customers_per_rep := avg_customers;
              top_performer := ss_salesperson first;
              needs_attention :=
                firstn 3 (map ss_salesperson
                              (filter (fun s => Qltb 0.7 (average_churn_risk s))
                                      summaries)) |}
  end.

(** The lookup of [get_customer_insights] for a customer name that is
    not empty: the first record of that name, with its recommendations. *)
Definition find_customer_insights
    (result : ProcessingResult) (customer_name : string)
  : response (DormantCustomer * list string) :=
  match find (fun c => String.eqb (customer c) customer_name)
             (dormant_customers result) with
  | Some c => Payload (c, _generate_customer_recommendations c)
  | None => NotFound "Customer not found"
  end.

End Api.

Module ExcelReportGenerator.

Definition invalid_chars : list ascii :=
  [ "["; "]"; "*"; "?"; ":"; "/"; "\" ]%char.

(** [name.replace(old, new)] for single characters. *)
Fixpoint replace_char (old new : ascii) (name : string) : string :=
  match name with
  | EmptyString => EmptyString
  | String c rest =>
      String (if Ascii.eqb c old then new else c) (replace_char old new rest)
  end.

(** Characters are bytes here: the cut [name[:31]] is the one Python
    makes for ASCII names. *)
Definition _clean_sheet_name (name : string) : string :=
  let name := fold_left (fun name char => replace_char char "_" name)
                        invalid_chars name in
  substring 0 31 name.

(** The dict [rep_customers] of [_create_salesperson_sheets]. *)
Definition rep_customers (dormant_customers : list DormantCustomer)
  : Dict.t (list DormantCustomer) :=
  fold_left
    (fun d c =>
       let rep := salesperson c in
       Dict.set d rep
         (match Dict.get d rep with
          | Some customers => customers ++ [c]
          | None => [c]
          end)%list)
    dormant_customers [].

(** [next((s for s in summaries if s.salesperson == rep), None)] *)
Definition summary_for (summaries : list SalespersonSummary) (rep : string)
  : option SalespersonSummary :=
  find (fun s => String.eqb (ss_salesperson s) rep) summaries.

(** The rows of a representative's sheet, by churn risk, highest first. *)
Definition sheet_rows (customers : list DormantCustomer)
  : list DormantCustomer :=
  sorted_desc (fun a b => Qltb (churn_risk_score b) (churn_risk_score a))
              customers.

(** The rows of the consolidated sheet, by value at risk, highest first. *)
Definition sorted_customers (dormant_customers : list DormantCustomer)
  : list DormantCustomer :=
  sorted_desc (fun a b => Qltb (total_6_month_value b) (total_6_month_value a))
              dormant_customers.

Inductive priority : Type := HIGH | MEDIUM | LOW.

Definition priority_of (c : DormantCustomer) : priority :=
  if Qltb 0.8 (churn_risk_score c) || Qltb 2000 (total_6_month_value c)
  then HIGH
  else if Qltb 0.6 (churn_risk_score c) || Qltb 1000 (total_6_month_value c)
  then MEDIUM
  else LOW.

(** The three counts of the churn-risk distribution. *)
Definition high_risk (dormant_customers : list DormantCustomer) : Z :=
  len (filter (fun c => Qltb 0.7 (churn_risk_score c)) dormant_customers).
Definition medium_risk (dormant_customers : list DormantCustomer) : Z :=
  len (filter (fun c => Qle_bool 0.4 (churn_risk_score c)
                        && Qle_bool (churn_risk_score c) 0.7)
              dormant_customers).
Definition low_risk (dormant_customers : list DormantCustomer) : Z :=
  len (filter (fun c => Qltb (churn_risk_score c) 0.4) dormant_customers).

(** The representatives charted on the dashboard: the first ten. *)
Definition charted_summaries (summaries : list SalespersonSummary)
  : list SalespersonSummary :=
  firstn 10 summaries.

End ExcelReportGenerator.

(* ===================================================================== *)
(** * Vocabulary of the statements *)
(* ===================================================================== *)

(** [config] with another [min_orders_for_pattern]. *)
Definition with_min_orders_for_pattern (config : AnalyticsConfig) (n : Z)
  : AnalyticsConfig :=
  {| today_date := today_date config;
     dormant_days_threshold := dormant_days_threshold config;
     analysis_period_months := analysis_period_months config;
     high_value_threshold := high_value_threshold config;
     quick_win_threshold := quick_win_threshold config;
     min_orders_for_pattern := n |}.

(** The insight set that only marks the absence of data. *)
Definition error_marker : Dict.t insight := [("error", NoDormantCustomers)].

(** The number of distinct calendar months the rows fall in. *)
Definition distinct_months (customer_data : list Row) : Z :=
  len (nodup Z.eq_dec
             (map (fun r => to_period_M (Posted_date r)) customer_data)).

(** The trend read off the least-squares line through the monthly
    totals: [0.5 + slope / mean], kept within [[0, 1]]. *)
Definition fitted_trend (customer_data : list Row) : f64 :=
  let y := map snd (AdvancedAnalytics.monthly_spending customer_data) in
  let x := arange (List.length y) in
  py_max (py_min (f_add (f_div (Fin (polyfit1_slope x y)) (Fin (mean y)))
                        (Fin 0.5))
                 (Fin 1))
         (Fin 0).

(** Scores that all lie in [[0, 1]]. *)
Definition unit_scores (l : list Q) : Prop := Forall (fun q => (0 <= q <= 1)%Q) l.

(** The sum of the running totals held in the aggregation dict. *)
Definition dict_total (d : Dict.t RepData) : Q :=
  sum (map (fun kv => total_value (snd kv)) d).

(** The strict order of strings by which [groupby] sorts its keys. *)
Definition String_lt (s1 s2 : string) : Prop := String.compare s1 s2 = Lt.

(** What the validator keeps of a raw row: nothing when the posted date
    does not parse or the customer is missing; else the row's posted
    date, customer and price, an unusable price reading as 0. *)
Definition kept_of (r : RawRow) : list (Timestamp * string * Q) :=
  match raw_Posted_date r, raw_Customer r with
  | Parsed posted, Some name =>
      [(posted, name, match raw_Net_price r with Parsed q => q | _ => 0%Q end)]
  | _, _ => []
  end.

(** Every cell the validator coerces holds a value it accepts. *)
Definition all_cells_parse (r : RawRow) : Prop :=
  (exists t, raw_Invoice_date r = Parsed t)
  /\ (exists t, raw_Posted_date r = Parsed t)
  /\ (exists q, raw_Net_price r = Parsed q).

(** A header the reconciler takes for the customer column, and one it
    takes for the representative column. *)
Definition customer_header (col : string) : bool :=
  contains "customer" (lower col).
Definition rep_header (col : string) : bool :=
  negb (contains "customer" (lower col))
  && (contains "rep" (lower col)
      || contains "salesperson" (lower col)
      || contains "assigned" (lower col)).

(** The columns of a sales row that reconciliation leaves alone. *)
Definition other_columns (r : Row)
  : option Timestamp * Timestamp * string * option string * Z * Q :=
  (Invoice_date r, Posted_date r, Customer r, Item r, Qty r, Net_price r).

(** The number of rows posted in a calendar month (1 to 12) of any year. *)
Definition orders_in_month (customer_data : list Row) (month : Z) : Z :=
  len (filter (fun r => Z.eqb (Timestamp_month (Posted_date r)) month)
              customer_data).

(** The labels of the four seasons. *)
Definition season_labels : list string :=
  ["Winter buyer"; "Spring buyer"; "Summer buyer"; "Fall buyer"].

(** The dormant customers assigned to a representative, in list order. *)
Definition customers_of (rep : string) (ds : list DormantCustomer)
  : list DormantCustomer :=
  filter (fun c => String.eqb (salesperson c) rep) ds.

(** The two value classes of the aggregator. *)
Definition is_high_value (config : AnalyticsConfig) (c : DormantCustomer) : bool :=
  Qle_bool (high_value_threshold config) (total_6_month_value c).
Definition is_quick_win (config : AnalyticsConfig) (c : DormantCustomer) : bool :=
  negb (is_high_value config c)
  && Qle_bool (total_6_month_value c) (quick_win_threshold config).

(** [sum(ns)] for integers. *)
Definition sum_int (ns : list Z) : Z := fold_left Z.add ns 0%Z.

(** What [rep_data] holds for a representative after the customers [ds]:
    an entry built from the representative's customers, or no entry when
    there is none. *)
Definition rep_entry_ok (config : AnalyticsConfig) (ds : list DormantCustomer)
           (rep : string) (entry : option RepData) : Prop :=
  match entry with
  | None => customers_of rep ds = []
  | Some data =>
      customers data = customers_of rep ds
      /\ customers data <> []
      /\ (total_value data == sum (map total_6_month_value (customers data)))%Q
      /\ high_value_count data
         = len (filter (is_high_value config) (customers data))
      /\ quick_win_count_ data
         = len (filter (is_quick_win config) (customers data))
      /\ risk_scores data = map churn_risk_score (customers data)
  end.

(** The quantity of an item over the rows of a customer, as the int64
    sum holds it. *)
Definition item_quantity (customer_data : list Row) (item : string) : Z :=
  Series_sum_int64
    (map Qty (filter (fun r => option_eqb String.eqb (Item r) (Some item))
                     customer_data)).

(** The character a sheet name gets for a character of the name. *)
Definition sheet_char (c : ascii) : ascii :=
  fold_left (fun c bad => if Ascii.eqb c bad then "_"%char else c)
            ExcelReportGenerator.invalid_chars c.

(** A day that is a [datetime.date]. *)
Definition is_date (d : Z) : Prop := (_MINORDINAL <= d <= _MAXORDINAL)%Z.

(** The report a run holds when it comes to identify the dormant
    customers: the validator's, with the rows left without a salesperson
    by the reconciliation. *)
Definition quality_report_of (sales_df : list RawRow) (planning_df : PlanningFrame)
  : DataQualityReport :=
  let validated := DataValidator.validate_sales_data sales_df in
  set_missing_customer_mappings
    (snd validated)
    (isna_sum (map Salesperson
                   (_apply_customer_mappings (fst validated) planning_df))).

(** The line recommending a timing of the outreach. *)
Definition timing_line (label : string) : string :=
  "Consider timing based on their " ++ label ++ " pattern".

(** ** Sample inputs *)

(** 2025-06-01, the as-of date of the repository's tests. *)
Definition june_1_2025 : date := 739403%Z.
Definition test_config : AnalyticsConfig := default_config june_1_2025.

Definition order (name : string) (day : date) (price : Q) (rep : string) : Row :=
  {| Invoice_date := Some (at_midnight day);
     Posted_date := at_midnight day;
     Customer := name;
     Salesperson := Some rep;
     Salesperson_Original := None;
     Item := Some "Wine 1";
     Qty := 6%Z;
     Net_price := price |}.

(** Orders of 150, 300 and 150 on 2025-01-15, 02-15 and 03-15. *)
Definition three_orders : list Row :=
  [ order "Test Customer" 739266%Z 150 "Rep A";
    order "Test Customer" 739297%Z 300 "Rep A";
    order "Test Customer" 739325%Z 150 "Rep A" ].

Definition raw_order (name : string) (day : date) (price : cell Q) (rep : string)
  : RawRow :=
  {| raw_Invoice_date := Parsed (at_midnight day);
     raw_Posted_date := Parsed (at_midnight day);
     raw_Customer := Some name;
     raw_Salesperson := Some rep;
     raw_Item := Some "Wine 1";
     raw_Qty := 6%Z;
     raw_Net_price := price |}.

(** Two orders, of 100 on 2025-01-15 and of 300 on 2025-02-15. *)
Definition two_orders : list Row :=
  [ order "Test Customer" 739266%Z 100 "Rep A";
    order "Test Customer" 739297%Z 300 "Rep A" ].

(** The planning table of the repository's tests, and one whose
    representative cell for Customer A is empty. *)
Definition planning_table : PlanningFrame :=
  [ ("Customer", [Some "Customer A"; Some "Customer B"]);
    ("Assigned Rep", [Some "Mike Allen"; Some "Angela Fultz"]) ].

Definition planning_table_blank_rep : PlanningFrame :=
  [ ("Customer", [Some "Customer A"]);
    ("Assigned Rep", [None]) ].

Definition old_rep_sales : list Row :=
  [ order "Customer A" 739325%Z 150 "Old Rep" ].

(** Three orders of price 0, on 2025-01-15, 02-15 and 03-15, and the
    raw batch they come from: three rows whose price does not parse. *)
Definition zero_spend_orders : list Row :=
  [ order "Test Customer" 739266%Z 0 "Rep A";
    order "Test Customer" 739297%Z 0 "Rep A";
    order "Test Customer" 739325%Z 0 "Rep A" ].

Definition batch_without_prices : list RawRow :=
  [ raw_order "Test Customer" 739266%Z (Unparseable "N/A") "Rep A";
    raw_order "Test Customer" 739297%Z (Unparseable "N/A") "Rep A";
    raw_order "Test Customer" 739325%Z (Unparseable "N/A") "Rep A" ].

(** One row whose price cell does not parse as a number. *)
Definition batch_with_bad_price : list RawRow :=
  [ raw_order "Test Customer" 739325%Z (Unparseable "invalid_price") "Rep A" ].

(** Six orders of another customer: three in January 2025, one each in
    December 2024, February 2025 and March 2025. *)
Definition six_orders : list Row :=
  [ order "Cellar Six" 739235%Z 400 "Rep B";
    order "Cellar Six" 739266%Z 250 "Rep B";
    order "Cellar Six" 739271%Z 300 "Rep B";
    order "Cellar Six" 739276%Z 350 "Rep B";
    order "Cellar Six" 739297%Z 200 "Rep B";
    order "Cellar Six" 739325%Z 100 "Rep B" ].

(** A raw batch whose cells all parse: the three orders of the test
    customer. *)
Definition parsed_batch : list RawRow :=
  [ raw_order "Test Customer" 739266%Z (Parsed 150) "Rep A";
    raw_order "Test Customer" 739297%Z (Parsed 300) "Rep A";
    raw_order "Test Customer" 739325%Z (Parsed 150) "Rep A" ].

(** A planning table without a column of representatives. *)
Definition planning_table_customers_only : PlanningFrame :=
  [ ("Customer", [Some "Customer A"]) ].

(** A planning table that lists Customer A twice. *)
Definition planning_table_two_rows : PlanningFrame :=
  [ ("Customer", [Some "Customer A"; Some "Customer A"]);
    ("Assigned Rep", [Some "Mike Allen"; Some "Angela Fultz"]) ].

(** Orders of three items on 2025-03-15: twice 2^62 units of item A,
    one unit of B and two of C. *)
Definition units (item : string) (qty : Z) : Row :=
  {| Invoice_date := Some (at_midnight 739325%Z);
     Posted_date := at_midnight 739325%Z;
     Customer := "Test Customer";
     Salesperson := Some "Rep A";
     Salesperson_Original := None;
     Item := Some item;
     Qty := qty;
     Net_price := 100 |}.

Definition huge_quantity_orders : list Row :=
  [ units "A" (2 ^ 62)%Z; units "A" (2 ^ 62)%Z; units "B" 1%Z; units "C" 2%Z ].

(** The configuration of the tests with an analysis period of 0 months. *)
Definition no_months_config : AnalyticsConfig :=
  {| today_date := june_1_2025;
     dormant_days_threshold := 45;
     analysis_period_months := 0;
     high_value_threshold := 1000;
     quick_win_threshold := 500;
     min_orders_for_pattern := 3 |}.

(** Records of dormant customers: one of Rep B and two of Rep A, their
    last order on 2025-03-15, 78 days before the as-of date. *)
Definition sample_customer (name rep : string) (value : Q) (orders : Z)
           (risk : Q) (pattern : option string) : DormantCustomer :=
  {| customer := name;
     salesperson := rep;
     last_order_date := 739325%Z;
     days_since_order := 78%Z;
     total_6_month_value := value;
     order_count_6_months := orders;
     average_order_value := value / inject_Z orders;
     churn_risk_score := risk;
     customer_lifetime_value := 2 * value;
     preferred_products := ["Wine 1"];
     seasonal_pattern := pattern |}.

Definition sample_customers : list DormantCustomer :=
  [ sample_customer "Cellar Six" "Rep B" 1600 6 (131 # 150) (Some "Winter buyer");
    sample_customer "Old Vines" "Rep A" 300 2 (1 # 2) None;
    sample_customer "Test Customer" "Rep A" 600 3 (511 # 600) None ].

(** The record of the customer of [six_orders], with the pattern and the
    products the analytics give for these orders. *)
Definition cellar_six : DormantCustomer :=
  {| customer := "Cellar Six";
     salesperson := "Rep B";
     last_order_date := 739325%Z;
     days_since_order := 78%Z;
     total_6_month_value := 1600;
     order_count_6_months := 6%Z;
     average_order_value := 1600 / 6;
     churn_risk_score := 131 # 150;
     customer_lifetime_value := 3200;
     preferred_products := product_prefs six_orders;
     seasonal_pattern := AdvancedAnalytics.identify_seasonal_patterns six_orders |}.

(* ===================================================================== *)
(** * Properties *)
(* ===================================================================== *)

Local Open Scope Q_scope.

(** ** Arithmetic helpers *)

Lemma Qltb_true (a b : Q) : Qltb a b = true <-> a < b.
Proof.
  unfold Qltb. rewrite negb_true_iff.
  split; intro H.
  - apply Qnot_le_lt. intro Hle. apply Qle_bool_iff in Hle. congruence.
  - destruct (Qle_bool b a) eqn:E; [|reflexivity].
    apply Qle_bool_iff in E. exfalso. apply (Qlt_not_le _ _ H E).
Qed.

Lemma Qltb_false (a b : Q) : Qltb a b = false <-> b <= a.
Proof.
  unfold Qltb. rewrite negb_false_iff. apply Qle_bool_iff.
Qed.

Lemma clamp_bounds (x : Q) : 0 <= min_ (max_ x 0) 1 /\ min_ (max_ x 0) 1 <= 1.
Proof.
  unfold min_, max_.
  destruct (Qltb x 0) eqn:E1.
  - replace (Qltb 1 0) with false by reflexivity. split; lra.
  - apply Qltb_false in E1.
    destruct (Qltb 1 x) eqn:E2.
    + split; lra.
    + apply Qltb_false in E2. split; lra.
Qed.

Lemma fold_left_Qplus (l : list Q) (a : Q) :
  fold_left Qplus l a == a + fold_right Qplus 0 l.
Proof.
  revert a. induction l as [|x l IH]; intro a; simpl.
  - lra.
  - rewrite IH. lra.
Qed.

Lemma sum_fold_right (l : list Q) : sum l == fold_right Qplus 0 l.
Proof. unfold sum. rewrite fold_left_Qplus. lra. Qed.

Lemma sum_cons (x : Q) (l : list Q) : sum (x :: l) == x + sum l.
Proof. rewrite !sum_fold_right. simpl. lra. Qed.

Lemma sum_app (l1 l2 : list Q) : sum (l1 ++ l2) == sum l1 + sum l2.
Proof.
  induction l1 as [|x l1 IH]; simpl.
  - unfold sum at 2. simpl. lra.
  - rewrite !sum_cons, IH. lra.
Qed.

Lemma sum_Permutation (l1 l2 : list Q) :
  Permutation l1 l2 -> sum l1 == sum l2.
Proof.
  induction 1 as [|x l l' _ IH|x y l|l l' l'' _ IH1 _ IH2].
  - reflexivity.
  - rewrite !sum_cons, IH. reflexivity.
  - rewrite !sum_cons. lra.
  - rewrite IH1. exact IH2.
Qed.

Lemma len_nonneg {A} (l : list A) : (0 <= len l)%Z.
Proof. unfold len. lia. Qed.

Lemma len_cons {A} (x : A) (l : list A) : len (x :: l) = (len l + 1)%Z.
Proof. unfold len. simpl List.length. lia. Qed.

(** ** Sorting *)

Section StableSortFacts.
Context {A : Type} (gt : A -> A -> bool).

Lemma insert_desc_Permutation (x : A) (l : list A) :
  Permutation (insert_desc gt x l) (x :: l).
Proof.
  induction l as [|y l IH]; simpl.
  - apply Permutation_refl.
  - destruct (gt y x).
    + eapply perm_trans; [apply perm_skip, IH | apply perm_swap].
    + apply Permutation_refl.
Qed.

Lemma sorted_desc_Permutation (l : list A) :
  Permutation (sorted_desc gt l) l.
Proof.
  induction l as [|x l IH]; simpl.
  - apply perm_nil.
  - eapply perm_trans; [apply insert_desc_Permutation | apply perm_skip, IH].
Qed.
End StableSortFacts.

(** ** Grouping *)

Section GroupByFacts.
Context {K : Type} (eqb leb : K -> K -> bool).
Hypothesis eqb_eq : forall a b, eqb a b = true <-> a = b.

Lemma insert_key_In (x k : K) (l : list K) :
  In x (insert_key eqb leb k l) <-> x = k \/ In x l.
Proof.
  induction l as [|k' l IH]; simpl.
  - intuition auto.
  - destruct (eqb k k') eqn:E.
    + apply eqb_eq in E. subst k'. simpl. intuition auto.
    + destruct (leb k k'); simpl; [intuition auto|].
      rewrite IH. intuition auto.
Qed.

Lemma unique_sorted_In (x : K) (l : list K) :
  In x (unique_sorted eqb leb l) <-> In x l.
Proof.
  induction l as [|k l IH]; simpl.
  - reflexivity.
  - rewrite insert_key_In, IH. intuition auto.
Qed.

Lemma insert_key_not_nil (k : K) (l : list K) : insert_key eqb leb k l <> [].
Proof.
  destruct l as [|k' l]; simpl; [discriminate|].
  destruct (eqb k k'); [discriminate|]. destruct (leb k k'); discriminate.
Qed.

Lemma groupby_In {R} (key : R -> option K) (rows : list R) (k : K)
      (g : list R) :
  In (k, g) (groupby eqb leb key rows) <->
  (exists r, In r rows /\ key r = Some k) /\
  g = filter (fun r => option_eqb eqb (key r) (Some k)) rows.
Proof.
  unfold groupby. rewrite in_map_iff. split.
  - intros (k' & Heq & Hin). inversion Heq; subst k' g; clear Heq.
    apply (proj1 (unique_sorted_In _ _)) in Hin.
    apply (proj1 (in_flat_map _ _ _)) in Hin.
    destruct Hin as (r & Hr & Hk). split; [|reflexivity].
    exists r. split; [exact Hr|].
    destruct (key r) as [k0|]; simpl in Hk; [|contradiction].
    destruct Hk as [->|[]]. reflexivity.
  - intros ((r & Hr & Hk) & ->). exists k. split; [reflexivity|].
    apply (proj2 (unique_sorted_In _ _)).
    apply (proj2 (in_flat_map _ _ _)). exists r.
    split; [exact Hr|]. rewrite Hk. simpl. auto.
Qed.
End GroupByFacts.

(** ** Dictionaries *)

Module DictFacts.
Import Dict.

Lemma get_set_same {V} (d : t V) k v : get (set d k v) k = Some v.
Proof.
  induction d as [|[k' v'] d IH]; simpl.
  - now rewrite String.eqb_refl.
  - destruct (String.eqb k k') eqn:E; simpl; rewrite E; [reflexivity|exact IH].
Qed.

Lemma get_set_other {V} (d : t V) k k0 v :
  k0 <> k -> get (set d k v) k0 = get d k0.
Proof.
  intro Hne. induction d as [|[k' v'] d IH]; simpl.
  - apply String.eqb_neq in Hne. now rewrite Hne.
  - destruct (String.eqb k k') eqn:E; simpl.
    + apply String.eqb_eq in E. subst k'.
      apply String.eqb_neq in Hne. now rewrite Hne.
    + destruct (String.eqb k0 k'); [reflexivity|exact IH].
Qed.

Lemma get_In_keys {V} (d : t V) k :
  In k (keys d) <-> get d k <> None.
Proof.
  induction d as [|[k' v'] d IH]; simpl.
  - intuition congruence.
  - destruct (String.eqb k k') eqn:E.
    + apply String.eqb_eq in E. subst k'. intuition congruence.
    + apply String.eqb_neq in E. rewrite IH. intuition congruence.
Qed.

Lemma keys_set_In {V} (d : t V) k k0 v :
  In k0 (keys (set d k v)) <-> k0 = k \/ In k0 (keys d).
Proof.
  rewrite !get_In_keys.
  destruct (string_dec k0 k) as [->|Hne].
  - rewrite get_set_same. intuition congruence.
  - rewrite get_set_other by exact Hne. intuition congruence.
Qed.

Lemma keys_set_NoDup {V} (d : t V) k v :
  NoDup (keys d) -> NoDup (keys (set d k v)).
Proof.
  induction d as [|[k' v'] d IH]; simpl; intro Hnd.
  - constructor; [intros []|constructor].
  - destruct (String.eqb k k') eqn:E; simpl; [exact Hnd|].
    inversion Hnd as [|? ? Hnotin Hnd']; subst.
    constructor; [|apply IH; exact Hnd'].
    intro Hin. apply (proj1 (keys_set_In d k k' v)) in Hin.
    destruct Hin as [->|Hin]; [|contradiction].
    rewrite String.eqb_refl in E. discriminate.
Qed.

End DictFacts.

(** ** Series *)

(** Case analysis on the integer comparisons of the goal. *)
Ltac case_Zcmp :=
  repeat match goal with
         | |- context [(?a <? ?b)%Z] => destruct (Z.ltb_spec a b)
         | |- context [(?a <=? ?b)%Z] => destruct (Z.leb_spec a b)
         end.

Lemma Series_max_None (l : list Z) : Series_max l = None <-> l = [].
Proof. destruct l; simpl; split; congruence. Qed.

(** ** The dormancy selector *)

(** A date minus a number of days is a date that many days earlier, or
    raises [OverflowError]. *)
Lemma minus_days_cases (d : date) (n : Z) :
  minus_days d n = Raise OverflowError
  \/ (minus_days d n = Ok (d - n)%Z
      /\ is_date (d - n) /\ (Z.abs n <= 999999999)%Z).
Proof.
  unfold minus_days, timedelta, date_sub, is_date.
  destruct (Z.leb_spec (Z.abs n) 999999999); cbn [bind]; [|now left].
  destruct (Z.leb_spec _MINORDINAL (d - n)), (Z.leb_spec (d - n) _MAXORDINAL);
    cbn [andb]; auto.
Qed.

(** The selection gets as far as the first comparison of the posted
    dates with a date, and no further. *)
Lemma identify_dormant_customers_TypeError
      (config : AnalyticsConfig) (clv : list Row -> Q) (sales_df : list Row)
      (cutoff start : date) :
  cutoff_date config = Ok cutoff -> analysis_start config = Ok start ->
  _identify_dormant_customers config clv sales_df = Raise TypeError.
Proof.
  intros Hcutoff Hstart. unfold _identify_dormant_customers.
  rewrite Hcutoff, Hstart. reflexivity.
Qed.

Lemma identify_dormant_customers_raises
      (config : AnalyticsConfig) (clv : list Row -> Q) (sales_df : list Row) :
  _identify_dormant_customers config clv sales_df = Raise TypeError
  \/ _identify_dormant_customers config clv sales_df = Raise OverflowError.
Proof.
  destruct (minus_days_cases (today_date config) (dormant_days_threshold config))
    as [Hcutoff|(Hcutoff & _)];
    [right; unfold _identify_dormant_customers, cutoff_date;
     now rewrite Hcutoff|].
  destruct (minus_days_cases (today_date config)
                             (analysis_period_months config * 30))
    as [Hstart|(Hstart & _)].
  - right. unfold _identify_dormant_customers, cutoff_date, analysis_start.
    now rewrite Hcutoff, Hstart.
  - left. now apply (identify_dormant_customers_TypeError _ _ _ _ _ Hcutoff Hstart).
Qed.

(** A run ends with the exception of the selection, whatever the clock
    reads. *)
Lemma process_files_raises
      (config : AnalyticsConfig) (clv : list Row -> Q)
      (sales_df : list RawRow) (planning_df : PlanningFrame) :
  exists e, (e = TypeError \/ e = OverflowError)
            /\ forall now,
                 process_files config clv now sales_df planning_df = Raise e.
Proof.
  unfold process_files.
  destruct (DataValidator.validate_sales_data sales_df) as [clean report].
  destruct (identify_dormant_customers_raises
              config clv (_apply_customer_mappings clean planning_df))
    as [H|H]; rewrite H; eexists; (split; [|intro now; reflexivity]); auto.
Qed.

(** C1.  The selection classifies nobody: whatever the configuration
    and the rows, it returns no list.  Where the cutoff and the start of
    the window are dates, it raises [TypeError], at the comparison of the
    posted dates with the start of the window.  So it does for the
    configuration and the three orders of the tests, although the last
    of these orders, of 2025-03-15, falls on or after the start of the
    window, 2024-12-03, and before the cutoff, 2025-04-17. *)
Theorem dormancy_selection_raises :
  (forall config clv sales_df ds,
      _identify_dormant_customers config clv sales_df <> Ok ds)
  /\ (forall config clv sales_df cutoff start,
         cutoff_date config = Ok cutoff -> analysis_start config = Ok start ->
         _identify_dormant_customers config clv sales_df = Raise TypeError)
  /\ (forall clv,
         _identify_dormant_customers test_config clv three_orders
         = Raise TypeError)
  /\ (analysis_start test_config = Ok 739223%Z
      /\ cutoff_date test_config = Ok 739358%Z
      /\ option_map Timestamp_date (Series_max (map Posted_date three_orders))
         = Some 739325%Z).
Proof.
  split; [|split; [|split]].
  - intros config clv sales_df ds.
    destruct (identify_dormant_customers_raises config clv sales_df) as [H|H];
      rewrite H; discriminate.
  - exact identify_dormant_customers_TypeError.
  - intro clv.
    now apply (identify_dormant_customers_TypeError
                 test_config clv three_orders 739358%Z 739223%Z).
  - repeat split.
Qed.

(** ** The representative aggregator *)

Section Aggregation.
Variable config : AnalyticsConfig.

Lemma dict_total_set (d : Dict.t RepData) (k : string) (v : RepData) :
  dict_total (Dict.set d k v) ==
  dict_total d
  - match Dict.get d k with Some e => total_value e | None => 0 end
  + total_value v.
Proof.
  unfold dict_total. induction d as [|[k' v'] d IH]; simpl.
  - rewrite sum_cons. unfold sum. simpl. lra.
  - destruct (String.eqb k k'); simpl.
    + rewrite !sum_cons. simpl. lra.
    + rewrite !sum_cons, IH. simpl. lra.
Qed.

Lemma add_customer_total (d : Dict.t RepData) (c : DormantCustomer) :
  dict_total (add_customer config d c) == dict_total d + total_6_month_value c.
Proof.
  unfold add_customer. rewrite dict_total_set. simpl.
  destruct (Dict.get d (salesperson c)); simpl; lra.
Qed.

Lemma fold_add_customer_total (ds : list DormantCustomer) (d : Dict.t RepData) :
  dict_total (fold_left (add_customer config) ds d) ==
  dict_total d + sum (map total_6_month_value ds).
Proof.
  revert d. induction ds as [|c ds IH]; intro d; simpl.
  - change (sum []) with 0. lra.
  - rewrite IH, add_customer_total, sum_cons. lra.
Qed.

Lemma fold_add_customer_keys (ds : list DormantCustomer) (d : Dict.t RepData)
      (k : string) :
  In k (Dict.keys (fold_left (add_customer config) ds d)) <->
  In k (Dict.keys d) \/ In k (map salesperson ds).
Proof.
  revert d. induction ds as [|c ds IH]; intro d; simpl.
  - tauto.
  - rewrite IH. unfold add_customer at 1. rewrite DictFacts.keys_set_In.
    intuition auto.
Qed.

Lemma fold_add_customer_NoDup (ds : list DormantCustomer) (d : Dict.t RepData) :
  NoDup (Dict.keys d) ->
  NoDup (Dict.keys (fold_left (add_customer config) ds d)).
Proof.
  revert d. induction ds as [|c ds IH]; intros d Hnd; simpl.
  - exact Hnd.
  - apply IH. unfold add_customer. apply DictFacts.keys_set_NoDup, Hnd.
Qed.

Lemma summary_of_salesperson (d : Dict.t RepData) :
  map ss_salesperson (map summary_of d) = Dict.keys d.
Proof.
  unfold Dict.keys. rewrite map_map. apply map_ext. now intros [rep data].
Qed.

Lemma summary_of_total (d : Dict.t RepData) :
  map total_value_at_risk (map summary_of d)
  = map (fun kv => total_value (snd kv)) d.
Proof. rewrite map_map. apply map_ext. now intros [rep data]. Qed.

Lemma summaries_Permutation (ds : list DormantCustomer) :
  Permutation
    (_generate_salesperson_summaries config ds)
    (map summary_of (fold_left (add_customer config) ds [])).
Proof. unfold _generate_salesperson_summaries. apply sorted_desc_Permutation. Qed.

Lemma summaries_keys_once (ds : list DormantCustomer) (rep : string) :
  In rep (map salesperson ds) ->
  count_occ string_dec
    (map ss_salesperson (_generate_salesperson_summaries config ds)) rep
  = 1%nat.
Proof.
  intro Hin.
  rewrite (proj1 (Permutation_count_occ string_dec _ _)
                 (Permutation_map ss_salesperson (summaries_Permutation ds))).
  rewrite summary_of_salesperson.
  apply (proj1 (NoDup_count_occ' string_dec _)).
  - apply fold_add_customer_NoDup. constructor.
  - apply fold_add_customer_keys. right. exact Hin.
Qed.
End Aggregation.

(** C2.  The values at risk of the representative summaries add up to the
    window values of the dormant customers they were built from. *)
Theorem value_at_risk_conserved
    (config : AnalyticsConfig) (dormant_customers : list DormantCustomer) :
  sum (map total_value_at_risk
           (_generate_salesperson_summaries config dormant_customers))
  == sum (map total_6_month_value dormant_customers).
Proof.
  rewrite (sum_Permutation _ _
             (Permutation_map total_value_at_risk
                (summaries_Permutation config dormant_customers))).
  rewrite summary_of_total.
  pose proof (fold_add_customer_total config dormant_customers []) as H.
  unfold dict_total in H. rewrite H. unfold sum at 1. simpl. lra.
Qed.

(** ** The validator's report *)

Lemma fillna_Net_price_notna (r : CoercedRow) :
  isna (c_Net_price (fillna_Net_price r)) = false.
Proof. unfold fillna_Net_price. simpl. now destruct (c_Net_price r). Qed.

Lemma filled_column_notna (df : list CoercedRow) :
  isna_sum (map c_Net_price (map fillna_Net_price df)) = 0%Z.
Proof.
  unfold isna_sum.
  replace (filter isna (map c_Net_price (map fillna_Net_price df)))
    with (@nil (option Q)); [reflexivity|].
  induction df as [|r df IH]; [reflexivity|].
  cbn [map filter]. rewrite fillna_Net_price_notna. exact IH.
Qed.

(** Whatever the batch, the report counts no invalid price: the column
    is counted after its missing values were replaced by 0. *)
Lemma invalid_prices_always_zero (df : list RawRow) :
  invalid_prices (snd (DataValidator.validate_sales_data df)) = 0%Z.
Proof.
  unfold DataValidator.validate_sales_data. cbn [snd invalid_prices].
  apply filled_column_notna.
Qed.

(** C6.  On a batch of one row whose price fails numeric coercion the
    price becomes 0 and the row is kept, and the failure is noted in the
    recommendations, yet the report's [invalid_prices] is 0, so that the
    accuracy score is 1 where a count of 1 would give 0.7. *)
Theorem invalid_prices_not_counted :
  let coerced := map (fun r => to_numeric (raw_Net_price r)) batch_with_bad_price in
  let clean := fst (DataValidator.validate_sales_data batch_with_bad_price) in
  let report := snd (DataValidator.validate_sales_data batch_with_bad_price) in
  isna_sum coerced = 1%Z
  /\ map Net_price clean = [0]
  /\ recommendations report = ["1 invalid prices"]
  /\ total_records report = 1%Z
  /\ invalid_prices report = 0%Z
  /\ _calculate_accuracy_score report == 1.
Proof. repeat split. Qed.

(** ** Empty input *)

(** C8.  A report over zero records scores exactly 0, and the insight
    synthesizer answers an empty customer list, and an empty summary
    list, with the error marker alone.  A run over an empty batch does
    not get to them: it returns no result, and with the configuration of
    the tests it raises [TypeError]. *)
Theorem empty_input_run_raises :
  (forall report, total_records report = 0%Z ->
                  _calculate_accuracy_score report = 0)
  /\ (forall summaries, _generate_insights [] summaries = error_marker)
  /\ (forall ds, _generate_insights ds [] = error_marker)
  /\ (forall clv now planning_df,
         process_files test_config clv now [] planning_df = Raise TypeError)
  /\ (forall config clv now planning_df r,
         process_files config clv now [] planning_df <> Ok r).
Proof.
  split; [|split; [|split; [|split]]].
  - intros report H. unfold _calculate_accuracy_score. now rewrite H.
  - reflexivity.
  - intros [|d ds]; reflexivity.
  - reflexivity.
  - intros config clv now planning_df r.
    destruct (process_files_raises config clv [] planning_df) as (e & _ & H).
    rewrite H. discriminate.
Qed.

(** ** The wall clock *)


(** ** The seasonal pattern *)

Lemma idxmax_Some (l : list (Z * Z)) : l <> [] -> idxmax l <> None.
Proof. destruct l; [congruence|discriminate]. Qed.

Lemma groupby_not_nil {K R} (eqb leb : K -> K -> bool) (key : R -> K)
      (rows : list R) :
  rows <> [] -> groupby eqb leb (fun r => Some (key r)) rows <> [].
Proof.
  destruct rows as [|r rows]; [congruence|]. intros _ H.
  unfold groupby in H. apply map_eq_nil in H.
  simpl in H. now apply insert_key_not_nil in H.
Qed.

Lemma identify_seasonal_patterns_Some (customer_data : list Row) :
  AdvancedAnalytics.identify_seasonal_patterns customer_data <> None
  <-> (6 <= len customer_data)%Z.
Proof.
  unfold AdvancedAnalytics.identify_seasonal_patterns.
  destruct (len customer_data <? 6)%Z eqn:E.
  - apply Z.ltb_lt in E. split; [congruence|lia].
  - apply Z.ltb_ge in E. split; [intros _; exact E|]. intros _.
    match goal with
    | |- context [idxmax ?l] =>
        pose proof (idxmax_Some l) as Hmax; destruct (idxmax l)
    end; [discriminate|].
    exfalso. apply Hmax; [|reflexivity].
    intro H. apply map_eq_nil in H. revert H. apply groupby_not_nil.
    intro Hnil. subst customer_data. unfold len in E. simpl in E. lia.
Qed.

(** C10.  The seasonal pattern of a set of rows is set exactly when
    there are at least 6 rows.  No function reads
    [min_orders_for_pattern], whose default is 3: with another value the
    churn-risk score, the selection, the summaries and the run are what
    they are without it. *)
Theorem seasonal_pattern_needs_six_orders :
  (forall customer_data,
      AdvancedAnalytics.identify_seasonal_patterns customer_data <> None
      <-> (6 <= len customer_data)%Z)
  /\ (forall config n customer_data,
         AdvancedAnalytics.calculate_churn_risk_score
           customer_data (with_min_orders_for_pattern config n)
         = AdvancedAnalytics.calculate_churn_risk_score customer_data config)
  /\ (forall config n clv sales_df,
         _identify_dormant_customers (with_min_orders_for_pattern config n)
                                     clv sales_df
         = _identify_dormant_customers config clv sales_df)
  /\ (forall config n ds,
         _generate_salesperson_summaries (with_min_orders_for_pattern config n) ds
         = _generate_salesperson_summaries config ds)
  /\ (forall config n clv now sales_df planning_df,
         process_files (with_min_orders_for_pattern config n)
                       clv now sales_df planning_df
         = process_files config clv now sales_df planning_df)
  /\ (forall today, min_orders_for_pattern (default_config today) = 3%Z).
Proof.
  split; [exact identify_seasonal_patterns_Some|].
  repeat split.
Qed.

(** ** The spending trend *)

Lemma insert_key_Z_HdRel (a k : Z) (l : list Z) :
  HdRel Z.lt a l -> (a < k)%Z -> HdRel Z.lt a (insert_key Z.eqb Z.leb k l).
Proof.
  intros Hl Hak. destruct l as [|k' l]; simpl.
  - now constructor.
  - destruct (k =? k')%Z; [exact Hl|].
    destruct (k <=? k')%Z; constructor; [exact Hak|].
    now inversion Hl.
Qed.

Lemma insert_key_Z_Sorted (k : Z) (l : list Z) :
  Sorted Z.lt l -> Sorted Z.lt (insert_key Z.eqb Z.leb k l).
Proof.
  induction l as [|k' l IH]; simpl; intro Hs.
  - repeat constructor.
  - destruct (k =? k')%Z eqn:Eeq; [exact Hs|].
    destruct (k <=? k')%Z eqn:Ele.
    + apply Z.eqb_neq in Eeq. apply Z.leb_le in Ele.
      constructor; [exact Hs|]. constructor. lia.
    + apply Z.leb_gt in Ele. inversion Hs as [|? ? Hs' Hhd]; subst.
      constructor; [now apply IH|]. now apply insert_key_Z_HdRel.
Qed.

Lemma unique_sorted_Z_Sorted (l : list Z) :
  Sorted Z.lt (unique_sorted Z.eqb Z.leb l).
Proof.
  induction l as [|k l IH]; simpl; [constructor|].
  now apply insert_key_Z_Sorted.
Qed.

Lemma Sorted_lt_NoDup (l : list Z) : Sorted Z.lt l -> NoDup l.
Proof.
  intro Hs. apply Sorted_StronglySorted in Hs; [|exact Z.lt_trans].
  induction Hs as [|a l _ IH Hall]; constructor; [|exact IH].
  intro Hin. rewrite Forall_forall in Hall. specialize (Hall a Hin). lia.
Qed.

Lemma unique_sorted_Z_length (l : list Z) :
  List.length (unique_sorted Z.eqb Z.leb l)
  = List.length (nodup Z.eq_dec l).
Proof.
  apply Permutation_length, NoDup_Permutation.
  - apply Sorted_lt_NoDup, unique_sorted_Z_Sorted.
  - apply NoDup_nodup.
  - intro x. rewrite (unique_sorted_In Z.eqb Z.leb Z.eqb_eq), nodup_In.
    reflexivity.
Qed.

Lemma flat_map_present {R K} (key : R -> K) (rows : list R) :
  flat_map (fun r => match Some (key r) with
                     | Some k => [k] | None => [] end) rows
  = map key rows.
Proof. induction rows as [|r rows IH]; simpl; [reflexivity|now rewrite IH]. Qed.

Lemma monthly_spending_length (customer_data : list Row) :
  len (AdvancedAnalytics.monthly_spending customer_data)
  = distinct_months customer_data.
Proof.
  unfold AdvancedAnalytics.monthly_spending, distinct_months, groupby, len.
  rewrite !length_map, flat_map_present, unique_sorted_Z_length.
  reflexivity.
Qed.

Lemma arange_length (n : nat) : List.length (arange n) = n.
Proof. unfold arange. now rewrite length_map, length_seq. Qed.

(** C5 (as amended).  The trend is read off the fitted line when the
    customer has at least 3 rows in the window and they span at least 2
    distinct calendar months; with fewer than 3 rows, or fewer than 2
    distinct months, it is the neutral 0.5. *)
Theorem value_trend_rule (customer_data : list Row) :
  ((3 <= len customer_data)%Z -> (2 <= distinct_months customer_data)%Z ->
   AdvancedAnalytics._calculate_value_trend customer_data
   = fitted_trend customer_data)
  /\ ((len customer_data < 3)%Z \/ (distinct_months customer_data < 2)%Z ->
       AdvancedAnalytics._calculate_value_trend customer_data = Fin 0.5).
Proof.
  unfold AdvancedAnalytics._calculate_value_trend.
  rewrite monthly_spending_length.
  replace (len (arange (List.length
                          (AdvancedAnalytics.monthly_spending customer_data))))
    with (distinct_months customer_data)
    by (rewrite <- monthly_spending_length; unfold len;
        now rewrite arange_length).
  split.
  - intros H3 H2. case_Zcmp; try lia.
    unfold fitted_trend. now rewrite length_map.
  - intros H. case_Zcmp; try reflexivity; lia.
Qed.

(** Two orders in two distinct months: the fitted trend is 1, the code
    answers the neutral 0.5. *)
Lemma value_trend_two_orders_neutral :
  distinct_months two_orders = 2%Z
  /\ fitted_trend two_orders = Fin 1
  /\ ~ ((2 <= distinct_months two_orders)%Z ->
        AdvancedAnalytics._calculate_value_trend two_orders
        = fitted_trend two_orders).
Proof.
  split; [reflexivity|]. split; [reflexivity|].
  intro H. specialize (H ltac:(vm_compute; discriminate)).
  vm_compute in H. discriminate H.
Qed.

(** ** Ownership reconciliation *)

(** C7 (as amended).  Reconciliation keeps the rows and their customers,
    in order.  A row whose customer the mapping sends to a representative
    carries that representative; a row whose customer is absent from the
    mapping, or mapped to an empty cell, keeps its salesperson; and the
    salesperson before reconciliation is kept in [Salesperson_Original]. *)
Theorem reconciliation_rule (sales_df : list Row) (planning_df : PlanningFrame) :
  let mapping := customer_mapping_of planning_df in
  Forall2
    (fun r r' =>
       Customer r' = Customer r
       /\ Salesperson_Original r' = Salesperson r
       /\ (forall rep, Dict.get mapping (Customer r) = Some (Some rep) ->
                       Salesperson r' = Some rep)
       /\ (Dict.get mapping (Customer r) = None
           \/ Dict.get mapping (Customer r) = Some None ->
           Salesperson r' = Salesperson r))
    sales_df (_apply_customer_mappings sales_df planning_df).
Proof.
  intro mapping. unfold _apply_customer_mappings. fold mapping.
  induction sales_df as [|r sales_df IH]; simpl; constructor; [|exact IH].
  simpl. unfold Series_map.
  repeat split.
  - intros rep H. now rewrite H.
  - intros [H|H]; now rewrite H.
Qed.

(** A customer listed in the planning table with an empty representative
    cell is in the mapping, and the row keeps "Old Rep". *)
Lemma blank_rep_does_not_override :
  Dict.get (customer_mapping_of planning_table_blank_rep) "Customer A"
  = Some None
  /\ map Salesperson
         (_apply_customer_mappings old_rep_sales planning_table_blank_rep)
     = [Some "Old Rep"]
  /\ ~ (forall r',
          In r' (_apply_customer_mappings old_rep_sales
                                          planning_table_blank_rep) ->
          forall v,
            Dict.get (customer_mapping_of planning_table_blank_rep)
                     (Customer r') = Some v ->
            Salesperson r' = v).
Proof.
  split; [reflexivity|]. split; [reflexivity|].
  intro H.
  specialize (H _ (or_introl eq_refl) None eq_refl).
  discriminate H.
Qed.

(** ** The churn-risk score *)

Lemma py_min_Fin (a b : Q) : py_min (Fin a) (Fin b) = Fin (min_ a b).
Proof. unfold py_min, min_. simpl. now destruct (Qltb b a). Qed.

Lemma py_max_Fin (a b : Q) : py_max (Fin a) (Fin b) = Fin (max_ a b).
Proof. unfold py_max, max_. simpl. now destruct (Qltb a b). Qed.

(** Where the window has a month count other than 0 and the trend is a
    number, the score is the weighted blend of the four sub-scores,
    clamped to [[0, 1]]. *)
Lemma churn_risk_score_formula
      (customer_data : list Row) (config : AnalyticsConfig)
      (last : Timestamp) (t : Q) :
  Series_max (map Posted_date customer_data) = Some last ->
  analysis_period_months config <> 0%Z ->
  AdvancedAnalytics._calculate_value_trend customer_data = Fin t ->
  let days := (today_date config - Timestamp_date last)%Z in
  let recency := min_ (inject_Z days / 90) 1 in
  let frequency :=
    max_ (1 - inject_Z (len customer_data)
              / inject_Z (analysis_period_months config * 30)) 0 in
  let value := max_ (1 - mean (map Net_price customer_data) / 1000) 0 in
  let trend := max_ (1 - t) 0 in
  AdvancedAnalytics.calculate_churn_risk_score customer_data config
  = Ok (Fin (min_ (max_ (recency * 0.4 + frequency * 0.3
                         + value * 0.2 + trend * 0.1) 0) 1)).
Proof.
  intros Hlast Hmonths Htrend days recency frequency value trend.
  unfold AdvancedAnalytics.calculate_churn_risk_score, int_truediv.
  rewrite Hlast, Htrend.
  destruct (analysis_period_months config * 30 =? 0)%Z eqn:E;
    [apply Z.eqb_eq in E; lia|].
  cbn [bind]. unfold f_sub. cbn [f_neg f_add].
  rewrite py_min_Fin, !py_max_Fin. cbn [f_mul f_add].
  rewrite py_max_Fin, py_min_Fin. reflexivity.
Qed.

(** The trend is a number of [[0, 1]] or NaN, never an infinity. *)
Lemma value_trend_range (customer_data : list Row) :
  AdvancedAnalytics._calculate_value_trend customer_data = NaN
  \/ exists t, AdvancedAnalytics._calculate_value_trend customer_data = Fin t
               /\ 0 <= t <= 1.
Proof.
  unfold AdvancedAnalytics._calculate_value_trend.
  assert (Hhalf : exists t, Fin 0.5 = Fin t /\ 0 <= t <= 1)
    by (exists 0.5; split; [reflexivity|lra]).
  destruct (len customer_data <? 3)%Z; [now right|].
  destruct (len _ <? 2)%Z; [now right|].
  destruct (2 <=? len _)%Z; [|now right].
  match goal with
  | |- context [f_div ?a ?b] => destruct (f_div a b) as [q| | |] eqn:E
  end; cbn [f_add].
  - right. rewrite py_min_Fin, py_max_Fin. eexists. split; [reflexivity|].
    unfold min_, max_.
    destruct (Qltb 1 (q + 0.5)) eqn:E1.
    + replace (Qltb 1 0) with false by reflexivity. lra.
    + apply Qltb_false in E1.
      destruct (Qltb (q + 0.5) 0) eqn:E2; [lra|].
      apply Qltb_false in E2. lra.
  - right. exists 1. split; [reflexivity|lra].
  - right. exists 0. split; [reflexivity|lra].
  - now left.
Qed.

(** ** Averages of scores *)

Lemma sum_unit_bounds (l : list Q) :
  Forall (fun q => 0 <= q <= 1) l -> 0 <= sum l <= inject_Z (len l).
Proof.
  induction 1 as [|q l Hq _ IH].
  - change (sum []) with 0. change (inject_Z (len (@nil Q))) with 0. lra.
  - rewrite sum_cons, len_cons, inject_Z_plus.
    change (inject_Z 1) with 1. lra.
Qed.

Lemma mean_unit_bounds (l : list Q) :
  l <> [] -> Forall (fun q => 0 <= q <= 1) l -> 0 <= mean l <= 1.
Proof.
  intros Hne Hall. unfold mean. fold (len l).
  pose proof (sum_unit_bounds l Hall) as Hsum.
  assert (Hpos : 0 < inject_Z (len l)).
  { destruct l as [|q l]; [congruence|]. rewrite len_cons.
    change 0 with (inject_Z 0). rewrite <- Zlt_Qlt.
    pose proof (len_nonneg l). lia. }
  split.
  - apply Qle_shift_div_l; [exact Hpos|]. lra.
  - apply Qle_shift_div_r; [exact Hpos|]. lra.
Qed.

Lemma Dict_get_In {V} (d : Dict.t V) (k : string) (v : V) :
  Dict.get d k = Some v -> In (k, v) d.
Proof.
  induction d as [|[k' v'] d IH]; simpl; [discriminate|].
  destruct (String.eqb k k') eqn:E.
  - apply String.eqb_eq in E. subst k'. intro H. inversion H. now left.
  - intro H. right. now apply IH.
Qed.

Lemma Dict_set_In {V} (d : Dict.t V) (k : string) (v : V) (kv : string * V) :
  In kv (Dict.set d k v) -> snd kv = v \/ In kv d.
Proof.
  induction d as [|[k' v'] d IH]; simpl.
  - intros [<-|[]]. now left.
  - destruct (String.eqb k k'); simpl.
    + intros [<-|H]; [now left|now right; right].
    + intros [<-|H]; [now right; left|].
      destruct (IH H) as [->|H']; [now left|now right; right].
Qed.

Lemma add_customer_unit_scores config (d : Dict.t RepData) (c : DormantCustomer) :
  0 <= churn_risk_score c <= 1 ->
  Forall (fun kv => unit_scores (risk_scores (snd kv))) d ->
  Forall (fun kv => unit_scores (risk_scores (snd kv))) (add_customer config d c).
Proof.
  intros Hc Hd. rewrite Forall_forall in *. intros kv Hin.
  unfold add_customer in Hin. apply Dict_set_In in Hin.
  destruct Hin as [->|Hin]; [|now apply Hd].
  cbn [risk_scores]. apply Forall_app. split; [|now repeat constructor].
  destruct (Dict.get d (salesperson c)) as [data|] eqn:E.
  - apply Dict_get_In in E. exact (Hd _ E).
  - constructor.
Qed.

Lemma summaries_unit_average config (ds : list DormantCustomer) :
  Forall (fun c => 0 <= churn_risk_score c <= 1) ds ->
  Forall (fun s => 0 <= average_churn_risk s <= 1)
         (_generate_salesperson_summaries config ds).
Proof.
  intro Hds.
  eapply Permutation_Forall;
    [apply Permutation_sym, summaries_Permutation|].
  assert (Hinv : Forall (fun kv => unit_scores (risk_scores (snd kv)))
                        (fold_left (add_customer config) ds [])).
  { assert (H0 : Forall (fun kv : string * RepData =>
                           unit_scores (risk_scores (snd kv))) [])
      by constructor.
    revert H0. generalize (@nil (string * RepData)).
    induction Hds as [|c ds Hc _ IH]; intros d Hd; simpl; [exact Hd|].
    apply IH. now apply add_customer_unit_scores. }
  rewrite Forall_forall in *. intros s Hs.
  apply in_map_iff in Hs. destruct Hs as ([rep data] & <- & Hin).
  specialize (Hinv _ Hin). simpl in Hinv. simpl.
  destruct (risk_scores data) as [|q l] eqn:E; [lra|].
  apply mean_unit_bounds; [discriminate|exact Hinv].
Qed.

(** With a month count other than 0, the score of a customer with rows
    is NaN when the trend is, and a number of [[0, 1]] otherwise. *)
Lemma churn_risk_score_cases
      (customer_data : list Row) (config : AnalyticsConfig) :
  customer_data <> [] ->
  analysis_period_months config <> 0%Z ->
  (AdvancedAnalytics._calculate_value_trend customer_data = NaN
   /\ AdvancedAnalytics.calculate_churn_risk_score customer_data config
      = Ok NaN)
  \/ (exists q,
        AdvancedAnalytics.calculate_churn_risk_score customer_data config
        = Ok (Fin q) /\ 0 <= q <= 1).
Proof.
  intros Hne Hmonths.
  destruct (Series_max (map Posted_date customer_data)) as [last|] eqn:Hlast;
    [|apply Series_max_None, map_eq_nil in Hlast; congruence].
  destruct (value_trend_range customer_data) as [Hnan|(t & Ht & _)].
  - left. split; [exact Hnan|].
    unfold AdvancedAnalytics.calculate_churn_risk_score, int_truediv.
    rewrite Hlast, Hnan.
    destruct (analysis_period_months config * 30 =? 0)%Z eqn:E;
      [apply Z.eqb_eq in E; lia|].
    cbn [bind]. rewrite py_min_Fin, !py_max_Fin. reflexivity.
  - right. eexists. split.
    + apply (churn_risk_score_formula _ _ _ _ Hlast Hmonths Ht).
    + apply clamp_bounds.
Qed.

(** With a month count of 0 the order frequency divides by zero. *)
Lemma churn_risk_score_zero_months
      (customer_data : list Row) (config : AnalyticsConfig) :
  customer_data <> [] ->
  analysis_period_months config = 0%Z ->
  AdvancedAnalytics.calculate_churn_risk_score customer_data config
  = Raise ZeroDivisionError.
Proof.
  intros Hne Hmonths.
  unfold AdvancedAnalytics.calculate_churn_risk_score, int_truediv.
  destruct (Series_max (map Posted_date customer_data)) as [last|] eqn:Hlast;
    [|apply Series_max_None, map_eq_nil in Hlast; congruence].
  now rewrite Hmonths.
Qed.

(** C4.  For a customer with three orders of price 0 in three months,
    as three rows whose price did not parse become, the fitted slope and
    the mean monthly spend are both 0, their quotient is NaN and so is
    the score the clamp returns; and with an analysis period of 0 months
    the score of a customer with orders raises [ZeroDivisionError]. *)
Theorem churn_risk_nan_on_zero_spend :
  AdvancedAnalytics._calculate_value_trend zero_spend_orders = NaN
  /\ AdvancedAnalytics.calculate_churn_risk_score zero_spend_orders test_config
     = Ok NaN
  /\ map Net_price (fst (DataValidator.validate_sales_data batch_without_prices))
     = [0; 0; 0]
  /\ AdvancedAnalytics.calculate_churn_risk_score three_orders no_months_config
     = Raise ZeroDivisionError.
Proof. repeat split. Qed.

(** ** The scenarios of the specification *)

Example ord2ymd_2025_03_15 : _ord2ymd 739325%Z = (2025, 3, 15)%Z.
Proof. reflexivity. Qed.
Example ord2ymd_2024_02_29 : _ord2ymd 738945%Z = (2024, 2, 29)%Z.
Proof. reflexivity. Qed.
Example ord2ymd_2000_12_31 : _ord2ymd 730485%Z = (2000, 12, 31)%Z.
Proof. reflexivity. Qed.
Example date_of_midnight : Timestamp_date (at_midnight 739403%Z) = 739403%Z.
Proof. reflexivity. Qed.

Example mapping_scenario :
  map Salesperson (_apply_customer_mappings old_rep_sales planning_table)
  = [Some "Mike Allen"].
Proof. reflexivity. Qed.

(** ** Instances *)

Lemma dormancy_selection_raises_witness :
  _identify_dormant_customers test_config (fun _ => 0) three_orders
  = Raise TypeError.
Proof.
  destruct dormancy_selection_raises as (_ & Hraises & _).
  apply (Hraises test_config (fun _ => 0) three_orders 739358%Z 739223%Z);
    reflexivity.
Defined.

Lemma empty_input_run_raises_witness :
  _calculate_accuracy_score (snd (DataValidator.validate_sales_data [])) = 0
  /\ _generate_insights [] [] = error_marker.
Proof.
  destruct empty_input_run_raises as (Hscore & Hinsights & _).
  split.
  - apply Hscore. reflexivity.
  - apply Hinsights.
Defined.

Lemma seasonal_pattern_needs_six_orders_witness :
  AdvancedAnalytics.identify_seasonal_patterns six_orders <> None
  /\ ~ AdvancedAnalytics.identify_seasonal_patterns three_orders <> None.
Proof.
  destruct seasonal_pattern_needs_six_orders as (Hsix & _).
  split.
  - apply (proj2 (Hsix six_orders)). vm_compute. discriminate.
  - intro H. apply (proj1 (Hsix three_orders)) in H.
    vm_compute in H. now apply H.
Defined.

Lemma value_trend_rule_witness :
  AdvancedAnalytics._calculate_value_trend three_orders
  = fitted_trend three_orders
  /\ AdvancedAnalytics._calculate_value_trend two_orders = Fin 0.5.
Proof.
  split.
  - apply (proj1 (value_trend_rule three_orders)); vm_compute; discriminate.
  - apply (proj2 (value_trend_rule two_orders)). left. reflexivity.
Defined.

Lemma reconciliation_rule_witness :
  Forall (fun r' => Salesperson r' = Some "Mike Allen"
                    /\ Salesperson_Original r' = Some "Old Rep")
         (_apply_customer_mappings old_rep_sales planning_table).
Proof.
  pose proof (reconciliation_rule old_rep_sales planning_table) as H.
  inversion H as [|r r' l l' (_ & Horig & Hmapped & _) _ Hr Hl]; subst.
  constructor; [|constructor].
  split; [apply Hmapped; reflexivity|exact Horig].
Defined.


(* ===================================================================== *)
(** * Further properties of the code *)
(* ===================================================================== *)

(** ** Ordered keys *)

Lemma Ascii_compare_Lt_trans (a b c : ascii) :
  Ascii.compare a b = Lt -> Ascii.compare b c = Lt -> Ascii.compare a c = Lt.
Proof.
  unfold Ascii.compare. rewrite !N.compare_lt_iff. apply N.lt_trans.
Qed.

Lemma Ascii_compare_refl (a : ascii) : Ascii.compare a a = Eq.
Proof. unfold Ascii.compare. apply N.compare_refl. Qed.

Lemma String_compare_refl (s : string) : String.compare s s = Eq.
Proof.
  induction s as [|a s IH]; simpl; [reflexivity|].
  now rewrite Ascii_compare_refl.
Qed.

Lemma String_compare_Lt_trans (s1 s2 s3 : string) :
  String.compare s1 s2 = Lt -> String.compare s2 s3 = Lt ->
  String.compare s1 s3 = Lt.
Proof.
  revert s2 s3. induction s1 as [|a s1 IH]; intros [|b s2] [|c s3]; simpl;
    try discriminate; try reflexivity.
  destruct (Ascii.compare a b) eqn:Eab; try discriminate.
  - apply Ascii.compare_eq_iff in Eab. subst b.
    destruct (Ascii.compare a c) eqn:Eac; try discriminate; try reflexivity.
    apply IH.
  - intros _.
    destruct (Ascii.compare b c) eqn:Ebc; try discriminate.
    + apply Ascii.compare_eq_iff in Ebc. subst c. now rewrite Eab.
    + intros _. now rewrite (Ascii_compare_Lt_trans _ _ _ Eab Ebc).
Qed.

Section UniqueSortedFacts.
Context {K : Type} (eqb leb : K -> K -> bool) (lt : K -> K -> Prop).
Hypothesis eqb_eq : forall a b, eqb a b = true <-> a = b.
Hypothesis lt_trans : forall a b c, lt a b -> lt b c -> lt a c.
Hypothesis lt_irrefl : forall a, ~ lt a a.
Hypothesis leb_lt : forall a b, eqb a b = false -> leb a b = true -> lt a b.
Hypothesis leb_gt : forall a b, leb a b = false -> lt b a.

Lemma insert_key_HdRel (a k : K) (l : list K) :
  HdRel lt a l -> lt a k -> HdRel lt a (insert_key eqb leb k l).
Proof.
  intros Hl Hak. destruct l as [|k' l]; simpl.
  - now constructor.
  - destruct (eqb k k'); [exact Hl|].
    destruct (leb k k'); constructor; [exact Hak|]. now inversion Hl.
Qed.

Lemma insert_key_Sorted (k : K) (l : list K) :
  Sorted lt l -> Sorted lt (insert_key eqb leb k l).
Proof.
  induction l as [|k' l IH]; simpl; intro Hs.
  - repeat constructor.
  - destruct (eqb k k') eqn:Eeq; [exact Hs|].
    destruct (leb k k') eqn:Ele.
    + constructor; [exact Hs|]. constructor. now apply leb_lt.
    + inversion Hs as [|? ? Hs' Hhd]; subst.
      constructor; [now apply IH|].
      apply insert_key_HdRel; [exact Hhd|now apply leb_gt].
Qed.

Lemma unique_sorted_Sorted (l : list K) :
  Sorted lt (unique_sorted eqb leb l).
Proof.
  induction l as [|k l IH]; simpl; [constructor|].
  now apply insert_key_Sorted.
Qed.

Lemma Sorted_NoDup (l : list K) : Sorted lt l -> NoDup l.
Proof.
  intro Hs. apply Sorted_StronglySorted in Hs; [|exact lt_trans].
  induction Hs as [|a l _ IH Hall]; constructor; [|exact IH].
  intro Hin. rewrite Forall_forall in Hall.
  exact (lt_irrefl a (Hall a Hin)).
Qed.

End UniqueSortedFacts.

Lemma String_leb_lt (a b : string) :
  String.eqb a b = false -> String.leb a b = true -> String_lt a b.
Proof.
  unfold String.leb, String_lt. intros Hne Hle.
  destruct (String.compare a b) eqn:E; try discriminate; [|reflexivity].
  apply String.compare_eq_iff in E. subst b.
  rewrite String.eqb_refl in Hne. discriminate.
Qed.

Lemma String_leb_gt (a b : string) : String.leb a b = false -> String_lt b a.
Proof.
  unfold String.leb, String_lt. rewrite (String.compare_antisym b a).
  destruct (String.compare a b); try discriminate. reflexivity.
Qed.

Lemma String_lt_irrefl (a : string) : ~ String_lt a a.
Proof. unfold String_lt. rewrite String_compare_refl. discriminate. Qed.

Lemma customers_Sorted (l : list string) :
  Sorted String_lt (unique_sorted String.eqb String.leb l).
Proof.
  apply unique_sorted_Sorted; [exact String_leb_lt|exact String_leb_gt].
Qed.

Lemma customers_NoDup (l : list string) :
  NoDup (unique_sorted String.eqb String.leb l).
Proof.
  eapply Sorted_NoDup;
    [exact String_compare_Lt_trans|exact String_lt_irrefl|apply customers_Sorted].
Qed.

(** ** The validator *)

Lemma isna_sum_bounds {A} (col : list (option A)) :
  (0 <= isna_sum col <= len col)%Z.
Proof.
  unfold isna_sum, len. pose proof (filter_length_le isna col). lia.
Qed.

Lemma isna_sum_zero {A} (col : list (option A)) :
  isna_sum col = 0%Z <-> Forall (fun o => isna o = false) col.
Proof.
  unfold isna_sum, len. induction col as [|o col IH]; simpl.
  - split; [constructor|reflexivity].
  - destruct (isna o) eqn:E; simpl.
    + split; [lia|]. intro H. inversion H. congruence.
    + rewrite IH. split; [now constructor|]. intro H. now inversion H.
Qed.

Lemma dropna_fillna_kept (df : list RawRow) :
  map (fun r => (Posted_date r, Customer r, Net_price r))
      (dropna (map fillna_Net_price (map coerce_row df)))
  = flat_map kept_of df.
Proof.
  induction df as [|r df IH]; [reflexivity|].
  cbn [map dropna flat_map]. fold (dropna (map fillna_Net_price (map coerce_row df))).
  rewrite map_app, IH. f_equal.
  unfold kept_of, dropna_row, fillna_Net_price, coerce_row, to_datetime,
    to_numeric, coerce. simpl.
  destruct (raw_Posted_date r), (raw_Customer r), (raw_Net_price r); reflexivity.
Qed.

(** X1.  The clean frame holds, in order, the rows whose posted date
    parses and whose customer is present, with their price or 0 for a
    price that does not parse: no row is dropped for its price or its
    invoice date.  The report counts the rows of the batch and of the
    clean frame. *)
Theorem validate_keeps_usable_rows (df : list RawRow) :
  let clean := fst (DataValidator.validate_sales_data df) in
  let report := snd (DataValidator.validate_sales_data df) in
  map (fun r => (Posted_date r, Customer r, Net_price r)) clean
  = flat_map kept_of df
  /\ total_records report = len df
  /\ valid_records report = len clean.
Proof.
  unfold DataValidator.validate_sales_data. cbn [fst snd].
  split; [apply dropna_fillna_kept|]. split; reflexivity.
Qed.

Lemma dropna_length (df : list CoercedRow) :
  len (dropna df)
  = (len df - isna_sum (map c_Posted_date df)
     - len (filter (fun r => negb (isna (c_Posted_date r)) && isna (c_Customer r))
                   df))%Z.
Proof.
  unfold isna_sum, len. induction df as [|r df IH]; [reflexivity|].
  cbn [dropna flat_map map filter]. fold (dropna df).
  rewrite length_app. unfold dropna_row.
  destruct (c_Posted_date r), (c_Customer r);
    cbn [isna negb andb List.length Nat.add]; rewrite ?Nat2Z.inj_succ; lia.
Qed.

Lemma duplicated_sum_bounds (seen rows : list Row) :
  (0 <= duplicated_sum seen rows <= len rows)%Z
  /\ (seen = [] -> rows <> [] -> duplicated_sum seen rows < len rows)%Z.
Proof.
  revert seen. induction rows as [|r rows IH]; intro seen; simpl.
  - split; [unfold len; simpl; lia|congruence].
  - rewrite len_cons. destruct (IH (r :: seen)) as (Hb & _).
    split.
    + destruct (existsb (Row_eqb r) seen); lia.
    + intros -> _. simpl. lia.
Qed.

(** X2.  The counts of a report fit together: the valid records are at
    most the total, the rows with an invalid posted date are all among
    the dropped ones, the duplicates are fewer than the valid records
    (none when there is no valid record), and the completeness score is
    the share of valid records, within [[0, 1]]. *)
Theorem validate_report_consistent (df : list RawRow) :
  let report := snd (DataValidator.validate_sales_data df) in
  (0 <= valid_records report <= total_records report)%Z
  /\ (0 <= invalid_dates report
       <= total_records report - valid_records report)%Z
  /\ (0 <= duplicate_records report)%Z
  /\ (duplicate_records report < valid_records report
       \/ (duplicate_records report = 0 /\ valid_records report = 0))%Z
  /\ 0 <= data_completeness_score report <= 1
  /\ data_completeness_score report * inject_Z (total_records report)
     == inject_Z (valid_records report).
Proof.
  unfold DataValidator.validate_sales_data. cbn [snd total_records valid_records
    invalid_dates duplicate_records data_completeness_score].
  set (filled := map fillna_Net_price (map coerce_row df)).
  assert (Hlen : len filled = len df)
    by (unfold filled, len; now rewrite !length_map).
  pose proof (dropna_length filled) as Hdrop.
  pose proof (isna_sum_bounds (map c_Posted_date filled)) as Hna.
  pose proof (len_nonneg (dropna filled)) as Hclean.
  pose proof (len_nonneg
                (filter (fun r => negb (isna (c_Posted_date r))
                                  && isna (c_Customer r)) filled)) as Hcust.
  destruct (duplicated_sum_bounds [] (dropna filled)) as (Hdup & Hdup').
  split; [lia|]. split; [lia|]. split; [lia|]. split.
  { destruct (dropna filled) as [|r rows] eqn:E.
    - right. split; reflexivity.
    - left. apply Hdup'; [reflexivity|discriminate]. }
  case_Zcmp.
  - assert (Hpos : 0 < inject_Z (len df))
      by (change 0 with (inject_Z 0); now rewrite <- Zlt_Qlt).
    split; [split|].
    + apply Qle_shift_div_l; [exact Hpos|].
      rewrite Qmult_0_l. change 0 with (inject_Z 0). rewrite <- Zle_Qle. lia.
    + apply Qle_shift_div_r; [exact Hpos|].
      rewrite Qmult_1_l. rewrite <- Zle_Qle. lia.
    + field. intro Hz. rewrite Hz in Hpos. exact (Qlt_irrefl _ Hpos).
  - assert (Hz : len df = 0%Z) by (pose proof (len_nonneg df); lia).
    assert (Hc : len (dropna filled) = 0%Z) by lia.
    rewrite Hz, Hc. split; [lra|reflexivity].
Qed.

Lemma coerce_notna {A} (c : cell A) :
  isna (coerce c) = false <-> exists a, c = Parsed a.
Proof.
  destruct c; simpl; split; try discriminate; eauto;
    intros (a & H); discriminate.
Qed.

(** X3.  The recommendations list the columns that held a value the
    validator could not use, in the order invoice dates, posted dates,
    prices: at most three lines, and none exactly when every date and
    price cell of the batch parses. *)
Theorem validate_recommendations (df : list RawRow) :
  let report := snd (DataValidator.validate_sales_data df) in
  (List.length (recommendations report) <= 3)%nat
  /\ (recommendations report = [] <-> Forall all_cells_parse df).
Proof.
  unfold DataValidator.validate_sales_data. cbn [snd recommendations].
  set (coerced := map coerce_row df).
  pose proof (isna_sum_bounds (map c_Invoice_date coerced)) as H1.
  pose proof (isna_sum_bounds (map c_Posted_date coerced)) as H2.
  pose proof (isna_sum_bounds (map c_Net_price coerced)) as H3.
  pose proof (isna_sum_zero (map c_Invoice_date coerced)) as Z1.
  pose proof (isna_sum_zero (map c_Posted_date coerced)) as Z2.
  pose proof (isna_sum_zero (map c_Net_price coerced)) as Z3.
  assert (Hall : Forall all_cells_parse df <->
                 Forall (fun o => isna o = false) (map c_Invoice_date coerced)
                 /\ Forall (fun o => isna o = false) (map c_Posted_date coerced)
                 /\ Forall (fun o => isna o = false) (map c_Net_price coerced)).
  { unfold coerced. rewrite !map_map, !Forall_map. unfold all_cells_parse.
    rewrite !Forall_forall. cbn [coerce_row c_Invoice_date c_Posted_date
      c_Net_price]. unfold to_datetime, to_numeric.
    split.
    - intro H. repeat split; intros r Hr; apply coerce_notna; now apply H.
    - intros (Ha & Hb & Hc) r Hr.
      repeat split; apply coerce_notna; auto. }
  rewrite Hall, <- Z1, <- Z2, <- Z3.
  split.
  - case_Zcmp; simpl; lia.
  - case_Zcmp; simpl; split; try discriminate; try lia;
      try (intros (? & ? & ?); lia); try (intros _; repeat split; lia).
Qed.

(** ** The reconciler *)

Lemma scan_columns_spec (cols : list string) (acc : option string * option string) :
  let found :=
    fold_left
      (fun (found : option string * option string) col =>
         let (customer_col, rep_col) := found in
         if contains "customer" (lower col) then (Some col, rep_col)
         else if contains "rep" (lower col)
                 || contains "salesperson" (lower col)
                 || contains "assigned" (lower col)
              then (customer_col, Some col)
         else (customer_col, rep_col))
      cols acc in
  (forallb (fun c => negb (customer_header c)) cols = true -> fst found = fst acc)
  /\ (forallb (fun c => negb (rep_header c)) cols = true -> snd found = snd acc).
Proof.
  revert acc. induction cols as [|col cols IH]; intros [cc rc]; cbn [fold_left].
  - split; reflexivity.
  - unfold customer_header, rep_header in *. cbn [forallb].
    destruct (contains "customer" (lower col)) eqn:Ec.
    + destruct (IH (Some col, rc)) as (_ & H2).
      split; [discriminate|]. exact H2.
    + destruct (contains "rep" (lower col) || contains "salesperson" (lower col)
                || contains "assigned" (lower col)) eqn:Er; cbn [negb andb].
      * destruct (IH (cc, Some col)) as (H1 & _).
        split; [exact H1|discriminate].
      * exact (IH (cc, rc)).
Qed.

(** X4.  A planning table without a header containing "customer", or
    without another header containing "rep", "salesperson" or
    "assigned" (letters in either case), yields no mapping, and every
    sales row keeps its salesperson. *)
Theorem reconciliation_needs_both_columns
    (sales_df : list Row) (planning_df : PlanningFrame) :
  forallb (fun c => negb (customer_header c)) (map fst planning_df) = true
  \/ forallb (fun c => negb (rep_header c)) (map fst planning_df) = true ->
  customer_mapping_of planning_df = []
  /\ map Salesperson (_apply_customer_mappings sales_df planning_df)
     = map Salesperson sales_df.
Proof.
  intro H.
  assert (Hmap : customer_mapping_of planning_df = []).
  { unfold customer_mapping_of, scan_columns.
    destruct (scan_columns_spec (map fst planning_df) (None, None)) as (H1 & H2).
    cbv zeta in H1, H2.
    match goal with
    | |- context [fold_left ?f ?l ?a] => destruct (fold_left f l a) as [cc rc]
    end.
    simpl in H1, H2. destruct H as [H|H].
    - rewrite (H1 H). reflexivity.
    - rewrite (H2 H). now destruct cc. }
  split; [exact Hmap|].
  unfold _apply_customer_mappings. rewrite Hmap, map_map.
  apply map_ext. intro r. reflexivity.
Qed.

Lemma combine_snoc {A B} (l1 : list A) (l2 : list B) (a : A) (b : B) :
  List.length l1 = List.length l2 ->
  combine (l1 ++ [a]) (l2 ++ [b]) = (combine l1 l2 ++ [(a, b)])%list.
Proof.
  revert l2. induction l1 as [|x l1 IH]; intros [|y l2]; simpl;
    try discriminate; [reflexivity|].
  intro H. inversion H. now rewrite IH.
Qed.

Lemma dict_zip_snoc (ks vs : list (option string)) (k : string)
      (v : option string) :
  List.length ks = List.length vs ->
  dict_zip (ks ++ [Some k]) (vs ++ [v]) = Dict.set (dict_zip ks vs) k v.
Proof.
  intro Hlen. unfold dict_zip.
  rewrite combine_snoc by exact Hlen. now rewrite fold_left_app.
Qed.

(** X5.  When a customer is listed several times in the planning table,
    the last row decides: with the customer column ending in [k] and the
    representative column ending in [rep], every sales row of customer
    [k] is assigned to [rep]. *)
Theorem last_planning_row_wins
    (customer_col rep_col : string) (ks vs : list (option string))
    (k rep : string) (sales_df : list Row) (r : Row) :
  customer_header customer_col = true ->
  rep_header rep_col = true ->
  List.length ks = List.length vs ->
  In r (_apply_customer_mappings sales_df
          [(customer_col, ks ++ [Some k]); (rep_col, vs ++ [Some rep])]%list) ->
  Customer r = k ->
  Salesperson r = Some rep.
Proof.
  intros Hc Hr Hlen Hin Hk.
  unfold rep_header in Hr. apply andb_true_iff in Hr. destruct Hr as (Hnc & Hr).
  apply negb_true_iff in Hnc. unfold customer_header in Hc.
  assert (Hne : String.eqb customer_col rep_col = false).
  { apply String.eqb_neq. intros ->. congruence. }
  assert (Hmap : customer_mapping_of
                   [(customer_col, ks ++ [Some k]); (rep_col, vs ++ [Some rep])]%list
                 = Dict.set (dict_zip ks vs) k (Some rep)).
  { unfold customer_mapping_of, scan_columns. cbn [map fst fold_left].
    rewrite Hc, Hnc, Hr. cbn [column].
    rewrite !String.eqb_refl, Hne.
    now apply dict_zip_snoc. }
  unfold _apply_customer_mappings in Hin. rewrite Hmap in Hin.
  apply in_map_iff in Hin. destruct Hin as (r0 & <- & _).
  cbn [Salesperson Customer] in *. subst k.
  unfold Series_map. now rewrite DictFacts.get_set_same.
Qed.

Lemma fillna_column_isna (m : string -> option string) (rows : list Row) :
  (isna_sum (map (fun r => fillna (m (Customer r)) (Salesperson r)) rows)
   <= isna_sum (map Salesperson rows))%Z.
Proof.
  unfold isna_sum, len. induction rows as [|r rows IH]; [simpl; lia|].
  cbn [map filter].
  destruct (m (Customer r)), (Salesperson r);
    cbn [fillna isna List.length]; rewrite ?Nat2Z.inj_succ; lia.
Qed.

(** X6.  Reconciliation touches the salesperson only: the rows, their
    order and their other columns stay as they are; every row that had a
    salesperson has one afterwards, so that no more rows are without one
    than before; and reconciling the reconciled frame again assigns the
    same salespersons. *)
Theorem reconciliation_preserves_rows
    (sales_df : list Row) (planning_df : PlanningFrame) :
  let mapped := _apply_customer_mappings sales_df planning_df in
  map other_columns mapped = map other_columns sales_df
  /\ Forall2 (fun r r' => Salesperson r <> None -> Salesperson r' <> None)
             sales_df mapped
  /\ (isna_sum (map Salesperson mapped)
      <= isna_sum (map Salesperson sales_df))%Z
  /\ map Salesperson (_apply_customer_mappings mapped planning_df)
     = map Salesperson mapped.
Proof.
  unfold _apply_customer_mappings.
  set (m := Series_map (customer_mapping_of planning_df)).
  split; [|split; [|split]].
  - rewrite map_map. apply map_ext. intro r. reflexivity.
  - induction sales_df as [|r sales_df IH]; cbn [map]; constructor;
      [|exact IH].
    cbn [Salesperson]. intro Hhad.
    destruct (m (Customer r)); cbn [fillna]; [discriminate|exact Hhad].
  - rewrite map_map. apply fillna_column_isna.
  - rewrite !map_map. apply map_ext. intro r. cbn [Salesperson Customer].
    now destruct (m (Customer r)).
Qed.

(** ** Calendar months *)

Lemma ord2ymd_month_range (n0 : Z) :
  (1 <= snd (fst (_ord2ymd n0)) <= 12)%Z.
Proof.
  unfold _ord2ymd, _DI400Y, _DI100Y, _DI4Y.
  set (a := ((n0 - 1) mod 146097)%Z).
  set (b := (a mod 36524)%Z).
  set (c := (b mod 1461)%Z).
  set (n := (c mod 365)%Z).
  assert (Hn : (0 <= n < 365)%Z) by (apply Z.mod_pos_bound; lia).
  destruct ((c / 365 =? 4)%Z || (a / 36524 =? 4)%Z); [simpl; lia|].
  set (leap := (c / 365 =? 3)%Z && (negb (b / 1461 =? 24)%Z || (a / 36524 =? 3)%Z)).
  rewrite Z.shiftr_div_pow2 by lia. change (2 ^ 5)%Z with 32%Z.
  set (m := ((n + 50) / 32)%Z).
  assert (Hm : (1 <= m <= 12)%Z).
  { unfold m. split.
    - apply Z.div_le_lower_bound; lia.
    - apply Z.lt_succ_r, Z.div_lt_upper_bound; lia. }
  match goal with
  | |- context [if (n <? ?p)%Z then _ else _] => destruct (n <? p)%Z eqn:E
  end; cbn [fst snd]; [|lia].
  assert (m <> 1)%Z; [|lia].
  intros Hm1. rewrite Hm1 in E. cbn in E. apply Z.ltb_lt in E. lia.
Qed.

Lemma Timestamp_month_range (ts : Timestamp) :
  (1 <= Timestamp_month ts <= 12)%Z.
Proof. unfold Timestamp_month, date_month. apply ord2ymd_month_range. Qed.

(** ** The seasonal label *)

Lemma idxmax_from_spec (best : Z * Z) (l : list (Z * Z)) :
  exists n, In (idxmax_from best l, n) (best :: l)
            /\ (snd best <= n)%Z
            /\ (forall kv, In kv l -> (snd kv <= n)%Z).
Proof.
  revert best. induction l as [|kv l IH]; intros [k n]; simpl.
  - exists n. split; [now left|]. split; [lia|intros ? []].
  - destruct (n <? snd kv)%Z eqn:E.
    + apply Z.ltb_lt in E. destruct (IH kv) as (m & Hin & Hge & Hall).
      exists m. split; [right; exact Hin|]. split; [lia|].
      intros kv' [<-|H]; [exact Hge|now apply Hall].
    + apply Z.ltb_ge in E. destruct (IH (k, n)) as (m & Hin & Hge & Hall).
      simpl in Hge. exists m. split.
      * destruct Hin as [Hin|Hin]; [now left|now right; right].
      * split; [exact Hge|]. intros kv' [<-|H]; [lia|now apply Hall].
Qed.

Lemma idxmax_spec (l : list (Z * Z)) (k : Z) :
  idxmax l = Some k ->
  exists n, In (k, n) l /\ (forall kv, In kv l -> (snd kv <= n)%Z).
Proof.
  destruct l as [|best l]; simpl; [discriminate|]. intro H. inversion H.
  destruct (idxmax_from_spec best l) as (n & Hin & Hge & Hall).
  exists n. split; [exact Hin|].
  intros kv [<-|Hkv]; [exact Hge|now apply Hall].
Qed.

Lemma season_of_month (month : Z) :
  (1 <= month <= 12)%Z ->
  In (AdvancedAnalytics.season_of month AdvancedAnalytics.seasonal_map)
     season_labels.
Proof.
  intro H.
  assert (Hcases : (month = 1 \/ month = 2 \/ month = 3 \/ month = 4
                    \/ month = 5 \/ month = 6 \/ month = 7 \/ month = 8
                    \/ month = 9 \/ month = 10 \/ month = 11
                    \/ month = 12)%Z)
    by lia.
  repeat (destruct Hcases as [->|Hcases]; [simpl; tauto|]).
  subst. simpl. tauto.
Qed.

Lemma season_labels_clear (label : string) :
  In label season_labels -> label <> "No clear pattern".
Proof.
  intros Hin Heq. subst label. simpl in Hin.
  repeat (destruct Hin as [Hl|Hin]; [discriminate Hl|]). exact Hin.
Qed.

(** X11.  A seasonal label, when there is one, is the season of a
    calendar month in which the customer has an order and at least as
    many orders as in any other month; it is one of the four season
    labels, so "No clear pattern" is never returned. *)
Theorem seasonal_label_is_peak_season
    (customer_data : list Row) (label : string) :
  AdvancedAnalytics.identify_seasonal_patterns customer_data = Some label ->
  In label season_labels
  /\ label <> "No clear pattern"
  /\ exists month,
       (1 <= month <= 12)%Z
       /\ label = AdvancedAnalytics.season_of month
                                              AdvancedAnalytics.seasonal_map
       /\ (0 < orders_in_month customer_data month)%Z
       /\ forall other,
            (orders_in_month customer_data other
             <= orders_in_month customer_data month)%Z.
Proof.
  unfold AdvancedAnalytics.identify_seasonal_patterns.
  destruct (len customer_data <? 6)%Z; [discriminate|].
  set (key := fun r : Row => Some (Timestamp_month (Posted_date r))).
  set (groups := groupby Z.eqb Z.leb key customer_data).
  destruct (idxmax (map (fun g => (fst g, len (snd g))) groups))
    as [peak|] eqn:Epeak; [|discriminate].
  intro H. inversion H; subst label; clear H.
  apply idxmax_spec in Epeak. destruct Epeak as (n & Hin & Hall).
  assert (Hgroup : forall k g, In (k, g) groups ->
                     (exists r, In r customer_data
                                /\ Timestamp_month (Posted_date r) = k)
                     /\ len g = orders_in_month customer_data k).
  { intros k g Hg.
    apply (proj1 (groupby_In Z.eqb Z.leb Z.eqb_eq key customer_data k g)) in Hg.
    destruct Hg as ((r & Hr & Hk) & ->). split.
    - exists r. split; [exact Hr|]. unfold key in Hk. now inversion Hk.
    - reflexivity. }
  apply in_map_iff in Hin. destruct Hin as ([k g] & Heq & Hg).
  simpl in Heq. inversion Heq; subst k n; clear Heq.
  destruct (Hgroup _ _ Hg) as ((r & Hr & Hmonth) & Hlen).
  assert (Hrange : (1 <= peak <= 12)%Z)
    by (rewrite <- Hmonth; apply Timestamp_month_range).
  pose proof (season_of_month peak Hrange) as Hlabel.
  split; [exact Hlabel|]. split.
  { exact (season_labels_clear _ Hlabel). }
  exists peak. split; [exact Hrange|]. split; [reflexivity|].
  rewrite <- Hlen. split.
  - rewrite Hlen. unfold orders_in_month, len.
    assert (Hin : In r (filter (fun r0 => (Timestamp_month (Posted_date r0)
                                           =? peak)%Z) customer_data))
      by (apply filter_In; split; [exact Hr|now apply Z.eqb_eq]).
    destruct (filter _ customer_data); [destruct Hin|simpl; lia].
  - intro other.
    destruct (orders_in_month customer_data other =? 0)%Z eqn:E0.
    + apply Z.eqb_eq in E0. rewrite E0. apply len_nonneg.
    + apply Z.eqb_neq in E0.
      assert (Hex : exists r', In r' customer_data
                               /\ Timestamp_month (Posted_date r') = other).
      { unfold orders_in_month, len in E0.
        destruct (filter (fun r0 => (Timestamp_month (Posted_date r0)
                                     =? other)%Z) customer_data)
          as [|r' l] eqn:Ef; [simpl in E0; lia|].
        assert (Hin : In r' (r' :: l)) by now left.
        rewrite <- Ef in Hin. apply filter_In in Hin.
        destruct Hin as (Hr' & Hm). apply Z.eqb_eq in Hm. eauto. }
      destruct Hex as (r' & Hr' & Hm').
      assert (Hg' : In (other, filter (fun r0 => option_eqb Z.eqb (key r0)
                                                            (Some other))
                                      customer_data) groups).
      { apply (proj2 (groupby_In Z.eqb Z.leb Z.eqb_eq key customer_data _ _)).
        split; [|reflexivity]. exists r'. split; [exact Hr'|].
        unfold key. now rewrite Hm'. }
      specialize (Hall (other, len (filter (fun r0 => option_eqb Z.eqb (key r0)
                                                                 (Some other))
                                           customer_data))).
      simpl in Hall. apply Hall.
      apply in_map_iff. eexists. split; [|exact Hg']. reflexivity.
Qed.

(** ** Descending order and largest elements *)

Lemma StronglySorted_impl {A} (R S : A -> A -> Prop) (l : list A) :
  (forall a b, R a b -> S a b) -> StronglySorted R l -> StronglySorted S l.
Proof.
  intros HRS. induction 1 as [|a l _ IH Hall]; constructor; [exact IH|].
  eapply Forall_impl; [|exact Hall]. intros b. apply HRS.
Qed.

Section DescendingFacts.
Context {A : Type} (gt : A -> A -> bool).
Hypothesis gt_asym : forall a b, gt a b = true -> gt b a = false.
Hypothesis ge_trans :
  forall a b c, gt b a = false -> gt c b = false -> gt c a = false.

(** [a] is not below [b]. *)
Let ge (a b : A) : Prop := gt b a = false.

Lemma gt_irrefl (a : A) : gt a a = false.
Proof.
  destruct (gt a a) eqn:E; [|reflexivity].
  pose proof (gt_asym _ _ E). congruence.
Qed.

Lemma insert_desc_HdRel (a x : A) (l : list A) :
  HdRel ge a l -> ge a x -> HdRel ge a (insert_desc gt x l).
Proof.
  intros Hl Hax. destruct l as [|y l]; simpl; [now constructor|].
  destruct (gt y x); constructor; [now inversion Hl|exact Hax].
Qed.

Lemma insert_desc_Sorted (x : A) (l : list A) :
  Sorted ge l -> Sorted ge (insert_desc gt x l).
Proof.
  induction l as [|y l IH]; simpl; intro Hs; [repeat constructor|].
  destruct (gt y x) eqn:E.
  - inversion Hs as [|? ? Hs' Hhd]; subst.
    constructor; [now apply IH|].
    apply insert_desc_HdRel; [exact Hhd|]. unfold ge. now apply gt_asym.
  - constructor; [exact Hs|]. now constructor.
Qed.

Lemma sorted_desc_StronglySorted (l : list A) :
  StronglySorted ge (sorted_desc gt l).
Proof.
  apply Sorted_StronglySorted.
  - intros a b c Hab Hbc. unfold ge in *. eapply ge_trans; eassumption.
  - induction l as [|x l IH]; simpl; [constructor|].
    now apply insert_desc_Sorted.
Qed.

Lemma max_by_spec (x : A) (l : list A) :
  In (max_by gt x l) (x :: l)
  /\ forall y, In y (x :: l) -> ge (max_by gt x l) y.
Proof.
  unfold max_by.
  assert (H : forall seen best,
             In best seen -> (forall y, In y seen -> ge best y) ->
             In (fold_left (fun best y => if gt y best then y else best) l best)
                (seen ++ l)
             /\ forall y, In y (seen ++ l) ->
                  ge (fold_left (fun best y => if gt y best then y else best)
                                l best) y).
  { induction l as [|z l IH]; intros seen best Hin Hall; simpl.
    - rewrite app_nil_r. auto.
    - replace (seen ++ z :: l)%list with ((seen ++ [z]) ++ l)%list
        by (now rewrite <- app_assoc).
      apply IH.
      + apply in_or_app. destruct (gt z best); [right; now left|now left].
      + intros y Hy. apply in_app_or in Hy.
        destruct (gt z best) eqn:E.
        * destruct Hy as [Hy|[<-|[]]]; [|apply gt_irrefl].
          unfold ge. eapply ge_trans; [apply (gt_asym _ _ E)|].
          now apply Hall.
        * destruct Hy as [Hy|[<-|[]]]; [now apply Hall|exact E]. }
  destruct (H [x] x) as (H1 & H2).
  - now left.
  - intros y [<-|[]]. apply gt_irrefl.
  - split; [exact H1|exact H2].
Qed.
End DescendingFacts.

Lemma Qgt_asym {A} (key : A -> Q) (a b : A) :
  Qltb (key b) (key a) = true -> Qltb (key a) (key b) = false.
Proof. rewrite Qltb_true, Qltb_false. lra. Qed.

Lemma Qge_trans {A} (key : A -> Q) (a b c : A) :
  Qltb (key a) (key b) = false -> Qltb (key b) (key c) = false ->
  Qltb (key a) (key c) = false.
Proof. rewrite !Qltb_false. lra. Qed.

Lemma Zgt_asym {A} (key : A -> Z) (a b : A) :
  (key b <? key a)%Z = true -> (key a <? key b)%Z = false.
Proof. rewrite Z.ltb_lt, Z.ltb_ge. lia. Qed.

Lemma Zge_trans {A} (key : A -> Z) (a b c : A) :
  (key a <? key b)%Z = false -> (key b <? key c)%Z = false ->
  (key a <? key c)%Z = false.
Proof. rewrite !Z.ltb_ge. lia. Qed.

(** X12.  The representative summaries come in descending order of
    value at risk: no summary has a larger total than one listed before
    it. *)
Theorem summaries_descending
    (config : AnalyticsConfig) (dormant_customers : list DormantCustomer) :
  StronglySorted
    (fun a b => total_value_at_risk b <= total_value_at_risk a)
    (_generate_salesperson_summaries config dormant_customers).
Proof.
  unfold _generate_salesperson_summaries.
  eapply StronglySorted_impl;
    [|apply (sorted_desc_StronglySorted
               (fun a b => Qltb (total_value_at_risk b) (total_value_at_risk a))
               (Qgt_asym total_value_at_risk)
               (fun a b c => Qge_trans total_value_at_risk a b c))].
  intros a b H. now apply Qltb_false.
Qed.

(** ** What a summary holds *)

Lemma len_app {A} (l1 l2 : list A) : len (l1 ++ l2) = (len l1 + len l2)%Z.
Proof. unfold len. rewrite length_app. lia. Qed.

Lemma customers_of_snoc (rep : string) (ds : list DormantCustomer)
      (c : DormantCustomer) :
  customers_of rep (ds ++ [c])
  = (customers_of rep ds
     ++ (if String.eqb (salesperson c) rep then [c] else []))%list.
Proof. unfold customers_of. rewrite filter_app. reflexivity. Qed.

Lemma add_customer_entry_ok config (ds : list DormantCustomer)
      (d : Dict.t RepData) (c : DormantCustomer) :
  (forall rep, rep_entry_ok config ds rep (Dict.get d rep)) ->
  forall rep,
    rep_entry_ok config (ds ++ [c]) rep
                 (Dict.get (add_customer config d c) rep).
Proof.
  intros Hinv rep. unfold add_customer.
  destruct (string_dec rep (salesperson c)) as [->|Hne].
  - rewrite DictFacts.get_set_same.
    specialize (Hinv (salesperson c)).
    unfold rep_entry_ok in *. cbn [customers total_value high_value_count
      quick_win_count_ risk_scores].
    rewrite customers_of_snoc, String.eqb_refl.
    assert (Hfilter : forall (p : DormantCustomer -> bool) l,
               len (filter p (l ++ [c]))
               = (len (filter p l) + if p c then 1 else 0)%Z).
    { intros p l. rewrite filter_app, len_app. simpl.
      destruct (p c); reflexivity. }
    fold (is_high_value config c).
    assert (Hquick : (if is_high_value config c then false
                      else Qle_bool (total_6_month_value c)
                                    (quick_win_threshold config))
                     = is_quick_win config c)
      by (unfold is_quick_win; now destruct (is_high_value config c)).
    destruct (Dict.get d (salesperson c)) as [data|].
    + destruct Hinv as (Hc & Hne & Ht & Hh & Hq & Hr).
      rewrite <- Hc. split; [reflexivity|]. split; [now destruct (customers data)|].
      split; [|split; [|split]].
      * rewrite map_app, sum_app, Ht.
        change (sum (map total_6_month_value [c]))
          with (0 + total_6_month_value c). lra.
      * rewrite Hfilter, Hh. destruct (is_high_value config c); lia.
      * rewrite Hfilter, Hq, <- Hquick.
        destruct (is_high_value config c); [lia|].
        destruct (Qle_bool _ _); lia.
      * now rewrite Hr, map_app.
    + rewrite Hinv. cbn [customers total_value high_value_count
        quick_win_count_ risk_scores new_rep_data app].
      split; [reflexivity|]. split; [discriminate|].
      split; [|split; [|split]].
      * change (sum (map total_6_month_value [c]))
          with (0 + total_6_month_value c). lra.
      * cbn [filter]. destruct (is_high_value config c); reflexivity.
      * cbn [filter]. rewrite <- Hquick.
        destruct (is_high_value config c); [reflexivity|].
        destruct (Qle_bool _ _); reflexivity.
      * reflexivity.
  - rewrite DictFacts.get_set_other by exact Hne.
    specialize (Hinv rep). unfold rep_entry_ok in *.
    rewrite customers_of_snoc.
    assert (E : String.eqb (salesperson c) rep = false)
      by (apply String.eqb_neq; congruence).
    rewrite E, app_nil_r. exact Hinv.
Qed.

Lemma fold_add_customer_entries config (ds : list DormantCustomer) :
  forall rep,
    rep_entry_ok config ds rep
                 (Dict.get (fold_left (add_customer config) ds []) rep).
Proof.
  induction ds as [|c ds IH] using rev_ind; intro rep.
  - reflexivity.
  - rewrite fold_left_app. cbn [fold_left].
    now apply add_customer_entry_ok.
Qed.

Lemma Dict_In_get {V} (d : Dict.t V) (k : string) (v : V) :
  NoDup (Dict.keys d) -> In (k, v) d -> Dict.get d k = Some v.
Proof.
  induction d as [|[k' v'] d IH]; simpl; [intros _ []|].
  intros Hnd Hin. inversion Hnd as [|? ? Hnotin Hnd']; subst.
  destruct Hin as [Heq|Hin].
  - inversion Heq; subst. now rewrite String.eqb_refl.
  - destruct (String.eqb k k') eqn:E; [|now apply IH].
    apply String.eqb_eq in E. subst k'. exfalso. apply Hnotin.
    apply in_map_iff. exists (k, v). auto.
Qed.

Lemma value_classes_disjoint config (l : list DormantCustomer) :
  (len (filter (is_high_value config) l) + len (filter (is_quick_win config) l)
   <= len l)%Z.
Proof.
  induction l as [|c l IH]; [unfold len; simpl; lia|].
  cbn [filter]. unfold is_quick_win at 1.
  destruct (is_high_value config c); cbn [negb andb];
    [|destruct (Qle_bool (total_6_month_value c) (quick_win_threshold config))];
    rewrite ?len_cons; lia.
Qed.

(** X13.  Each summary describes the dormant customers assigned to its
    representative, of which there is at least one: it counts them, adds
    up their window values, counts as high value those at or above the
    high-value threshold and as quick wins those below it that are at or
    below the quick-win threshold, so that no customer is counted in both
    classes, and averages their churn-risk scores. *)
Theorem summary_describes_its_customers
    (config : AnalyticsConfig) (ds : list DormantCustomer)
    (s : SalespersonSummary) :
  In s (_generate_salesperson_summaries config ds) ->
  let mine := customers_of (ss_salesperson s) ds in
  mine <> []
  /\ dormant_customer_count s = len mine
  /\ total_value_at_risk s == sum (map total_6_month_value mine)
  /\ high_value_dormant_count s = len (filter (is_high_value config) mine)
  /\ quick_win_count s = len (filter (is_quick_win config) mine)
  /\ (high_value_dormant_count s + quick_win_count s
      <= dormant_customer_count s)%Z
  /\ average_churn_risk s = mean (map churn_risk_score mine).
Proof.
  intros Hs mine.
  apply (Permutation_in _ (summaries_Permutation config ds)) in Hs.
  apply in_map_iff in Hs. destruct Hs as ([rep data] & <- & Hin).
  apply Dict_In_get in Hin;
    [|apply fold_add_customer_NoDup; constructor].
  pose proof (fold_add_customer_entries config ds rep) as Hinv.
  rewrite Hin in Hinv. destruct Hinv as (Hc & Hne & Ht & Hh & Hq & Hr).
  subst mine. cbn [summary_of ss_salesperson dormant_customer_count
    total_value_at_risk high_value_dormant_count quick_win_count
    average_churn_risk].
  rewrite <- Hc.
  pose proof (value_classes_disjoint config (customers data)) as Hdisjoint.
  repeat split; try assumption; try lia.
  rewrite Hr. destruct (customers data); [congruence|reflexivity].
Qed.

Lemma fold_left_Zadd (l : list Z) (a : Z) :
  fold_left Z.add l a = (a + fold_right Z.add 0 l)%Z.
Proof.
  revert a. induction l as [|x l IH]; intro a; simpl; [lia|].
  rewrite IH. lia.
Qed.

Lemma sum_int_cons (x : Z) (l : list Z) : sum_int (x :: l) = (x + sum_int l)%Z.
Proof. unfold sum_int. simpl. rewrite !fold_left_Zadd. lia. Qed.

Lemma sum_int_Permutation (l1 l2 : list Z) :
  Permutation l1 l2 -> sum_int l1 = sum_int l2.
Proof.
  induction 1 as [|x l l' _ IH|x y l|l l' l'' _ IH1 _ IH2].
  - reflexivity.
  - now rewrite !sum_int_cons, IH.
  - rewrite !sum_int_cons. lia.
  - now rewrite IH1.
Qed.

Lemma dict_count_set (d : Dict.t RepData) (k : string) (v : RepData) :
  sum_int (map (fun kv => len (customers (snd kv))) (Dict.set d k v))
  = (sum_int (map (fun kv => len (customers (snd kv))) d)
     - match Dict.get d k with Some e => len (customers e) | None => 0 end
     + len (customers v))%Z.
Proof.
  induction d as [|[k' v'] d IH]; simpl.
  - rewrite sum_int_cons. unfold sum_int. simpl. lia.
  - destruct (String.eqb k k'); simpl.
    + rewrite !sum_int_cons. simpl. lia.
    + rewrite !sum_int_cons, IH. simpl. lia.
Qed.

Lemma fold_add_customer_count config (ds : list DormantCustomer)
      (d : Dict.t RepData) :
  sum_int (map (fun kv => len (customers (snd kv)))
               (fold_left (add_customer config) ds d))
  = (sum_int (map (fun kv => len (customers (snd kv))) d) + len ds)%Z.
Proof.
  revert d. induction ds as [|c ds IH]; intro d; simpl.
  - unfold len. simpl. lia.
  - rewrite IH, len_cons. unfold add_customer at 1.
    rewrite dict_count_set. cbn [customers]. rewrite len_app.
    destruct (Dict.get d (salesperson c)); unfold len; simpl; lia.
Qed.

(** X14.  The summaries cover the dormant customers exactly: there is
    one summary for each representative that has a dormant customer and
    for no other, and their customer counts add up to the number of
    dormant customers. *)
Theorem summaries_cover_customers
    (config : AnalyticsConfig) (ds : list DormantCustomer) :
  let summaries := _generate_salesperson_summaries config ds in
  (forall rep, In rep (map ss_salesperson summaries)
               <-> In rep (map salesperson ds))
  /\ NoDup (map ss_salesperson summaries)
  /\ List.length summaries
     = List.length (nodup string_dec (map salesperson ds))
  /\ sum_int (map dormant_customer_count summaries) = len ds.
Proof.
  intro summaries. subst summaries.
  pose proof (summaries_Permutation config ds) as Hperm.
  pose proof (Permutation_map ss_salesperson Hperm) as Hkeys.
  rewrite summary_of_salesperson in Hkeys.
  assert (Hnd : NoDup (Dict.keys (fold_left (add_customer config) ds [])))
    by (apply fold_add_customer_NoDup; constructor).
  assert (Hin : forall rep,
             In rep (map ss_salesperson
                         (_generate_salesperson_summaries config ds))
             <-> In rep (map salesperson ds)).
  { intro rep. split; intro H.
    - apply (Permutation_in _ Hkeys) in H.
      apply (proj1 (fold_add_customer_keys config ds [] rep)) in H.
      destruct H as [[]|H]; exact H.
    - apply (Permutation_in _ (Permutation_sym Hkeys)).
      apply (proj2 (fold_add_customer_keys config ds [] rep)). now right. }
  assert (Hnd' : NoDup (map ss_salesperson
                            (_generate_salesperson_summaries config ds)))
    by (apply (Permutation_NoDup (Permutation_sym Hkeys)), Hnd).
  split; [exact Hin|]. split; [exact Hnd'|]. split.
  - rewrite <- (length_map ss_salesperson).
    apply Permutation_length, NoDup_Permutation;
      [exact Hnd'|apply NoDup_nodup|].
    intro rep. rewrite Hin, nodup_In. reflexivity.
  - rewrite (sum_int_Permutation _ _
               (Permutation_map dormant_customer_count Hperm)).
    rewrite map_map.
    replace (map (fun x => dormant_customer_count (summary_of x))
                 (fold_left (add_customer config) ds []))
      with (map (fun kv : string * RepData => len (customers (snd kv)))
                (fold_left (add_customer config) ds []))
      by (apply map_ext; now intros [rep data]).
    rewrite fold_add_customer_count. reflexivity.
Qed.

(** ** Preferred products *)

Lemma StronglySorted_app_inv {A} (R : A -> A -> Prop) (l1 l2 : list A) :
  StronglySorted R (l1 ++ l2) ->
  StronglySorted R l1 /\ (forall a b, In a l1 -> In b l2 -> R a b).
Proof.
  induction l1 as [|x l1 IH]; simpl; intro H.
  - split; [constructor|intros a b []].
  - inversion H as [|? ? Hs Hall]; subst. destruct (IH Hs) as (H1 & H2).
    rewrite Forall_forall in Hall. split.
    + constructor; [exact H1|]. rewrite Forall_forall. intros y Hy.
      apply Hall. apply in_or_app. now left.
    + intros a b [<-|Ha] Hb; [|now apply H2].
      apply Hall. apply in_or_app. now right.
Qed.

Lemma StronglySorted_map {A B} (R : A -> A -> Prop) (S : B -> B -> Prop)
      (f : A -> B) (l : list A) :
  (forall a b, In a l -> In b l -> R a b -> S (f a) (f b)) ->
  StronglySorted R l -> StronglySorted S (map f l).
Proof.
  intros H Hs. induction Hs as [|a l Hs IH Hall]; simpl; constructor.
  - apply IH. intros x y Hx Hy. apply H; now right.
  - rewrite Forall_forall in *. intros y Hy. apply in_map_iff in Hy.
    destruct Hy as (b & <- & Hb). apply H; [now left|now right|now apply Hall].
Qed.

(** The total of item A, 2^63, does not fit an int64: it wraps to the
    least int64, and A is listed last. *)
Example preferred_products_wrap_around :
  item_quantity huge_quantity_orders "A" = (- 2 ^ 63)%Z
  /\ product_prefs huge_quantity_orders = ["C"; "B"; "A"].
Proof. split; reflexivity. Qed.

(** X16.  The preferred products of a customer are at most three
    distinct items bought by the customer, listed by descending total
    quantity, the total being the one the int64 sum holds; an item
    bought by the customer that is not listed has no larger quantity
    than any listed one, and is left out only when three are listed. *)
Theorem preferred_products_are_top_three (customer_data : list Row) :
  let prefs := product_prefs customer_data in
  (List.length prefs <= 3)%nat
  /\ NoDup prefs
  /\ (forall item, In item prefs ->
                   exists r, In r customer_data /\ Item r = Some item)
  /\ StronglySorted
       (fun a b => (item_quantity customer_data b
                    <= item_quantity customer_data a)%Z)
       prefs
  /\ (forall item r, In r customer_data -> Item r = Some item ->
                     ~ In item prefs ->
                     List.length prefs = 3%nat
                     /\ forall p, In p prefs ->
                                  (item_quantity customer_data item
                                   <= item_quantity customer_data p)%Z).
Proof.
  unfold product_prefs.
  set (totals := map (fun g : string * list Row =>
                        (fst g, Series_sum_int64 (map Qty (snd g))))
                     (groupby String.eqb String.leb Item customer_data)).
  set (gt := fun a b : string * Z => (snd b <? snd a)%Z).
  set (L := sorted_desc gt totals).
  assert (Htotals : forall k q, In (k, q) totals <->
             (exists r, In r customer_data /\ Item r = Some k)
             /\ q = item_quantity customer_data k).
  { intros k q. unfold totals. rewrite in_map_iff. split.
    - intros ([k' g] & Heq & Hin). simpl in Heq. inversion Heq; subst k' q.
      apply (proj1 (groupby_In String.eqb String.leb String.eqb_eq _ _ _ _))
        in Hin.
      destruct Hin as (Hex & ->). split; [exact Hex|reflexivity].
    - intros (Hex & ->).
      exists (k, filter (fun r => option_eqb String.eqb (Item r) (Some k))
                        customer_data).
      split; [reflexivity|].
      apply (proj2 (groupby_In String.eqb String.leb String.eqb_eq _ _ _ _)).
      split; [exact Hex|reflexivity]. }
  assert (Hperm : Permutation L totals) by apply sorted_desc_Permutation.
  assert (HL : forall kq, In kq L ->
             (exists r, In r customer_data /\ Item r = Some (fst kq))
             /\ snd kq = item_quantity customer_data (fst kq)).
  { intros [k q] Hin. apply Htotals. now apply (Permutation_in _ Hperm). }
  assert (Hkeys : NoDup (map fst L)).
  { apply (Permutation_NoDup (Permutation_map fst (Permutation_sym Hperm))).
    unfold totals, groupby. rewrite !map_map. cbn [fst]. rewrite map_id.
    apply customers_NoDup. }
  assert (Hsorted : StronglySorted (fun a b => gt b a = false) L).
  { apply sorted_desc_StronglySorted.
    - intros a b. apply (Zgt_asym snd).
    - intros a b c. apply (Zge_trans snd). }
  rewrite <- (firstn_skipn 3 L) in Hsorted, Hkeys.
  apply StronglySorted_app_inv in Hsorted. destruct Hsorted as (Hs1 & Hs2).
  assert (Hfirst : forall kq, In kq (firstn 3 L) -> In kq L).
  { intros kq H. rewrite <- (firstn_skipn 3 L). apply in_or_app. now left. }
  cbv zeta. split; [rewrite length_map; apply firstn_le_length|].
  split.
  { rewrite map_app in Hkeys. now apply NoDup_app_remove_r in Hkeys. }
  split.
  { intros item Hin. apply in_map_iff in Hin.
    destruct Hin as ([k q] & <- & Hin). apply (HL _ (Hfirst _ Hin)). }
  split.
  { eapply StronglySorted_map; [|exact Hs1].
    intros a b Ha Hb Hab. unfold gt in Hab. apply Z.ltb_ge in Hab.
    destruct (HL _ (Hfirst _ Ha)) as (_ & <-).
    destruct (HL _ (Hfirst _ Hb)) as (_ & <-). exact Hab. }
  intros item r Hr Hitem Hout.
  assert (Hin : In (item, item_quantity customer_data item) L).
  { apply (Permutation_in _ (Permutation_sym Hperm)). apply Htotals.
    split; [eauto|reflexivity]. }
  rewrite <- (firstn_skipn 3 L) in Hin. apply in_app_or in Hin.
  destruct Hin as [Hin|Hin].
  { exfalso. apply Hout. apply in_map_iff. now exists (item, item_quantity customer_data item). }
  split.
  - rewrite length_map, length_firstn.
    assert (3 < List.length L)%nat; [|lia].
    destruct (Nat.le_gt_cases (List.length L) 3) as [Hle|Hgt]; [|exact Hgt].
    rewrite (skipn_all2 L) in Hin by exact Hle. destruct Hin.
  - intros p Hp. apply in_map_iff in Hp. destruct Hp as ([k q] & <- & Hk).
    specialize (Hs2 _ _ Hk Hin). unfold gt in Hs2. apply Z.ltb_ge in Hs2.
    cbn [fst snd] in *.
    destruct (HL _ (Hfirst _ Hk)) as (_ & Hq). cbn [fst snd] in Hq.
    now rewrite <- Hq.
Qed.

(** ** Insights *)

Lemma Dict_set_not_nil {V} (d : Dict.t V) (k : string) (v : V) :
  Dict.set d k v <> [].
Proof.
  destruct d as [|[k' v'] d]; simpl; [discriminate|].
  destruct (String.eqb k k'); discriminate.
Qed.

Lemma count_patterns_nil (l : list DormantCustomer) :
  count_patterns l = [] -> Forall (fun c => seasonal_pattern c = None) l.
Proof.
  unfold count_patterns.
  assert (H : forall d,
             fold_left
               (fun patterns c =>
                  match seasonal_pattern c with
                  | Some pattern =>
                      Dict.set patterns pattern
                        (match Dict.get patterns pattern with
                         | Some n => n | None => 0 end + 1)%Z
                  | None => patterns
                  end) l d = [] ->
             d = [] /\ Forall (fun c => seasonal_pattern c = None) l).
  { induction l as [|c l IH]; intros d Hd; simpl in Hd; [auto|].
    destruct (IH _ Hd) as (Hnil & Hall).
    destruct (seasonal_pattern c) eqn:E.
    - now apply Dict_set_not_nil in Hnil.
    - split; [exact Hnil|]. now constructor. }
  intro Hnil. now destruct (H [] Hnil).
Qed.

(** X17.  With at least one dormant customer and one summary, the
    insights hold no error entry; they name the first summary as the top
    priority representative and, as the top priority customer, a dormant
    customer whose window value no other exceeds; a quick-wins entry
    appears exactly when some summary counts a quick win, and names a
    summary with the most; a seasonal entry appears exactly when some
    customer has a seasonal label. *)
Theorem insights_content
    (c0 : DormantCustomer) (cs : list DormantCustomer)
    (top : SalespersonSummary) (rest : list SalespersonSummary) :
  let ds := c0 :: cs in
  let summaries := top :: rest in
  let found := _generate_insights ds summaries in
  Dict.get found "error" = None
  /\ Dict.get found "top_priority_rep"
     = Some (TopPriorityRep (ss_salesperson top) (total_value_at_risk top)
                            (dormant_customer_count top)
                            (average_churn_risk top))
  /\ (exists c,
        In c ds
        /\ (forall y, In y ds -> total_6_month_value y <= total_6_month_value c)
        /\ Dict.get found "top_priority_customer"
           = Some (TopPriorityCustomer (customer c) (total_6_month_value c)
                                       (salesperson c) (churn_risk_score c)))
  /\ ((exists s, In s summaries /\ (0 < quick_win_count s)%Z)
      <-> Dict.get found "quick_wins" <> None)
  /\ (forall text, Dict.get found "quick_wins" = Some text ->
        exists s, In s summaries
                  /\ text = QuickWins (ss_salesperson s) (quick_win_count s)
                  /\ forall s', In s' summaries ->
                                 (quick_win_count s' <= quick_win_count s)%Z)
  /\ ((exists c, In c ds /\ truthy (seasonal_pattern c) = true)
      <-> Dict.get found "seasonal_insight" <> None).
Proof.
  intros ds summaries found. subst found. unfold _generate_insights.
  cbv zeta. subst ds summaries.
  set (topc := max_by (fun y best => Qltb (total_6_month_value best)
                                          (total_6_month_value y)) c0 cs).
  destruct (max_by_spec
              (fun y best => Qltb (total_6_month_value best)
                                  (total_6_month_value y))
              (Qgt_asym total_6_month_value)
              (fun a b c => Qge_trans total_6_month_value a b c) c0 cs)
    as (Htop_in & Htop_max).
  fold topc in Htop_in, Htop_max.
  set (quick := filter (fun s => (0 <? quick_win_count s)%Z) (top :: rest)).
  assert (Hquick : forall s, In s quick <->
                             In s (top :: rest) /\ (0 < quick_win_count s)%Z).
  { intro s. unfold quick. rewrite filter_In, Z.ltb_lt. reflexivity. }
  set (seasonal := filter (fun c => truthy (seasonal_pattern c)) (c0 :: cs)).
  assert (Hseasonal : forall c, In c seasonal <->
                        In c (c0 :: cs) /\ truthy (seasonal_pattern c) = true).
  { intro c. unfold seasonal. now rewrite filter_In. }
  assert (Hpatterns : Dict.items (count_patterns seasonal) = [] <->
                      seasonal = []).
  { split.
    - intro H. apply count_patterns_nil in H.
      destruct seasonal as [|c l] eqn:E; [reflexivity|].
      assert (Hc : In c (c :: l)) by now left.
      apply Hseasonal in Hc. destruct Hc as (_ & Ht).
      inversion H as [|? ? Hnone _]; subst. rewrite Hnone in Ht. discriminate.
    - intros ->. reflexivity. }
  destruct quick as [|q0 qs] eqn:Eq;
    destruct (Dict.items (count_patterns seasonal)) as [|p0 ps] eqn:Ep;
    cbn [Dict.set Dict.get String.eqb Ascii.eqb Bool.eqb];
    (split; [reflexivity|]); (split; [reflexivity|]);
    (split; [exists topc; split; [exact Htop_in|];
             split; [intros y Hy; now apply Qltb_false, Htop_max|reflexivity]|]).
  - split; [|split].
    + split; [intros (s & Hs); apply Hquick in Hs; destruct Hs|congruence].
    + discriminate.
    + split; [|congruence]. intros (c & Hc). apply Hseasonal in Hc.
      rewrite (proj1 Hpatterns eq_refl) in Hc. destruct Hc.
  - split; [|split].
    + split; [intros (s & Hs); apply Hquick in Hs; destruct Hs|congruence].
    + discriminate.
    + split; [discriminate|]. intros _.
      destruct seasonal as [|c l] eqn:E;
        [pose proof (proj2 Hpatterns eq_refl) as Hbad; discriminate Hbad|].
      exists c. apply Hseasonal. now left.
  - destruct (max_by_spec
                (fun y best => (quick_win_count best <? quick_win_count y)%Z)
                (Zgt_asym quick_win_count)
                (fun a b c => Zge_trans quick_win_count a b c) q0 qs)
      as (Hb_in & Hb_max).
    set (best := max_by _ q0 qs) in *.
    split; [|split].
    + split; [discriminate|]. intros _. exists q0. apply Hquick. now left.
    + intros text H. inversion H; subst text. exists best.
      apply (proj1 (Hquick best)) in Hb_in. destruct Hb_in as (Hb_in & Hb_pos).
      split; [exact Hb_in|]. split; [reflexivity|].
      intros s' Hs'.
      destruct (Z.le_gt_cases (quick_win_count s') 0) as [Hle|Hgt]; [lia|].
      apply Z.ltb_ge, Hb_max, Hquick. split; [exact Hs'|lia].
    + split; [|congruence]. intros (c & Hc). apply Hseasonal in Hc.
      rewrite (proj1 Hpatterns eq_refl) in Hc. destruct Hc.
  - destruct (max_by_spec
                (fun y best => (quick_win_count best <? quick_win_count y)%Z)
                (Zgt_asym quick_win_count)
                (fun a b c => Zge_trans quick_win_count a b c) q0 qs)
      as (Hb_in & Hb_max).
    set (best := max_by _ q0 qs) in *.
    split; [|split].
    + split; [discriminate|]. intros _. exists q0. apply Hquick. now left.
    + intros text H. inversion H; subst text. exists best.
      apply (proj1 (Hquick best)) in Hb_in. destruct Hb_in as (Hb_in & Hb_pos).
      split; [exact Hb_in|]. split; [reflexivity|].
      intros s' Hs'.
      destruct (Z.le_gt_cases (quick_win_count s') 0) as [Hle|Hgt]; [lia|].
      apply Z.ltb_ge, Hb_max, Hquick. split; [exact Hs'|lia].
    + split; [discriminate|]. intros _.
      destruct seasonal as [|c l] eqn:E;
        [pose proof (proj2 Hpatterns eq_refl) as Hbad; discriminate Hbad|].
      exists c. apply Hseasonal. now left.
Qed.

(** ** The counts of a report *)

Lemma validate_counts (df : list RawRow) :
  let clean := fst (DataValidator.validate_sales_data df) in
  let report := snd (DataValidator.validate_sales_data df) in
  valid_records report = len clean
  /\ total_records report = len df
  /\ (0 <= invalid_dates report)%Z
  /\ (invalid_dates report + valid_records report <= total_records report)%Z.
Proof.
  unfold DataValidator.validate_sales_data.
  cbn [fst snd valid_records total_records invalid_dates].
  set (filled := map fillna_Net_price (map coerce_row df)).
  assert (Hlen : len filled = len df)
    by (unfold filled, len; now rewrite !length_map).
  pose proof (dropna_length filled) as Hdrop.
  pose proof (isna_sum_bounds (map c_Posted_date filled)) as Hna.
  pose proof (len_nonneg
                (filter (fun r => negb (isna (c_Posted_date r))
                                  && isna (c_Customer r)) filled)) as Hcust.
  repeat split; lia.
Qed.

(** ** Ratios and clamps *)

Lemma clamp_id (x : Q) : 0 <= x <= 1 -> min_ (max_ x 0) 1 == x.
Proof.
  intros (H0 & H1). unfold min_, max_.
  destruct (Qltb x 0) eqn:E0; [apply Qltb_true in E0; lra|].
  destruct (Qltb 1 x) eqn:E1; [apply Qltb_true in E1; lra|]. reflexivity.
Qed.

Lemma unit_ratio (a b : Z) :
  (0 <= a <= b)%Z -> (0 < b)%Z -> 0 <= inject_Z a / inject_Z b <= 1.
Proof.
  intros Hab Hb.
  assert (Hpos : 0 < inject_Z b)
    by (change 0 with (inject_Z 0); now rewrite <- Zlt_Qlt).
  split.
  - apply Qle_shift_div_l; [exact Hpos|]. rewrite Qmult_0_l.
    change 0 with (inject_Z 0). rewrite <- Zle_Qle. lia.
  - apply Qle_shift_div_r; [exact Hpos|]. rewrite Qmult_1_l.
    rewrite <- Zle_Qle. lia.
Qed.

Lemma max_nonneg (x : Q) : 0 <= max_ x 0.
Proof.
  unfold max_. destruct (Qltb x 0) eqn:E; [lra|].
  now apply Qltb_false in E.
Qed.

Lemma clamp_above (x y : Q) :
  y <= 1 -> 0 <= y -> y <= x -> y <= min_ (max_ x 0) 1.
Proof.
  intros H1 H0 Hx. unfold min_, max_.
  destruct (Qltb x 0) eqn:E0; rewrite ?Qltb_true, ?Qltb_false in *.
  - replace (Qltb 1 0) with false by reflexivity. lra.
  - destruct (Qltb 1 x) eqn:E1; lra.
Qed.

Lemma churn_risk_score_nan
      (customer_data : list Row) (config : AnalyticsConfig) (last : Timestamp) :
  Series_max (map Posted_date customer_data) = Some last ->
  analysis_period_months config <> 0%Z ->
  AdvancedAnalytics._calculate_value_trend customer_data = NaN ->
  AdvancedAnalytics.calculate_churn_risk_score customer_data config = Ok NaN.
Proof.
  intros Hlast Hmonths Hnan.
  unfold AdvancedAnalytics.calculate_churn_risk_score, int_truediv.
  rewrite Hlast, Hnan.
  destruct (analysis_period_months config * 30 =? 0)%Z eqn:E;
    [apply Z.eqb_eq in E; lia|].
  cbn [bind]. rewrite py_min_Fin, !py_max_Fin. reflexivity.
Qed.

(** ** Helpers on summaries *)

Lemma summaries_count_sum config (ds : list DormantCustomer) :
  sum_int (map dormant_customer_count
               (_generate_salesperson_summaries config ds)) = len ds.
Proof.
  rewrite (sum_int_Permutation _ _
             (Permutation_map dormant_customer_count
                (summaries_Permutation config ds))).
  rewrite map_map.
  replace (map (fun x => dormant_customer_count (summary_of x))
               (fold_left (add_customer config) ds []))
    with (map (fun kv : string * RepData => len (customers (snd kv)))
              (fold_left (add_customer config) ds []))
    by (apply map_ext; now intros [rep data]).
  now rewrite fold_add_customer_count.
Qed.

Lemma summaries_value_sum config (ds : list DormantCustomer) :
  sum (map total_value_at_risk (_generate_salesperson_summaries config ds))
  == sum (map total_6_month_value ds).
Proof.
  rewrite (sum_Permutation _ _
             (Permutation_map total_value_at_risk
                (summaries_Permutation config ds))).
  rewrite summary_of_total.
  pose proof (fold_add_customer_total config ds []) as H.
  unfold dict_total in H. rewrite H. change (sum (map _ [])) with 0. lra.
Qed.

Lemma summaries_keys config (ds : list DormantCustomer) (rep : string) :
  In rep (map ss_salesperson (_generate_salesperson_summaries config ds))
  <-> In rep (map salesperson ds).
Proof.
  pose proof (Permutation_map ss_salesperson (summaries_Permutation config ds))
    as Hkeys.
  rewrite summary_of_salesperson in Hkeys.
  split; intro H.
  - apply (Permutation_in _ Hkeys) in H.
    apply (proj1 (fold_add_customer_keys config ds [] rep)) in H.
    destruct H as [[]|H]; exact H.
  - apply (Permutation_in _ (Permutation_sym Hkeys)).
    apply (proj2 (fold_add_customer_keys config ds [] rep)). now right.
Qed.

Lemma summaries_keys_NoDup config (ds : list DormantCustomer) :
  NoDup (map ss_salesperson (_generate_salesperson_summaries config ds)).
Proof.
  pose proof (Permutation_map ss_salesperson (summaries_Permutation config ds))
    as Hkeys.
  rewrite summary_of_salesperson in Hkeys.
  apply (Permutation_NoDup (Permutation_sym Hkeys)).
  apply fold_add_customer_NoDup. constructor.
Qed.

Lemma summary_count_of config (ds : list DormantCustomer)
      (s : SalespersonSummary) :
  In s (_generate_salesperson_summaries config ds) ->
  dormant_customer_count s = len (customers_of (ss_salesperson s) ds).
Proof.
  intro Hs.
  apply (Permutation_in _ (summaries_Permutation config ds)) in Hs.
  apply in_map_iff in Hs. destruct Hs as ([rep data] & <- & Hin).
  apply Dict_In_get in Hin; [|apply fold_add_customer_NoDup; constructor].
  pose proof (fold_add_customer_entries config ds rep) as Hinv.
  rewrite Hin in Hinv. destruct Hinv as (Hc & _).
  cbn [summary_of ss_salesperson dormant_customer_count]. now rewrite Hc.
Qed.

Lemma summaries_StronglySorted config (ds : list DormantCustomer) :
  StronglySorted
    (fun a b => total_value_at_risk b <= total_value_at_risk a)
    (_generate_salesperson_summaries config ds).
Proof.
  unfold _generate_salesperson_summaries.
  eapply StronglySorted_impl;
    [|apply (sorted_desc_StronglySorted
               (fun a b => Qltb (total_value_at_risk b) (total_value_at_risk a))
               (Qgt_asym total_value_at_risk)
               (fun a b c => Qge_trans total_value_at_risk a b c))].
  intros a b H. now apply Qltb_false.
Qed.

(** ** The endpoints *)

Lemma rep_performance_fields (summaries : list SalespersonSummary)
      (perf : RepPerformance) :
  Api._generate_rep_performance_insights summaries = Some perf ->
  rp_total_value_at_risk perf = sum (map total_value_at_risk summaries)
  /\ average_dormant_customers_per_rep perf
     = inject_Z (sum_int (map dormant_customer_count summaries))
       / inject_Z (len summaries)
  /\ (exists first rest, summaries = first :: rest
                         /\ top_performer perf = ss_salesperson first)
  /\ needs_attention perf
     = firstn 3 (map ss_salesperson
                     (filter (fun s => Qltb 0.7 (average_churn_risk s))
                             summaries)).
Proof.
  destruct summaries as [|first rest]; [discriminate|].
  intros [= <-]. repeat split. now exists first, rest.
Qed.

Lemma filter_map_NoDup {A B} (key : A -> B) (keep : A -> bool)
      (rows : list A) :
  NoDup (map key rows) -> NoDup (map key (filter keep rows)).
Proof.
  induction rows as [|s rows IH]; [constructor|].
  cbn [map]. intro Hnd. inversion Hnd as [|? ? Hnotin Hnd']; subst.
  cbn [filter]. destruct (keep s).
  - cbn [map]. constructor; [|now apply IH].
    intro Hin. apply Hnotin. apply in_map_iff in Hin.
    destruct Hin as (x & Hx & Hin). apply filter_In in Hin.
    apply in_map_iff. exists x. tauto.
  - now apply IH.
Qed.

(** X21.  The performance insights over the summaries of a list of
    dormant customers are empty exactly when there is no dormant
    customer.  Otherwise their value at risk is the total window value
    of the dormant customers, the average number of customers per
    representative times the number of representatives is the number of
    dormant customers, the representative named first has the largest
    value at risk, and the representatives needing attention are at
    most three distinct ones whose average churn risk exceeds 0.7. *)
Theorem rep_performance_of_summaries
    (config : AnalyticsConfig) (ds : list DormantCustomer) :
  let summaries := _generate_salesperson_summaries config ds in
  (Api._generate_rep_performance_insights summaries = None <-> ds = [])
  /\ forall perf,
       Api._generate_rep_performance_insights summaries = Some perf ->
       rp_total_value_at_risk perf == sum (map total_6_month_value ds)
       /\ average_dormant_customers_per_rep perf * inject_Z (len summaries)
          == inject_Z (len ds)
       /\ (exists s, In s summaries
                     /\ top_performer perf = ss_salesperson s
                     /\ forall s', In s' summaries ->
                                    total_value_at_risk s'
                                    <= total_value_at_risk s)
       /\ (List.length (needs_attention perf) <= 3)%nat
       /\ NoDup (needs_attention perf)
       /\ forall rep, In rep (needs_attention perf) ->
                      exists s, In s summaries /\ ss_salesperson s = rep
                                /\ 0.7 < average_churn_risk s.
Proof.
  intro summaries.
  pose proof (summaries_keys config ds) as Hkeys.
  pose proof (summaries_keys_NoDup config ds) as Hnd.
  pose proof (summaries_count_sum config ds) as Hcount.
  pose proof (summaries_value_sum config ds) as Hvalue.
  pose proof (summaries_StronglySorted config ds) as Hsorted.
  fold summaries in Hkeys, Hnd, Hcount, Hvalue, Hsorted.
  split.
  - destruct summaries as [|first rest] eqn:E.
    + split; [intros _|reflexivity].
      destruct ds as [|c ds']; [reflexivity|].
      exfalso. apply (proj2 (Hkeys (salesperson c))). now left.
    + split; [discriminate|]. intros ->.
      exfalso. apply (proj1 (Hkeys (ss_salesperson first))). now left.
  - intros perf Hperf.
    destruct (rep_performance_fields _ _ Hperf)
      as (Htotal & Havg & (first & rest & E & Htop) & Hneeds).
    rewrite Htotal, Havg, Hneeds, Hcount. clear Htotal Havg Hneeds.
    split; [exact Hvalue|]. split.
    { field. rewrite E, len_cons. pose proof (len_nonneg rest) as Hr.
      intro Hz.
      assert (Hpos : 0 < inject_Z (len rest + 1))
        by (change 0 with (inject_Z 0); rewrite <- Zlt_Qlt; lia).
      rewrite Hz in Hpos. exact (Qlt_irrefl _ Hpos). }
    split.
    { exists first. rewrite E in Hsorted |- *.
      split; [now left|]. split; [exact Htop|].
      inversion Hsorted as [|? ? _ Hall]; subst.
      rewrite Forall_forall in Hall.
      intros s' [<-|Hs']; [lra|now apply Hall]. }
    split; [apply firstn_le_length|]. split.
    { pose proof (filter_map_NoDup ss_salesperson
                    (fun s => Qltb 0.7 (average_churn_risk s)) _ Hnd) as Hf.
      rewrite <- (firstn_skipn 3 (map ss_salesperson _)) in Hf.
      now apply NoDup_app_remove_r in Hf. }
    intros rep Hrep.
    assert (Hin : In rep (map ss_salesperson
                            (filter (fun s => Qltb 0.7 (average_churn_risk s))
                                    summaries))).
    { rewrite <- (firstn_skipn 3 (map ss_salesperson _)).
      apply in_or_app. now left. }
    apply in_map_iff in Hin. destruct Hin as (s & Hs & Hin).
    apply filter_In in Hin. destruct Hin as (Hin & Hrisk).
    exists s. split; [exact Hin|]. split; [exact Hs|].
    now apply Qltb_true.
Qed.

Lemma identify_seasonal_patterns_label (customer_data : list Row)
      (label : string) :
  AdvancedAnalytics.identify_seasonal_patterns customer_data = Some label ->
  In label season_labels.
Proof.
  unfold AdvancedAnalytics.identify_seasonal_patterns.
  destruct (len customer_data <? 6)%Z; [discriminate|].
  set (key := fun r : Row => Some (Timestamp_month (Posted_date r))).
  set (groups := groupby Z.eqb Z.leb key customer_data).
  destruct (idxmax (map (fun g => (fst g, len (snd g))) groups))
    as [peak|] eqn:Epeak; [|discriminate].
  intros [= <-].
  apply idxmax_spec in Epeak. destruct Epeak as (n & Hin & _).
  apply in_map_iff in Hin. destruct Hin as ([k g] & Heq & Hg).
  simpl in Heq. inversion Heq; subst k n; clear Heq.
  apply (proj1 (groupby_In Z.eqb Z.leb Z.eqb_eq key customer_data peak g)) in Hg.
  destruct Hg as ((r & _ & Hk) & _). unfold key in Hk.
  apply season_of_month. inversion Hk. apply Timestamp_month_range.
Qed.

Lemma product_prefs_length (customer_data : list Row) :
  (List.length (product_prefs customer_data) <= 3)%nat.
Proof.
  unfold product_prefs. rewrite length_map. apply firstn_le_length.
Qed.

Lemma recommendations_parts (c : DormantCustomer) :
  Api._generate_customer_recommendations c
  = ((if Qltb 0.7 (churn_risk_score c)
      then ["HIGH PRIORITY: Immediate outreach recommended due to high churn risk"%string]
      else [])
     ++ (match preferred_products c with
         | [] => []
         | _ => [("Mention these products they previously enjoyed: "
                  ++ String.concat ", " (firstn 3 (preferred_products c)))%string]
         end)
     ++ (match seasonal_pattern c with
         | Some pattern =>
             if truthy (Some pattern)
                && negb (String.eqb pattern "No clear pattern")
             then [timing_line pattern]
             else []
         | None => []
         end)
     ++ (if Qltb 1000 (total_6_month_value c)
         then ["High-value customer - consider special offers or personal visit"%string]
         else []))%list.
Proof.
  unfold Api._generate_customer_recommendations, timing_line.
  destruct (Qltb 0.7 (churn_risk_score c));
    destruct (preferred_products c);
    destruct (seasonal_pattern c) as [pattern|];
    try destruct (truthy (Some pattern)
                  && negb (String.eqb pattern "No clear pattern"));
    destruct (Qltb 1000 (total_6_month_value c)); reflexivity.
Qed.

(** ** The workbook *)

Lemma length_list_ascii (s : string) :
  String.length s = List.length (list_ascii_of_string s).
Proof. induction s as [|c s IH]; simpl; congruence. Qed.

Lemma list_ascii_substring (n : nat) (s : string) :
  list_ascii_of_string (substring 0 n s) = firstn n (list_ascii_of_string s).
Proof.
  revert s. induction n as [|n IH]; intros [|c s]; simpl; try reflexivity.
  now rewrite IH.
Qed.

Lemma list_ascii_replace_char (old new : ascii) (s : string) :
  list_ascii_of_string (ExcelReportGenerator.replace_char old new s)
  = map (fun c => if Ascii.eqb c old then new else c) (list_ascii_of_string s).
Proof. induction s as [|c s IH]; simpl; [reflexivity|now rewrite IH]. Qed.

Lemma list_ascii_replace_all (bads : list ascii) (name : string) :
  list_ascii_of_string
    (fold_left (fun name char => ExcelReportGenerator.replace_char char "_" name)
               bads name)
  = map (fun c => fold_left (fun c bad => if Ascii.eqb c bad then "_"%char else c)
                            bads c)
        (list_ascii_of_string name).
Proof.
  revert name. induction bads as [|b bads IH]; intro name; cbn [fold_left].
  - now rewrite map_id.
  - rewrite IH, list_ascii_replace_char, map_map. reflexivity.
Qed.

Lemma list_ascii_clean_sheet_name (name : string) :
  list_ascii_of_string (ExcelReportGenerator._clean_sheet_name name)
  = firstn 31 (map sheet_char (list_ascii_of_string name)).
Proof.
  unfold ExcelReportGenerator._clean_sheet_name.
  rewrite list_ascii_substring, list_ascii_replace_all. reflexivity.
Qed.

Lemma list_ascii_inj (s t : string) :
  list_ascii_of_string s = list_ascii_of_string t -> s = t.
Proof.
  intro H. rewrite <- (string_of_list_ascii_of_string s),
             <- (string_of_list_ascii_of_string t). now rewrite H.
Qed.

Lemma sheet_char_valid (c : ascii) :
  existsb (Ascii.eqb (sheet_char c)) ExcelReportGenerator.invalid_chars = false.
Proof. destruct c as [[] [] [] [] [] [] [] []]; reflexivity. Qed.

Lemma sheet_char_idempotent (c : ascii) :
  sheet_char (sheet_char c) = sheet_char c.
Proof. destruct c as [[] [] [] [] [] [] [] []]; reflexivity. Qed.

Lemma sheet_char_keeps (c : ascii) :
  existsb (Ascii.eqb c) ExcelReportGenerator.invalid_chars = false ->
  sheet_char c = c.
Proof.
  destruct c as [[] [] [] [] [] [] [] []]; intro H;
    solve [reflexivity | discriminate H].
Qed.

Lemma In_firstn {A} (n : nat) (l : list A) (x : A) :
  In x (firstn n l) -> In x l.
Proof.
  intro H. rewrite <- (firstn_skipn n l). apply in_or_app. now left.
Qed.

(** X24.  For a name of ASCII characters, the cleaned sheet name has as
    many characters as the name, up to 31, and none of the square
    brackets, star, question mark, colon, slash and backslash; cleaning
    a cleaned name changes nothing, and a name of at most 31 characters
    without those characters is kept as it is. *)
Theorem clean_sheet_name_valid (name : string) :
  let cleaned := ExcelReportGenerator._clean_sheet_name name in
  String.length cleaned = Nat.min 31 (String.length name)
  /\ (forall c, In c ExcelReportGenerator.invalid_chars ->
                ~ In c (list_ascii_of_string cleaned))
  /\ ExcelReportGenerator._clean_sheet_name cleaned = cleaned
  /\ ((String.length name <= 31)%nat ->
      (forall c, In c ExcelReportGenerator.invalid_chars ->
                 ~ In c (list_ascii_of_string name)) ->
      cleaned = name).
Proof.
  intro cleaned.
  pose proof (list_ascii_clean_sheet_name name) as Hchars.
  fold cleaned in Hchars.
  split; [|split; [|split]].
  - rewrite !length_list_ascii, Hchars, length_firstn, length_map.
    reflexivity.
  - intros c Hbad Hin. rewrite Hchars in Hin. apply In_firstn in Hin.
    apply in_map_iff in Hin. destruct Hin as (x & <- & _).
    pose proof (sheet_char_valid x) as Hvalid.
    assert (Hex : existsb (Ascii.eqb (sheet_char x))
                          ExcelReportGenerator.invalid_chars = true).
    { apply existsb_exists. exists (sheet_char x).
      split; [exact Hbad|apply Ascii.eqb_refl]. }
    congruence.
  - apply list_ascii_inj.
    rewrite list_ascii_clean_sheet_name, Hchars.
    rewrite <- firstn_map, map_map, firstn_firstn.
    rewrite (map_ext _ _ sheet_char_idempotent). reflexivity.
  - intros Hlen Hgood. apply list_ascii_inj. rewrite Hchars.
    rewrite firstn_all2 by (rewrite length_map, <- length_list_ascii; exact Hlen).
    rewrite <- (map_id (list_ascii_of_string name)) at 2.
    apply map_ext_in. intros c Hc. apply sheet_char_keeps.
    destruct (existsb (Ascii.eqb c) ExcelReportGenerator.invalid_chars) eqn:E;
      [|reflexivity].
    apply existsb_exists in E. destruct E as (bad & Hbad & Heq).
    apply Ascii.eqb_eq in Heq. subst bad. exfalso. exact (Hgood c Hbad Hc).
Qed.

Lemma risk_bucket_of (x : Q) :
  let high := Qltb 0.7 x in
  let medium := Qle_bool 0.4 x && Qle_bool x 0.7 in
  let low := Qltb x 0.4 in
  (high = true /\ medium = false /\ low = false)
  \/ (high = false /\ medium = true /\ low = false)
  \/ (high = false /\ medium = false /\ low = true).
Proof.
  cbv zeta.
  destruct (Qlt_le_dec 0.7 x) as [Hhigh|Hhigh];
    [|destruct (Qlt_le_dec x 0.4) as [Hlow|Hlow]].
  - left. split; [now apply Qltb_true|]. split.
    + apply andb_false_iff. right.
      destruct (Qle_bool x 0.7) eqn:E; [|reflexivity].
      apply Qle_bool_iff in E. lra.
    + apply Qltb_false. lra.
  - right. right. split; [now apply Qltb_false|]. split.
    + apply andb_false_iff. left.
      destruct (Qle_bool 0.4 x) eqn:E; [|reflexivity].
      apply Qle_bool_iff in E. lra.
    + now apply Qltb_true.
  - right. left. split; [now apply Qltb_false|]. split.
    + apply andb_true_iff. split; now apply Qle_bool_iff.
    + now apply Qltb_false.
Qed.

(** X25.  The three counts of the churn-risk distribution of the
    dashboard count every dormant customer exactly once: high, medium
    and low risk add up to the number of dormant customers. *)
Theorem risk_buckets_partition (ds : list DormantCustomer) :
  (ExcelReportGenerator.high_risk ds + ExcelReportGenerator.medium_risk ds
   + ExcelReportGenerator.low_risk ds = len ds)%Z.
Proof.
  unfold ExcelReportGenerator.high_risk, ExcelReportGenerator.medium_risk,
    ExcelReportGenerator.low_risk.
  induction ds as [|c ds IH]; [reflexivity|].
  cbn [filter].
  destruct (risk_bucket_of (churn_risk_score c))
    as [(-> & -> & ->)|[(-> & -> & ->)|(-> & -> & ->)]];
    rewrite !len_cons; lia.
Qed.

Lemma rep_customers_get (ds : list DormantCustomer) (rep : string) :
  Dict.get (ExcelReportGenerator.rep_customers ds) rep
  = match customers_of rep ds with
    | [] => None
    | customers => Some customers
    end.
Proof.
  unfold ExcelReportGenerator.rep_customers.
  induction ds as [|c ds IH] using rev_ind; [reflexivity|].
  rewrite fold_left_app. cbn [fold_left]. cbv zeta.
  rewrite customers_of_snoc.
  destruct (String.eqb (salesperson c) rep) eqn:E.
  - apply String.eqb_eq in E. subst rep.
    rewrite DictFacts.get_set_same, IH.
    destruct (customers_of (salesperson c) ds); reflexivity.
  - apply String.eqb_neq in E.
    rewrite DictFacts.get_set_other by congruence.
    rewrite IH, app_nil_r. reflexivity.
Qed.

Lemma rep_customers_NoDup (ds : list DormantCustomer) :
  NoDup (Dict.keys (ExcelReportGenerator.rep_customers ds)).
Proof.
  unfold ExcelReportGenerator.rep_customers.
  induction ds as [|c ds IH] using rev_ind; [constructor|].
  rewrite fold_left_app. cbn [fold_left]. cbv zeta.
  now apply DictFacts.keys_set_NoDup.
Qed.

Lemma customers_of_not_nil (rep : string) (ds : list DormantCustomer) :
  customers_of rep ds <> [] <-> In rep (map salesperson ds).
Proof.
  unfold customers_of. split.
  - intro Hne.
    destruct (filter (fun c => String.eqb (salesperson c) rep) ds)
      as [|c l] eqn:E; [congruence|].
    assert (Hin : In c (filter (fun c => String.eqb (salesperson c) rep) ds))
      by (rewrite E; now left).
    apply filter_In in Hin. destruct Hin as (Hin & Heq).
    apply String.eqb_eq in Heq. subst rep. now apply in_map.
  - intros Hin Hnil. apply in_map_iff in Hin. destruct Hin as (c & <- & Hin).
    assert (Hc : In c (filter (fun c0 => String.eqb (salesperson c0)
                                                    (salesperson c)) ds))
      by (apply filter_In; split; [exact Hin|apply String.eqb_refl]).
    rewrite Hnil in Hc. destruct Hc.
Qed.

(** X26.  The grouping behind the representative sheets has one entry
    per representative of a summary.  The entry of a representative
    holds that representative's dormant customers, at least one; the
    summary looked up for the sheet exists, is the representative's, and
    counts the customers of the sheet; the rows of the sheet are these
    customers by descending churn risk. *)
Theorem rep_sheets_match_summaries
    (config : AnalyticsConfig) (ds : list DormantCustomer) :
  let sheets := ExcelReportGenerator.rep_customers ds in
  let summaries := _generate_salesperson_summaries config ds in
  NoDup (Dict.keys sheets)
  /\ (forall rep, In rep (Dict.keys sheets)
                  <-> In rep (map ss_salesperson summaries))
  /\ forall rep customers, In (rep, customers) sheets ->
       customers = customers_of rep ds
       /\ customers <> []
       /\ (exists s, ExcelReportGenerator.summary_for summaries rep = Some s
                     /\ In s summaries
                     /\ ss_salesperson s = rep
                     /\ dormant_customer_count s = len customers)
       /\ Permutation (ExcelReportGenerator.sheet_rows customers) customers
       /\ StronglySorted
            (fun a b => churn_risk_score b <= churn_risk_score a)
            (ExcelReportGenerator.sheet_rows customers).
Proof.
  intros sheets summaries.
  pose proof (rep_customers_NoDup ds) as Hnd. fold sheets in Hnd.
  assert (Hkeys : forall rep, In rep (Dict.keys sheets)
                              <-> In rep (map ss_salesperson summaries)).
  { intro rep. unfold summaries. rewrite summaries_keys.
    rewrite <- customers_of_not_nil, DictFacts.get_In_keys.
    unfold sheets. rewrite rep_customers_get.
    destruct (customers_of rep ds); split; congruence. }
  split; [exact Hnd|]. split; [exact Hkeys|].
  intros rep customers Hin.
  assert (Hrep : In rep (Dict.keys sheets)).
  { unfold Dict.keys. apply in_map_iff. now exists (rep, customers). }
  apply Dict_In_get in Hin; [|exact Hnd].
  unfold sheets in Hin. rewrite rep_customers_get in Hin.
  assert (Hcustomers : customers = customers_of rep ds /\ customers <> []).
  { destruct (customers_of rep ds); [discriminate|].
    inversion Hin. split; [reflexivity|discriminate]. }
  destruct Hcustomers as (Hcustomers & Hne).
  split; [exact Hcustomers|]. split; [exact Hne|]. split; [|split].
  - apply (proj1 (Hkeys rep)) in Hrep.
    unfold ExcelReportGenerator.summary_for.
    destruct (find (fun s => String.eqb (ss_salesperson s) rep) summaries)
      as [s|] eqn:Efind.
    + apply find_some in Efind. destruct Efind as (Hs & Heq).
      apply String.eqb_eq in Heq. exists s.
      split; [reflexivity|]. split; [exact Hs|]. split; [exact Heq|].
      rewrite Hcustomers, <- Heq. now apply (summary_count_of config).
    + exfalso. apply in_map_iff in Hrep. destruct Hrep as (s & Heq & Hs).
      pose proof (find_none _ _ Efind s Hs) as Hneq. cbv beta in Hneq.
      rewrite Heq, String.eqb_refl in Hneq. discriminate.
  - apply sorted_desc_Permutation.
  - unfold ExcelReportGenerator.sheet_rows.
    eapply StronglySorted_impl;
      [|apply (sorted_desc_StronglySorted
                 (fun a b => Qltb (churn_risk_score b) (churn_risk_score a))
                 (Qgt_asym churn_risk_score)
                 (fun a b c => Qge_trans churn_risk_score a b c))].
    intros a b H. now apply Qltb_false.
Qed.

(** ** The first of the largest *)

Section FirstOfLargest.
Context {A : Type} (gt : A -> A -> bool).
Hypothesis gt_asym : forall a b, gt a b = true -> gt b a = false.
Hypothesis ge_trans :
  forall a b c, gt b a = false -> gt c b = false -> gt c a = false.

Lemma later_replaces_assoc (x y z : A) :
  (if gt z (if gt y x then y else x) then z else if gt y x then y else x)
  = (if gt (if gt z y then z else y) x then if gt z y then z else y else x).
Proof.
  destruct (gt y x) eqn:Eyx, (gt z y) eqn:Ezy; try reflexivity.
  - destruct (gt z x) eqn:Ezx; [reflexivity|].
    pose proof (gt_asym _ _ Eyx) as Hxy.
    pose proof (ge_trans y x z Hxy Ezx). congruence.
  - now rewrite Eyx.
  - now rewrite (ge_trans x y z Eyx Ezy), Eyx.
Qed.

Lemma max_by_cons (x y : A) (l : list A) :
  max_by gt x (y :: l)
  = (if gt (max_by gt y l) x then max_by gt y l else x).
Proof.
  unfold max_by. cbn [fold_left]. revert y.
  induction l as [|z l IH]; intro y; cbn [fold_left]; [reflexivity|].
  rewrite later_replaces_assoc. apply IH.
Qed.

Lemma sorted_desc_head (x : A) (l : list A) :
  exists others, sorted_desc gt (x :: l) = max_by gt x l :: others.
Proof.
  revert x. induction l as [|y l IH]; intro x.
  - now exists [].
  - destruct (IH y) as (others & Hy).
    change (sorted_desc gt (x :: y :: l))
      with (insert_desc gt x (sorted_desc gt (y :: l))).
    rewrite Hy, max_by_cons. cbn [insert_desc].
    destruct (gt (max_by gt y l) x); eauto.
Qed.
End FirstOfLargest.

Lemma insights_top_customer (c0 : DormantCustomer) (cs : list DormantCustomer)
      (top : SalespersonSummary) (rest : list SalespersonSummary) :
  let top_customer :=
    max_by (fun y best =>
              Qltb (total_6_month_value best) (total_6_month_value y)) c0 cs in
  Dict.get (_generate_insights (c0 :: cs) (top :: rest)) "top_priority_customer"
  = Some (TopPriorityCustomer (customer top_customer)
            (total_6_month_value top_customer) (salesperson top_customer)
            (churn_risk_score top_customer)).
Proof.
  unfold _generate_insights. cbv zeta.
  destruct (filter (fun s => (0 <? quick_win_count s)%Z) (top :: rest));
    destruct (Dict.items
                (count_patterns
                   (filter (fun c => truthy (seasonal_pattern c)) (c0 :: cs))));
    cbn [Dict.set Dict.get String.eqb Ascii.eqb Bool.eqb]; reflexivity.
Qed.

(** X27.  The consolidated sheet lists every dormant customer once, by
    descending window value, and its first row is the customer the
    insights name as the top priority customer. *)
Theorem consolidated_sheet_starts_with_top_customer
    (c0 : DormantCustomer) (cs : list DormantCustomer)
    (top : SalespersonSummary) (rest : list SalespersonSummary) :
  let ds := c0 :: cs in
  let rows := ExcelReportGenerator.sorted_customers ds in
  Permutation rows ds
  /\ StronglySorted
       (fun a b => total_6_month_value b <= total_6_month_value a) rows
  /\ exists first others,
       rows = first :: others
       /\ Dict.get (_generate_insights ds (top :: rest)) "top_priority_customer"
          = Some (TopPriorityCustomer (customer first)
                    (total_6_month_value first) (salesperson first)
                    (churn_risk_score first)).
Proof.
  intros ds rows. split; [apply sorted_desc_Permutation|]. split.
  - unfold rows, ExcelReportGenerator.sorted_customers.
    eapply StronglySorted_impl;
      [|apply (sorted_desc_StronglySorted
                 (fun a b => Qltb (total_6_month_value b) (total_6_month_value a))
                 (Qgt_asym total_6_month_value)
                 (fun a b c => Qge_trans total_6_month_value a b c))].
    intros a b H. now apply Qltb_false.
  - destruct (sorted_desc_head
                (fun a b => Qltb (total_6_month_value b) (total_6_month_value a))
                (Qgt_asym total_6_month_value)
                (fun a b c => Qge_trans total_6_month_value a b c) c0 cs)
      as (others & Hrows).
    eexists. exists others. split; [exact Hrows|].
    apply insights_top_customer.
Qed.

(** ** The accuracy score of a report *)

(** X19.  For a batch with records, the accuracy score of the report a
    run holds once the rows are reconciled is the weighted blend itself,
    the clamp leaving it as it is: 0.4 times the share of valid records,
    plus 0.3 times the share of records with a usable posted date, plus
    0.3 times the share of records not left without a salesperson;
    invalid prices take no part in it.  It lies in [[0, 1]]. *)
Theorem report_accuracy_score
    (sales_df : list RawRow) (planning_df : PlanningFrame) :
  (0 < len sales_df)%Z ->
  let report := quality_report_of sales_df planning_df in
  let total := inject_Z (total_records report) in
  _calculate_accuracy_score report
  == 0.4 * (inject_Z (valid_records report) / total)
     + 0.3 * (1 - inject_Z (invalid_dates report) / total)
     + 0.3 * (1 - inject_Z (missing_customer_mappings report) / total)
  /\ 0 <= _calculate_accuracy_score report <= 1.
Proof.
  intros Hpos report total. subst report total. unfold quality_report_of.
  cbv zeta.
  destruct (validate_counts sales_df) as (Hvalid & Htotal & Hdates & Hle).
  pose proof (invalid_prices_always_zero sales_df) as Hprices.
  set (clean := fst (DataValidator.validate_sales_data sales_df)) in *.
  set (report0 := snd (DataValidator.validate_sales_data sales_df)) in *.
  set (mapped := _apply_customer_mappings clean planning_df) in *.
  pose proof (isna_sum_bounds (map Salesperson mapped)) as Hb.
  replace (len (map Salesperson mapped)) with (len clean) in Hb
    by (unfold mapped, _apply_customer_mappings, len; now rewrite !length_map).
  assert (Hcompl : data_completeness_score report0
                   = if (0 <? len sales_df)%Z
                     then inject_Z (len clean) / inject_Z (len sales_df)
                     else 0) by reflexivity.
  unfold _calculate_accuracy_score.
  cbn [set_missing_customer_mappings total_records valid_records invalid_dates
       invalid_prices missing_customer_mappings data_completeness_score].
  destruct (total_records report0 =? 0)%Z eqn:E0;
    [apply Z.eqb_eq in E0; lia|].
  assert (Hlt : (0 <? len sales_df)%Z = true) by (apply Z.ltb_lt; lia).
  rewrite Hcompl, Hlt, Hprices, Z.add_0_r, Htotal, Hvalid in *.
  pose proof (len_nonneg clean) as Hclean.
  pose proof (unit_ratio (len clean) (len sales_df) ltac:(lia) ltac:(lia)) as R1.
  pose proof (unit_ratio (invalid_dates report0) (len sales_df)
                         ltac:(lia) ltac:(lia)) as R2.
  pose proof (unit_ratio (isna_sum (map Salesperson mapped)) (len sales_df)
                         ltac:(lia) ltac:(lia)) as R3.
  set (a := inject_Z (len clean) / inject_Z (len sales_df)) in *.
  set (b := inject_Z (invalid_dates report0) / inject_Z (len sales_df)) in *.
  set (c := inject_Z (isna_sum (map Salesperson mapped))
            / inject_Z (len sales_df)) in *.
  assert (Hid : min_ (max_ (a * 0.4 + (1 - b) * 0.3 + (1 - c) * 0.3) 0) 1
                == a * 0.4 + (1 - b) * 0.3 + (1 - c) * 0.3)
    by (apply clamp_id; lra).
  split; [rewrite Hid; lra|rewrite Hid; lra].
Qed.

(** ** Recency in the churn risk *)

(** X20.  When the churn-risk score of a customer is a number, it lies
    in [[0, 1]] and is at least the weight 0.4 of recency times the
    recency, [min(days / 90, 1)], of the days since the last order: a
    customer whose last order is 90 days old or older scores 0.4 or
    more. *)
Theorem churn_risk_recency_floor
    (customer_data : list Row) (config : AnalyticsConfig)
    (last : Timestamp) (q : Q) :
  Series_max (map Posted_date customer_data) = Some last ->
  AdvancedAnalytics.calculate_churn_risk_score customer_data config
  = Ok (Fin q) ->
  let days := days_between (today_date config) (Timestamp_date last) in
  0 <= q <= 1
  /\ min_ (inject_Z days / 90) 1 * 0.4 <= q
  /\ ((90 <= days)%Z -> 0.4 <= q).
Proof.
  intros Hlast Hscore days.
  assert (Hne : customer_data <> [])
    by (intros ->; discriminate Hlast).
  assert (Hmonths : analysis_period_months config <> 0%Z).
  { intro H0.
    rewrite (churn_risk_score_zero_months customer_data config Hne H0)
      in Hscore. discriminate. }
  destruct (value_trend_range customer_data) as [Hnan|(t & Ht & _)].
  { rewrite (churn_risk_score_nan _ _ _ Hlast Hmonths Hnan) in Hscore.
    discriminate. }
  rewrite (churn_risk_score_formula _ _ _ _ Hlast Hmonths Ht) in Hscore.
  injection Hscore as Heq.
  fold (days_between (today_date config) (Timestamp_date last)) in Heq.
  fold days in Heq.
  set (recency := min_ (inject_Z days / 90) 1) in *.
  pose proof (max_nonneg
                (1 - inject_Z (len customer_data)
                     / inject_Z (analysis_period_months config * 30))) as H1.
  pose proof (max_nonneg (1 - mean (map Net_price customer_data) / 1000)) as H2.
  pose proof (max_nonneg (1 - t)) as H3.
  assert (Hone : recency <= 1).
  { unfold recency, min_. destruct (Qltb 1 (inject_Z days / 90)) eqn:E;
      [lra|now apply Qltb_false in E]. }
  match type of Heq with
  | min_ (max_ ?x 0) 1 = q =>
      pose proof (clamp_bounds x) as Hbounds; rewrite Heq in Hbounds;
      assert (Hfloor : recency * 0.4 <= q);
      [destruct (Qlt_le_dec (recency * 0.4) 0) as [Hneg|Hpos];
       [lra|rewrite <- Heq; apply clamp_above; lra]|]
  end.
  split; [exact Hbounds|]. split; [exact Hfloor|].
  intro Hdays.
  assert (Hfull : recency == 1).
  { unfold recency, min_.
    assert (H90 : 1 <= inject_Z days / 90).
    { apply Qle_shift_div_l; [reflexivity|]. rewrite Qmult_1_l.
      change 90 with (inject_Z 90). rewrite <- Zle_Qle. exact Hdays. }
    destruct (Qltb 1 (inject_Z days / 90)) eqn:E; [reflexivity|].
    apply Qltb_false in E. lra. }
  rewrite Hfull in Hfloor. lra.
Qed.

(** ** Recommendations from the analytics *)

(** X23.  The recommendations for a customer are at most four lines.
    For a record whose seasonal pattern and preferred products are those
    the analytics give for a set of rows, the line on the timing of the
    outreach is present exactly when there are at least 6 rows, and then
    names one of the four seasons; the line on products lists all the
    preferred products. *)
Theorem recommendations_of_dormant_customer
    (customer_data : list Row) (d : DormantCustomer) :
  seasonal_pattern d
  = AdvancedAnalytics.identify_seasonal_patterns customer_data ->
  preferred_products d = product_prefs customer_data ->
  let recommendations := Api._generate_customer_recommendations d in
  (List.length recommendations <= 4)%nat
  /\ ((6 <= len customer_data)%Z ->
      exists label, seasonal_pattern d = Some label
                    /\ In label season_labels
                    /\ In (timing_line label) recommendations)
  /\ ((len customer_data < 6)%Z ->
      forall label, ~ In (timing_line label) recommendations)
  /\ (preferred_products d <> [] ->
      In ("Mention these products they previously enjoyed: "
          ++ String.concat ", " (preferred_products d))%string
         recommendations).
Proof.
  intros Hpattern Hprefs recommendations.
  pose proof (identify_seasonal_patterns_Some customer_data) as Hsix.
  rewrite <- Hpattern in Hsix.
  assert (Hlabel : forall label, seasonal_pattern d = Some label ->
                                 In label season_labels).
  { intros label E. rewrite Hpattern in E.
    exact (identify_seasonal_patterns_label _ _ E). }
  assert (Hall : firstn 3 (preferred_products d) = preferred_products d).
  { apply firstn_all2. rewrite Hprefs. apply product_prefs_length. }
  subst recommendations. rewrite recommendations_parts, Hall.
  split; [|split; [|split]].
  - rewrite !length_app.
    destruct (Qltb 0.7 (churn_risk_score d));
      destruct (preferred_products d);
      destruct (seasonal_pattern d) as [pattern|];
      try destruct (truthy (Some pattern)
                    && negb (String.eqb pattern "No clear pattern"));
      destruct (Qltb 1000 (total_6_month_value d)); simpl; lia.
  - intro Hcnt. apply (proj2 Hsix) in Hcnt.
    destruct (seasonal_pattern d) as [label|] eqn:E; [|congruence].
    exists label. pose proof (Hlabel label eq_refl) as Hin.
    split; [reflexivity|]. split; [exact Hin|].
    apply in_or_app; right. apply in_or_app; right. apply in_or_app; left.
    assert (Hok : truthy (Some label)
                  && negb (String.eqb label "No clear pattern") = true).
    { simpl in Hin.
      repeat (destruct Hin as [<-|Hin]; [reflexivity|]). destruct Hin. }
    rewrite Hok. now left.
  - intros Hcnt label Hin.
    destruct (seasonal_pattern d) as [pattern|] eqn:E.
    { assert (H6 : (6 <= len customer_data)%Z)
        by (apply (proj1 Hsix); discriminate).
      lia. }
    unfold timing_line in Hin.
    destruct (Qltb 0.7 (churn_risk_score d));
      destruct (preferred_products d);
      destruct (Qltb 1000 (total_6_month_value d));
      simpl in Hin; repeat (destruct Hin as [Hin|Hin]; [discriminate Hin|]);
      exact Hin.
  - intro Hne.
    apply in_or_app; right. apply in_or_app; left.
    destruct (preferred_products d); [congruence|]. now left.
Qed.

(* ===================================================================== *)
(** * Instances of the further properties *)
(* ===================================================================== *)

Lemma validate_recommendations_witness :
  recommendations (snd (DataValidator.validate_sales_data parsed_batch)) = [].
Proof.
  apply (proj2 (proj2 (validate_recommendations parsed_batch))).
  repeat constructor; eexists; reflexivity.
Defined.

Lemma reconciliation_needs_both_columns_witness :
  customer_mapping_of planning_table_customers_only = []
  /\ map Salesperson
         (_apply_customer_mappings old_rep_sales planning_table_customers_only)
     = map Salesperson old_rep_sales.
Proof.
  apply (reconciliation_needs_both_columns
           old_rep_sales planning_table_customers_only).
  right. reflexivity.
Defined.

Lemma last_planning_row_wins_witness :
  Forall (fun r => Salesperson r = Some "Angela Fultz")
         (_apply_customer_mappings old_rep_sales planning_table_two_rows).
Proof.
  apply Forall_forall. intros r Hr.
  assert (Hk : Customer r = "Customer A").
  { pose proof Hr as Hr'. vm_compute in Hr'.
    destruct Hr' as [<-|[]]. reflexivity. }
  apply (last_planning_row_wins "Customer" "Assigned Rep"
           [Some "Customer A"] [Some "Mike Allen"]
           "Customer A" "Angela Fultz" old_rep_sales r).
  - reflexivity.
  - reflexivity.
  - reflexivity.
  - exact Hr.
  - exact Hk.
Defined.

Lemma seasonal_label_is_peak_season_witness :
  In "Winter buyer"%string season_labels
  /\ exists month,
       (1 <= month <= 12)%Z
       /\ (0 < orders_in_month six_orders month)%Z
       /\ forall other, (orders_in_month six_orders other
                         <= orders_in_month six_orders month)%Z.
Proof.
  destruct (seasonal_label_is_peak_season six_orders "Winter buyer")
    as (Hlabel & _ & month & Hrange & _ & Hpos & Hpeak).
  - vm_compute. reflexivity.
  - split; [exact Hlabel|]. exists month. auto.
Defined.

Lemma preferred_products_are_top_three_witness :
  (List.length (product_prefs six_orders) <= 3)%nat
  /\ NoDup (product_prefs six_orders).
Proof.
  destruct (preferred_products_are_top_three six_orders) as (H3 & Hnd & _).
  split; [exact H3|exact Hnd].
Defined.

Lemma clean_sheet_name_valid_witness :
  ExcelReportGenerator._clean_sheet_name "Rep A_Dormant"
  = "Rep A_Dormant"%string.
Proof.
  apply (proj2 (proj2 (proj2 (clean_sheet_name_valid "Rep A_Dormant")))).
  - vm_compute. repeat constructor.
  - intros c Hbad Hin. vm_compute in Hbad, Hin.
    repeat (destruct Hbad as [<-|Hbad];
            [repeat (destruct Hin as [Hin|Hin]; [discriminate Hin|]);
             exact Hin|]).
    exact Hbad.
Defined.


Lemma summary_describes_its_customers_witness :
  Forall (fun s =>
            dormant_customer_count s
            = len (customers_of (ss_salesperson s) sample_customers))
         (_generate_salesperson_summaries test_config sample_customers).
Proof.
  apply Forall_forall. intros s Hs.
  exact (proj1 (proj2 (summary_describes_its_customers test_config _ s Hs))).
Defined.

Lemma report_accuracy_score_witness :
  0 <= _calculate_accuracy_score (quality_report_of parsed_batch planning_table)
  <= 1.
Proof.
  apply (report_accuracy_score parsed_batch planning_table). reflexivity.
Defined.

Lemma churn_risk_recency_floor_witness :
  match AdvancedAnalytics.calculate_churn_risk_score six_orders test_config with
  | Ok (Fin q) => 0 <= q <= 1 /\ min_ (inject_Z 78 / 90) 1 * 0.4 <= q
  | _ => False
  end.
Proof.
  destruct (AdvancedAnalytics.calculate_churn_risk_score six_orders test_config)
    as [[q| | |]|e] eqn:E; try (vm_compute in E; discriminate E).
  destruct (churn_risk_recency_floor six_orders test_config
              (at_midnight 739325%Z) q eq_refl E) as (Hbounds & Hfloor & _).
  split; [exact Hbounds|exact Hfloor].
Defined.

Lemma rep_performance_of_summaries_witness :
  match Api._generate_rep_performance_insights
          (_generate_salesperson_summaries test_config sample_customers) with
  | Some perf =>
      rp_total_value_at_risk perf
      == sum (map total_6_month_value sample_customers)
      /\ (List.length (needs_attention perf) <= 3)%nat
  | None => False
  end.
Proof.
  pose proof (rep_performance_of_summaries test_config sample_customers)
    as (Hnone & Hsome).
  destruct (Api._generate_rep_performance_insights
              (_generate_salesperson_summaries test_config sample_customers))
    as [perf|].
  - destruct (Hsome perf eq_refl) as (Hvalue & _ & _ & Hlength & _).
    split; [exact Hvalue|exact Hlength].
  - pose proof (proj1 Hnone eq_refl) as Hempty. discriminate Hempty.
Defined.

Lemma recommendations_of_dormant_customer_witness :
  exists label, In label season_labels
                /\ In (timing_line label)
                      (Api._generate_customer_recommendations cellar_six).
Proof.
  destruct (recommendations_of_dormant_customer six_orders cellar_six
              eq_refl eq_refl)
    as (_ & Htiming & _).
  destruct Htiming as (label & _ & Hlabel & Hline);
    [vm_compute; discriminate|].
  exists label. split; [exact Hlabel|exact Hline].
Defined.

Lemma rep_sheets_match_summaries_witness :
  Forall (fun sheet =>
            snd sheet = customers_of (fst sheet) sample_customers)
         (ExcelReportGenerator.rep_customers sample_customers).
Proof.
  apply Forall_forall. intros [rep customers] Hin.
  destruct (rep_sheets_match_summaries test_config sample_customers)
    as (_ & _ & Hsheets).
  exact (proj1 (Hsheets rep customers Hin)).
Defined.
